(** * pip-services3-sqlite-node: a shallow embedding of the SQLite
      persistence components and the properties of their behaviour.

    The first part embeds the package, module by module:
    - [Js]: the JavaScript data the components handle (strings that may be
      [null] or [undefined], values, objects as ordered property lists,
      error objects, the ways a call with a callback ends);
    - [Connect]: [SqliteConnectionResolver];
    - [Commons]: what the components use of the Pip.Services libraries,
      whose code is outside the package;
    - [Runtime]: the calls to the [sqlite3] binding, to the libraries and
      to the heap of objects, programs that issue such calls and continue
      in their callbacks, and the run of a program against an outside that
      is a parameter;
    - [SqliteConnection], [SqlitePersistence] (releases 3.0 and 3.1) and
      [IdentifiableSqlitePersistence].

    The second part states and proves the properties. [Example] holds an
    instance of the libraries and two small bindings on which the
    components run.

    Calls to the logger have no effect on any value the components compute
    and are left out throughout. [getOneRandom], [getListByIds],
    [deleteByIds] and the JSON variant of the identifiable persistence are
    not embedded. *)

From Stdlib Require Import ZArith Ascii String List Lia Bool.
From stdpp Require Import base option list strings gmap pretty.

Local Open Scope string_scope.
Local Open Scope Z_scope.
Local Open Scope list_scope.

(** ** JavaScript data *)

Module Js.

(** Strings are sequences of characters. What the code asks of a string
    (whether it starts with the file protocol, what follows its first seven
    characters, whether it contains an ASCII phrase, what its first
    character is) does not depend on how other characters are encoded. *)

(** The double-quote character (code 34). *)
Definition dquote : ascii := "034"%char.

(** A one-character string. *)
Definition str1 (c : ascii) : string := String c EmptyString.

(** [s.startsWith(p)]. *)
Definition startsWith (s p : string) : bool := String.prefix p s.

(** [s.substring(n)]: the string without its first [n] characters. *)
Fixpoint substring_from (n : nat) (s : string) : string :=
  match n, s with
  | O, _ => s
  | S _, EmptyString => EmptyString
  | S n', String _ s' => substring_from n' s'
  end.

(** [s.indexOf(p)]: the position of the first occurrence, [-1] when there
    is none. *)
Definition indexOf (s p : string) : Z :=
  match String.index 0 p s with
  | Some n => Z.of_nat n
  | None => -1
  end.

(** A value that the code handles as a string and that may be missing:
    [undefined], [null] or a string. *)
Inductive JsStr : Type :=
  | Undefined
  | Null
  | Str (s : string).

(** [v == null]: true of [null] and of [undefined]. *)
Definition is_null (v : JsStr) : bool :=
  match v with
  | Str _ => false
  | _ => true
  end.

(** [v] used as a condition: true when it is a non-empty string. *)
Definition truthy (v : JsStr) : bool :=
  match v with
  | Str (String _ _) => true
  | _ => false
  end.

(** [v] loosely equal to the empty string; [null] and [undefined] are
    not. *)
Definition is_empty_string (v : JsStr) : bool :=
  match v with
  | Str EmptyString => true
  | _ => false
  end.

(** The string that [+] appends for [v]. *)
Definition toString (v : JsStr) : string :=
  match v with
  | Undefined => "undefined"
  | Null => "null"
  | Str s => s
  end.

(** What a getter of the configuration library returns: a string or
    [null], never [undefined]. *)
Definition of_nullable (v : option string) : JsStr :=
  match v with
  | None => Null
  | Some s => Str s
  end.

(** Objects live in a heap and are referred to by location, the index at
    which the heap holds them. An object is the list of its own enumerable
    properties in enumeration order; rows and items are plain objects, so
    the prototype chain contributes no enumerable property. *)
Abbreviation loc := nat.

Inductive JsVal : Type :=
  | VUndefined
  | VNull
  | VBool (b : bool)
  | VNum (n : Z)
  | VStr (s : string)
  | VObj (l : loc).

Abbreviation JsObject := (list (string * JsVal)).

(** An item or a row, where the code holds one: [null] or an object. *)
Abbreviation Item := (option loc).

(** [o[k]]: the value of the first property named [k], [undefined] when
    there is none. *)
Fixpoint prop (o : JsObject) (k : string) : JsVal :=
  match o with
  | [] => VUndefined
  | (k', v) :: o' => if String.eqb k' k then v else prop o' k
  end.

(** [o[k] = v] on an object: the property keeps its place when it exists
    and is added last otherwise. *)
Fixpoint set_prop (o : JsObject) (k : string) (v : JsVal) : JsObject :=
  match o with
  | [] => [(k, v)]
  | (k', v') :: o' =>
      if String.eqb k' k then (k', v) :: o' else (k', v') :: set_prop o' k v
  end.

(** [v == null] on values. *)
Definition val_is_null (v : JsVal) : bool :=
  match v with
  | VUndefined | VNull => true
  | _ => false
  end.

(** [_.keys(o)] and [_.values(o)]. *)
Definition keys (o : JsObject) : list string := map fst o.
Definition values (o : JsObject) : list JsVal := map snd o.

(** Error objects. [message] is the [message] property, which a driver
    error may lack; [cause] is what [withCause] records. *)
Inductive ErrorKind : Type :=
  | ConfigException
  | ConnectionException
  | InvalidStateException
  | TypeError
  | PlainError
  | ExternalError.

Inductive Error : Type :=
  | MkError (kind : ErrorKind) (correlation_id : JsStr) (code : string)
            (message : option string)
  | WithCause (e : Error) (cause : Error).

Fixpoint message (e : Error) : option string :=
  match e with
  | MkError _ _ _ m => m
  | WithCause e' _ => message e'
  end.

Definition withCause (e : Error) (c : Error) : Error := WithCause e c.

(** How a call that takes a callback ends: the callback is invoked, or
    nothing is reported because no callback was given, or the call throws
    before it reports. *)
Inductive Completion (A : Type) : Type :=
  | Called (a : A)
  | NotCalled
  | Threw (e : Error).
Arguments Called {A} a.
Arguments NotCalled {A}.
Arguments Threw {A} e.

(** Calling something that is not a function. *)
Definition not_a_function : Error :=
  MkError TypeError Undefined "TypeError" (Some "callback is not a function").

(** Reading a property of [null] or [undefined]. *)
Definition null_dereference : Error :=
  MkError TypeError Undefined "TypeError" (Some "Cannot read property of null").

(** [if (callback) callback(args)]. *)
Definition call_if_given {A : Type} (callback : bool) (args : A) : Completion A :=
  if callback then Called args else NotCalled.

(** [callback(args)] without a test. *)
Definition call {A : Type} (callback : bool) (args : A) : Completion A :=
  if callback then Called args else Threw not_a_function.

(** [a.join(sep)] on an array of strings. *)
Fixpoint join (sep : string) (l : list string) : string :=
  match l with
  | [] => EmptyString
  | [x] => x
  | x :: rest => x +:+ sep +:+ join sep rest
  end.

End Js.

(** ** Connection resolution: [connect/SqliteConnectionResolver] *)

Module Connect.
Import Js.

(** A resolved connection, seen through the two getters the resolver
    uses: [getUri()] and [getAsNullableString("database")]. *)
Record ConnectionParams : Type := {
  getUri : option string;
  getDatabase : option string
}.

(** The resolved credential; the resolver passes it on without reading
    it. *)
Definition CredentialParams : Type := gmap string string.

(** The configuration object handed to the driver; [database] is
    [undefined] until it is assigned. *)
Record Config : Type := { database : JsStr }.

Definition file_protocol : string := "file://".

Definition validateConnection (correlationId : JsStr) (connection : ConnectionParams)
  : option Error :=
  match getUri connection with
  | Some uri =>
      if negb (startsWith uri file_protocol)
      then Some (MkError ConfigException correlationId "WRONG_PROTOCOL"
                   (Some "Connection protocol must be file://"))
      else None
  | None =>
      match getDatabase connection with
      | None => Some (MkError ConfigException correlationId "NO_DATABASE"
                        (Some "Connection database is not set"))
      | Some _ => None
      end
  end.

(** The loop of [validateConnections]: the first error in order. *)
Fixpoint validateEach (correlationId : JsStr) (connections : list ConnectionParams)
  : option Error :=
  match connections with
  | [] => None
  | connection :: rest =>
      match validateConnection correlationId connection with
      | Some error => Some error
      | None => validateEach correlationId rest
      end
  end.

Definition validateConnections (correlationId : JsStr)
    (connections : option (list ConnectionParams)) : option Error :=
  match connections with
  | None | Some [] =>
      Some (MkError ConfigException correlationId "NO_CONNECTION"
              (Some "Database connection is not set"))
  | Some cs => validateEach correlationId cs
  end.

(** One turn of the loop of [composeConfig]: two conditional
    assignments to [config.database]. *)
Definition composeStep (config : Config) (connection : ConnectionParams) : Config :=
  let config1 :=
    if truthy (of_nullable (getUri connection))
    then {| database := Str (substring_from 7 (default EmptyString (getUri connection))) |}
    else config in
  if truthy (of_nullable (getDatabase connection))
  then {| database := of_nullable (getDatabase connection) |}
  else config1.

Definition composeConfig (connections : list ConnectionParams)
    (credential : option CredentialParams) : Config :=
  fold_left composeStep connections {| database := Undefined |}.

(** The two lookups [resolve] starts with [async.parallel]. Each reports
    an error or a result; when both fail, the error that reaches the
    caller is the one of the task that fails first. *)
Inductive Task : Type := ConnectionTask | CredentialTask.

Record Lookups : Type := {
  resolveAll : option Error * option (list ConnectionParams);
  lookup : option Error * option CredentialParams;
  first_done : Task
}.

(** The error the first task hands to [async.parallel]: the error of
    [resolveAll], or else the outcome of validation. *)
Definition connectionTask (correlationId : JsStr) (l : Lookups) : option Error :=
  match fst (resolveAll l) with
  | Some err => Some err
  | None => validateConnections correlationId (snd (resolveAll l))
  end.

Definition credentialTask (l : Lookups) : option Error := fst (lookup l).

(** [resolve(correlationId, callback)]: the arguments [callback]
    receives. *)
Definition resolve (correlationId : JsStr) (l : Lookups) : option Error * option Config :=
  let err :=
    match connectionTask correlationId l, credentialTask l with
    | Some e1, Some e2 =>
        match first_done l with ConnectionTask => Some e1 | CredentialTask => Some e2 end
    | Some e1, None => Some e1
    | None, e2 => e2
    end in
  match err with
  | Some e => (Some e, None)
  | None =>
      (None, Some (composeConfig (default [] (snd (resolveAll l))) (snd (lookup l))))
  end.

End Connect.

(** ** What the components use of the Pip.Services libraries *)

Module Commons.
Import Js.

(** [ConfigParams]: a map from dotted keys to strings. *)
Abbreviation ConfigParams := (gmap string string).

(** [config.setDefaults(defaults)]: the entries of [config], and those of
    [defaults] for the keys [config] lacks. *)
Definition setDefaults (config defaults : ConfigParams) : ConfigParams :=
  config ∪ defaults.

(** The parts of pip-services3-commons-node whose code is outside this
    package are taken as parameters: [PagingParams] with its getters, the
    number converters and the string getter of [ConfigParams]. *)
Class Library : Type := {
  PagingParams : Type;
  newPagingParams : PagingParams;
  getSkip : PagingParams -> Z -> Z;
  getTake : PagingParams -> Z -> Z;
  total : PagingParams -> bool;
  toLong : JsVal -> Z;
  toNullableInteger : string -> option Z;
  getAsStringWithDefault : ConfigParams -> string -> JsStr -> JsStr
}.

(** [config.getAsIntegerWithDefault(key, defaultValue)]. *)
Definition getAsIntegerWithDefault `{Library} (config : ConfigParams) (key : string)
    (defaultValue : Z) : Z :=
  match config !! key with
  | Some v => default defaultValue (toNullableInteger v)
  | None => defaultValue
  end.

End Commons.

(** ** The calls the components make to the outside, and programs *)

Module Runtime.
Import Js Commons.

(** A [Database] object of the [sqlite3] binding. *)
Definition Handle : Type := nat.

(** Every call whose answer the components do not compute themselves,
    indexed by the type of the answer: the heap of objects, the [sqlite3]
    binding ([new Database], [close], [get], [all], [run], [exec]; the
    answer is what the binding passes to the callback), the two lookups of
    the connection resolver for the configurations given so far, and
    [IdGenerator.nextLong]. [NewDatabase] either throws or returns the new
    object and later reports an error or success. *)
Inductive Call : Type -> Type :=
  | Alloc (o : JsObject) : Call loc
  | Load (l : loc) : Call JsObject
  | Store (l : loc) (o : JsObject) : Call unit
  | NewDatabase (filename : JsStr) : Call (Error + Handle * option Error)
  | Close (h : Handle) : Call (option Error)
  | Get (h : Handle) (query : string) (params : list JsVal)
      : Call (option Error * option JsObject)
  | All (h : Handle) (query : string) (params : list JsVal)
      : Call (option Error * option (list JsObject))
  | Run (h : Handle) (query : string) (params : list JsVal) : Call (option Error)
  | Exec (h : Handle) (query : string) : Call (option Error)
  | Lookup (configs : list ConfigParams) : Call Connect.Lookups
  | NextLong : Call string.

(** A program issues a call and continues, when the call completes, with
    the function that the source passes as the callback; it ends by
    returning. A call in the continuation of another is therefore issued
    only once that one has completed. *)
Inductive Prog (R : Type) : Type :=
  | Ret (r : R)
  | Vis {X : Type} (c : Call X) (k : X -> Prog R).
Arguments Ret {R} r.
Arguments Vis {R X} c k.

Fixpoint bind {A B : Type} (m : Prog A) (f : A -> Prog B) : Prog B :=
  match m with
  | Ret a => f a
  | Vis c k => Vis c (fun x => bind (k x) f)
  end.

Definition perform {X : Type} (c : Call X) : Prog X := Vis c Ret.

Declare Scope prog_scope.
Delimit Scope prog_scope with prog.
Notation "x <- m ;; k" := (bind m (fun x => k))
  (at level 100, m at next level, right associativity) : prog_scope.

(** What the outside sees of a run: the calls to the binding and to the
    libraries, in the order in which they are issued. *)
Inductive Event : Type :=
  | EvNewDatabase (filename : JsStr)
  | EvClose (h : Handle)
  | EvGet (h : Handle) (query : string) (params : list JsVal)
  | EvAll (h : Handle) (query : string) (params : list JsVal)
  | EvRun (h : Handle) (query : string) (params : list JsVal)
  | EvExec (h : Handle) (query : string)
  | EvLookup
  | EvNextLong.

Definition event_of {X : Type} (c : Call X) : option Event :=
  match c with
  | Alloc _ | Load _ | Store _ _ => None
  | NewDatabase f => Some (EvNewDatabase f)
  | Close h => Some (EvClose h)
  | Get h q ps => Some (EvGet h q ps)
  | All h q ps => Some (EvAll h q ps)
  | Run h q ps => Some (EvRun h q ps)
  | Exec h q => Some (EvExec h q)
  | Lookup _ => Some EvLookup
  | NextLong => Some EvNextLong
  end.

(** The outside: a state (the database files, the discovery services,
    the generator of ids) and the answer it gives to each call. Nothing is
    assumed of it. *)
Record Outside : Type := {
  OutsideState : Type;
  answer : forall X : Type, Call X -> OutsideState -> X * OutsideState
}.

Section Run.
Context {O : Outside}.

Record World : Type := {
  heap : list JsObject;
  outside : OutsideState O;
  trace : list Event
}.

Definition log {X : Type} (c : Call X) (t : list Event) : list Event :=
  match event_of c with
  | Some e => t ++ [e]
  | None => t
  end.

(** The heap answers its own calls; every other call goes outside and is
    recorded. *)
Definition handle {X : Type} (c : Call X) (w : World) : X * World :=
  match c in Call T return T * World with
  | Alloc o =>
      (length (heap w),
       {| heap := heap w ++ [o]; outside := outside w; trace := trace w |})
  | Load l => (default [] (heap w !! l), w)
  | Store l o =>
      (tt, {| heap := <[l := o]> (heap w); outside := outside w; trace := trace w |})
  | c' =>
      let (x, s) := answer O _ c' (outside w) in
      (x, {| heap := heap w; outside := s; trace := log c' (trace w) |})
  end.

Fixpoint run {R : Type} (p : Prog R) (w : World) : R * World :=
  match p with
  | Ret r => (r, w)
  | Vis c k => let (x, w') := handle c w in run (k x) w'
  end.

End Run.
Arguments World : clear implicits.

End Runtime.

(** ** [persistence/SqliteConnection] *)

Module SqliteConnection.
Import Js Commons Runtime.
Local Open Scope prog_scope.

(** The fields of the component. [_configs] stands for the state of
    [_connectionResolver]: the configurations it has been given, in order.
    The [options] section that [configure] also stores is read nowhere and
    is left out. *)
Record State : Type := {
  _configs : list ConfigParams;
  _connection : option Handle;
  _databaseName : JsStr
}.

(** [new SqliteConnection()]. *)
Definition new : State :=
  {| _configs := []; _connection := None; _databaseName := Undefined |}.

(** [_defaultConfig] is empty. *)
Definition _defaultConfig : ConfigParams := ∅.

Definition configure (config : ConfigParams) (st : State) : State :=
  let config := setDefaults config _defaultConfig in
  {| _configs := _configs st ++ [config];
     _connection := _connection st;
     _databaseName := _databaseName st |}.

Definition isOpen (st : State) : bool :=
  match _connection st with
  | Some _ => true
  | None => false
  end.

Definition getConnection (st : State) : option Handle := _connection st.

Definition getDatabaseName (st : State) : JsStr := _databaseName st.

Definition connect_failed (correlationId : JsStr) : Error :=
  MkError ConnectionException correlationId "CONNECT_FAILED"
    (Some "Connection to sqlite failed").

Definition disconnect_failed (correlationId : JsStr) : Error :=
  MkError ConnectionException correlationId "DISCONNECT_FAILED"
    (Some "Disconnect from sqlite failed: ").

(** [open(correlationId, callback)]; [callback] tells whether a callback
    is given. *)
Definition open (correlationId : JsStr) (callback : bool) (st : State)
  : Prog (Completion (option Error) * State) :=
  l <- perform (Lookup (_configs st)) ;;
  match Connect.resolve correlationId l with
  | (Some err, _) => Ret (call_if_given callback (Some err), st)
  | (None, config) =>
      let filename := default Undefined (Connect.database <$> config) in
      r <- perform (NewDatabase filename) ;;
      match r with
      | inl ex =>
          let err := withCause (connect_failed correlationId) ex in
          Ret (call callback (Some err), st)
      | inr (db, Some err) =>
          let err := withCause (connect_failed correlationId) err in
          Ret (call_if_given callback (Some err), st)
      | inr (db, None) =>
          Ret (call_if_given callback None,
               {| _configs := _configs st;
                  _connection := Some db;
                  _databaseName := filename |})
      end
  end.

(** [close(correlationId, callback)]. *)
Definition close (correlationId : JsStr) (callback : bool) (st : State)
  : Prog (Completion (option Error) * State) :=
  match _connection st with
  | None => Ret (call_if_given callback None, st)
  | Some h =>
      err <- perform (Close h) ;;
      let err := withCause (disconnect_failed correlationId) <$> err in
      Ret (call_if_given callback err,
           {| _configs := _configs st; _connection := None; _databaseName := Null |})
  end.

(** The calls of the lifecycle, to run sequences of them. *)
Inductive Op : Type :=
  | Configure (config : ConfigParams)
  | Open (correlationId : JsStr) (callback : bool)
  | CloseOp (correlationId : JsStr) (callback : bool).

Definition step (op : Op) (st : State) : Prog State :=
  match op with
  | Configure config => Ret (configure config st)
  | Open correlationId callback =>
      r <- open correlationId callback st ;; Ret (snd r)
  | CloseOp correlationId callback =>
      r <- close correlationId callback st ;; Ret (snd r)
  end.

Fixpoint steps (ops : list Op) (st : State) : Prog State :=
  match ops with
  | [] => Ret st
  | op :: rest => st' <- step op st ;; steps rest st'
  end.

End SqliteConnection.

(** ** [persistence/SqlitePersistence] *)

Module SqlitePersistence.
Import Js Commons Runtime.
Local Open Scope prog_scope.

(** [new DataPage(data, total)]; [total] is [null] when it is not
    given. *)
Module DataPage.
Record t : Type := { data : list Item; total : option Z }.
End DataPage.

(** The argument of [generateColumns] and [generateParameters]: an array
    or a key-value map. *)
Inductive Values : Type :=
  | FromArray (a : list JsStr)
  | FromObject (o : JsObject).

(** The fields of the component. [_connection] holds the state of the
    connection component it refers to; [_references] and the dependency
    resolver only serve to find that component and are represented by
    the argument of [setReferences]. *)
Record State : Type := {
  _config : option ConfigParams;
  _opened : bool;
  _localConnection : bool;
  _schemaStatements : list string;
  _connection : option SqliteConnection.State;
  _client : option Handle;
  _databaseName : JsStr;
  _tableName : JsStr;
  _maxPageSize : Z
}.

Definition with_opened (b : bool) (st : State) : State :=
  {| _config := _config st; _opened := b; _localConnection := _localConnection st;
     _schemaStatements := _schemaStatements st; _connection := _connection st;
     _client := _client st; _databaseName := _databaseName st;
     _tableName := _tableName st; _maxPageSize := _maxPageSize st |}.

Definition with_connection (c : option SqliteConnection.State) (local : bool)
    (st : State) : State :=
  {| _config := _config st; _opened := _opened st; _localConnection := local;
     _schemaStatements := _schemaStatements st; _connection := c;
     _client := _client st; _databaseName := _databaseName st;
     _tableName := _tableName st; _maxPageSize := _maxPageSize st |}.

Definition with_client (h : option Handle) (st : State) : State :=
  {| _config := _config st; _opened := _opened st;
     _localConnection := _localConnection st;
     _schemaStatements := _schemaStatements st; _connection := _connection st;
     _client := h; _databaseName := _databaseName st;
     _tableName := _tableName st; _maxPageSize := _maxPageSize st |}.

Definition with_databaseName (n : JsStr) (st : State) : State :=
  {| _config := _config st; _opened := _opened st;
     _localConnection := _localConnection st;
     _schemaStatements := _schemaStatements st; _connection := _connection st;
     _client := _client st; _databaseName := n;
     _tableName := _tableName st; _maxPageSize := _maxPageSize st |}.

Definition with_schemaStatements (l : list string) (st : State) : State :=
  {| _config := _config st; _opened := _opened st;
     _localConnection := _localConnection st;
     _schemaStatements := l; _connection := _connection st;
     _client := _client st; _databaseName := _databaseName st;
     _tableName := _tableName st; _maxPageSize := _maxPageSize st |}.

(** [_defaultConfig]. Its entry for [collection] is [null], which every
    getter reads as a missing entry. *)
Definition _defaultConfig : ConfigParams :=
  list_to_map
    [("dependencies.connection", "*:connection:sqlite:*:1.0");
     ("options.max_pool_size", "2");
     ("options.keep_alive", "1");
     ("options.connect_timeout", "5000");
     ("options.auto_reconnect", "true");
     ("options.max_page_size", "100");
     ("options.debug", "true")].

(** [new SqlitePersistence(tableName)]. *)
Definition new (tableName : JsStr) : State :=
  {| _config := None; _opened := false; _localConnection := false;
     _schemaStatements := []; _connection := None; _client := None;
     _databaseName := Undefined; _tableName := tableName; _maxPageSize := 100 |}.

Section WithLibrary.
Context `{Library}.

Definition configure (config : ConfigParams) (st : State) : State :=
  let config := setDefaults config _defaultConfig in
  let tableName := getAsStringWithDefault config "collection" (_tableName st) in
  let tableName := getAsStringWithDefault config "table" tableName in
  {| _config := Some config; _opened := _opened st;
     _localConnection := _localConnection st;
     _schemaStatements := _schemaStatements st; _connection := _connection st;
     _client := _client st; _databaseName := _databaseName st;
     _tableName := tableName;
     _maxPageSize :=
       getAsIntegerWithDefault config "options.max_page_size" (_maxPageSize st) |}.

Definition createConnection (st : State) : SqliteConnection.State :=
  let connection := SqliteConnection.new in
  match _config st with
  | Some config => SqliteConnection.configure config connection
  | None => connection
  end.

(** [setReferences(references)]; [found] is the connection component
    that the references hold, if any. *)
Definition setReferences (found : option SqliteConnection.State) (st : State) : State :=
  match found with
  | None => with_connection (Some (createConnection st)) true st
  | Some c => with_connection (Some c) false st
  end.

Definition unsetReferences (st : State) : State :=
  with_connection None (_localConnection st) st.

Definition quoteIdentifier (value : JsStr) : JsStr :=
  match value with
  | Undefined | Null | Str EmptyString => value
  | Str (String c _ as v) =>
      if Ascii.eqb c dquote then value
      else Str (str1 dquote +:+ v +:+ str1 dquote)
  end.

Definition ensureSchema (schemaStatement : string) (st : State) : State :=
  with_schemaStatements (_schemaStatements st ++ [schemaStatement]) st.

Definition autoCreateObject (schemaStatement : string) (st : State) : State :=
  ensureSchema schemaStatement st.

Definition clearSchema (st : State) : State := with_schemaStatements [] st.

(** The options of [ensureIndex]. *)
Record IndexOptions : Type := { unique : bool; type : JsStr }.

(** [ensureIndex(name, keys, options)]; [keys] lists the fields with the
    truth value of their direction. *)
Definition ensureIndex (name : JsStr) (keys : list (string * bool))
    (options : option IndexOptions) (st : State) : State :=
  let options := default {| unique := false; type := Undefined |} options in
  let builder := "CREATE" in
  let builder := if unique options then builder +:+ " UNIQUE" else builder in
  let builder := builder +:+ " INDEX IF NOT EXISTS " +:+ toString (quoteIdentifier name)
                 +:+ " ON " +:+ toString (quoteIdentifier (_tableName st)) in
  let builder := if truthy (type options)
                 then builder +:+ " " +:+ toString (type options) else builder in
  let fields :=
    fold_left
      (fun fields (key : string * bool) =>
         let fields := if negb (String.eqb fields EmptyString)
                       then fields +:+ ", " else fields in
         let fields := fields +:+ toString (quoteIdentifier (Str (fst key))) in
         if negb (snd key) then fields +:+ " DESC" else fields)
      keys EmptyString in
  let builder := builder +:+ "(" +:+ fields +:+ ")" in
  autoCreateObject builder st.

(** The hooks, as this class defines them. *)
Definition convertToPublic (value : Item) : Item := value.
Definition convertFromPublic (value : Item) : Item := value.

Definition isOpen (st : State) : bool := _opened st.

(** [this._client.m(...)] throws when [_client] is [null]. *)
Definition using_client {A : Type} (st : State)
    (k : Handle -> Prog (Completion A)) : Prog (Completion A) :=
  match _client st with
  | Some h => k h
  | None => Ret (Threw null_dereference)
  end.

(** [async.eachSeries] over the schema statements: each is executed once
    the one before has succeeded; the first error ends the series. *)
Fixpoint execEach (h : Handle) (statements : list string) : Prog (option Error) :=
  match statements with
  | [] => Ret None
  | dml :: rest =>
      err <- perform (Exec h dml) ;;
      match err with
      | Some e => Ret (Some e)
      | None => execEach h rest
      end
  end.

(** The body shared by [createSchema] (release 3.1) and
    [autoCreateObjects] (release 3.0), which differ in the probe query. *)
Definition createObjects (query : string) (st : State) : Prog (Completion (option Error)) :=
  match _schemaStatements st with
  | [] => Ret (Called None)
  | _ :: _ =>
      using_client st (fun h =>
        r <- perform (Get h query []) ;;
        match fst r with
        | None => Ret (Called None)
        | Some err =>
            match message err with
            | None => Ret (Called (Some err))
            | Some m =>
                if indexOf m "no such table" <? 0 then Ret (Called (Some err))
                else
                  e <- execEach h (_schemaStatements st) ;;
                  Ret (Called e)
            end
        end)
  end.

Definition createSchema (correlationId : JsStr) (st : State)
  : Prog (Completion (option Error)) :=
  createObjects
    ("SELECT * FROM " +:+ toString (quoteIdentifier (_tableName st)) +:+ " LIMIT 1") st.

Definition autoCreateObjects (correlationId : JsStr) (st : State)
  : Prog (Completion (option Error)) :=
  createObjects ("SELECT * FROM '" +:+ toString (_tableName st) +:+ "' LIMIT 1") st.

(** What the override of [defineSchema] in a child class does to the
    schema statements; the method of this class does nothing, and release
    3.0 has no such method. *)
Variable defineSchema : list string -> list string.

(** [openCurl], the continuation of [open] once the connection has been
    dealt with; [create] is [createSchema] or [autoCreateObjects]. *)
Definition openCurl
    (create : JsStr -> State -> Prog (Completion (option Error)))
    (correlationId : JsStr) (callback : bool) (err : option Error) (st : State)
  : Prog (Completion (option Error) * State) :=
  let err :=
    match err, _connection st with
    | None, None =>
        Some (MkError InvalidStateException correlationId "NO_CONNECTION"
                (Some "SQLite connection is missing"))
    | _, _ => err
    end in
  let err :=
    match err, _connection st with
    | None, Some c =>
        if negb (SqliteConnection.isOpen c)
        then Some (MkError ConnectionException correlationId "CONNECT_FAILED"
                     (Some "SQLite connection is not opened"))
        else None
    | _, _ => err
    end in
  let st := with_opened false st in
  match err with
  | Some e => Ret (call_if_given callback (Some e), st)
  | None =>
      let st := with_client (_connection st ≫= SqliteConnection.getConnection) st in
      let st := with_databaseName
                  (default Undefined (SqliteConnection.getDatabaseName <$> _connection st))
                  st in
      let st := with_schemaStatements (defineSchema (_schemaStatements st)) st in
      r <- create correlationId st ;;
      match r with
      | Called (Some err) =>
          let err := withCause (SqliteConnection.connect_failed correlationId) err in
          Ret (call_if_given callback (Some err), st)
      | Called None => Ret (call_if_given callback None, with_opened true st)
      | NotCalled => Ret (NotCalled, st)
      | Threw e => Ret (Threw e, st)
      end
  end.

Definition open_with
    (create : JsStr -> State -> Prog (Completion (option Error)))
    (correlationId : JsStr) (callback : bool) (st : State)
  : Prog (Completion (option Error) * State) :=
  if _opened st then Ret (call callback None, st)
  else
    let st :=
      match _connection st with
      | None => with_connection (Some (createConnection st)) true st
      | Some _ => st
      end in
    if _localConnection st then
      match _connection st with
      | None => Ret (Threw null_dereference, st)
      | Some c =>
          r <- SqliteConnection.open correlationId true c ;;
          let st := with_connection (Some (snd r)) (_localConnection st) st in
          match fst r with
          | Called err => openCurl create correlationId callback err st
          | NotCalled => Ret (NotCalled, st)
          | Threw e => Ret (Threw e, st)
          end
      end
    else openCurl create correlationId callback None st.

(** [open] of release 3.1 and of release 3.0. *)
Definition open := open_with createSchema.
Definition open_3_0 := open_with autoCreateObjects.

Definition close (correlationId : JsStr) (callback : bool) (st : State)
  : Prog (Completion (option Error) * State) :=
  if negb (_opened st) then Ret (call callback None, st)
  else
    match _connection st with
    | None =>
        Ret (call callback
               (Some (MkError InvalidStateException correlationId "NO_CONNECTION"
                        (Some "Sqlite connection is missing"))), st)
    | Some c =>
        let closeCurl (err : option Error) (st : State) :=
          (call_if_given callback err, with_client None (with_opened false st)) in
        if _localConnection st then
          r <- SqliteConnection.close correlationId true c ;;
          let st := with_connection (Some (snd r)) (_localConnection st) st in
          match fst r with
          | Called err => Ret (closeCurl err st)
          | NotCalled => Ret (NotCalled, st)
          | Threw e => Ret (Threw e, st)
          end
        else Ret (closeCurl None st)
    end.

Definition clear (correlationId : JsStr) (callback : bool) (st : State)
  : Prog (Completion (option Error)) :=
  if is_null (_tableName st)
  then Ret (call_if_given callback
              (Some (MkError PlainError Undefined "Error" (Some "Table name is not defined"))))
  else
    let query := "DELETE FROM " +:+ toString (quoteIdentifier (_tableName st)) in
    using_client st (fun h =>
      err <- perform (Exec h query) ;;
      let err := withCause (SqliteConnection.connect_failed correlationId) <$> err in
      Ret (call_if_given callback err)).

(** The names a loop over [values] visits: the elements of an array, the
    keys of a map. *)
Definition names (values : Values) : list JsStr :=
  match values with
  | FromArray a => a
  | FromObject o => Str <$> keys o
  end.

Definition generateColumns (values : Values) : string :=
  fold_left
    (fun result value =>
       let result := if negb (String.eqb result EmptyString)
                     then result +:+ "," else result in
       result +:+ toString (quoteIdentifier value))
    (names values) EmptyString.

Definition generateParameters (values : Values) : string :=
  fold_left
    (fun result (value : JsStr) =>
       let result := if negb (String.eqb result EmptyString)
                     then result +:+ "," else result in
       result +:+ "?")
    (names values) EmptyString.

Definition generateSetParameters (values : JsObject) : string :=
  fold_left
    (fun result column =>
       let result := if negb (String.eqb result EmptyString)
                     then result +:+ "," else result in
       result +:+ toString (quoteIdentifier (Str column)) +:+ "=?")
    (keys values) EmptyString.

Definition generateValues (values : JsObject) : list JsVal := Js.values values.

(** [_.isEmpty(v)] on a string or a missing value. *)
Definition isEmpty (v : JsStr) : bool :=
  match v with
  | Str (String _ _) => false
  | _ => true
  end.

(** The own properties of an item that is not [null]. *)
Definition properties (l : loc) : Prog JsObject := perform (Load l).

(** The rows the binding returns are new objects. *)
Definition newObject (row : JsObject) : Prog Item :=
  l <- perform (Alloc row) ;; Ret (Some l).

(** [_.map(items, this.convertToPublic)]; [items] may be [undefined]. *)
Fixpoint newObjects (rows : list JsObject) : Prog (list Item) :=
  match rows with
  | [] => Ret []
  | row :: rest =>
      item <- newObject row ;;
      items <- newObjects rest ;;
      Ret (convertToPublic item :: items)
  end.

(** The query of [getPageByFilter] for the rows. *)
Definition pageQuery (st : State) (filter : JsStr) (paging : option PagingParams)
    (sort select : JsStr) : string :=
  let select := if truthy select && negb (isEmpty select) then select else Str "*" in
  let query := "SELECT " +:+ toString select +:+ " FROM "
               +:+ toString (quoteIdentifier (_tableName st)) in
  let paging := default newPagingParams paging in
  let skip := getSkip paging (-1) in
  let take := getTake paging (_maxPageSize st) in
  let query := if truthy filter && negb (is_empty_string filter)
               then query +:+ " WHERE " +:+ toString filter else query in
  let query := if truthy sort && negb (isEmpty sort)
               then query +:+ " ORDER BY " +:+ toString sort else query in
  let query := query +:+ " LIMIT " +:+ pretty take in
  if 0 <=? skip then query +:+ " OFFSET " +:+ pretty skip else query.

(** The query that counts, in [getPageByFilter]. *)
Definition pageCountQuery (st : State) (filter : JsStr) : string :=
  let query := "SELECT COUNT(*) AS count FROM "
               +:+ toString (quoteIdentifier (_tableName st)) in
  if negb (is_null filter) && negb (is_empty_string filter)
  then query +:+ " WHERE " +:+ toString filter else query.

Definition getPageByFilter (correlationId : JsStr) (filter : JsStr)
    (paging : option PagingParams) (sort select : JsStr) (callback : bool) (st : State)
  : Prog (Completion (option Error * option DataPage.t)) :=
  let query := pageQuery st filter paging sort select in
  let pagingEnabled := total (default newPagingParams paging) in
  using_client st (fun h =>
    r <- perform (All h query []) ;;
    match fst r with
    | Some err => Ret (call callback (Some err, None))
    | None =>
        items <- newObjects (default [] (snd r)) ;;
        if pagingEnabled then
          r <- perform (Get h (pageCountQuery st filter) []) ;;
          match fst r with
          | Some err => Ret (call callback (Some err, None))
          | None =>
              let count :=
                match snd r with
                | Some result => toLong (prop result "count")
                | None => 0
                end in
              Ret (call callback
                     (None, Some {| DataPage.data := items; DataPage.total := Some count |}))
          end
        else
          Ret (call callback
                 (None, Some {| DataPage.data := items; DataPage.total := None |}))
    end).

Definition countQuery (st : State) (filter : JsStr) : string :=
  let query := "SELECT COUNT(*) AS count FROM "
               +:+ toString (quoteIdentifier (_tableName st)) in
  if truthy filter && negb (is_empty_string filter)
  then query +:+ " WHERE " +:+ toString filter else query.

Definition getCountByFilter (correlationId : JsStr) (filter : JsStr) (callback : bool)
    (st : State) : Prog (Completion (option Error * option Z)) :=
  using_client st (fun h =>
    r <- perform (Get h (countQuery st filter) []) ;;
    match fst r with
    | Some err => Ret (call callback (Some err, None))
    | None =>
        let count :=
          match snd r with
          | Some result => toLong (prop result "count")
          | None => 0
          end in
        Ret (call callback (None, Some count))
    end).

Definition listQuery (st : State) (filter sort select : JsStr) : string :=
  let select := if truthy select && negb (isEmpty select) then select else Str "*" in
  let query := "SELECT " +:+ toString select +:+ " FROM "
               +:+ toString (quoteIdentifier (_tableName st)) in
  let query := if truthy filter && negb (is_empty_string filter)
               then query +:+ " WHERE " +:+ toString filter else query in
  if truthy sort && negb (isEmpty sort)
  then query +:+ " ORDER BY " +:+ toString sort else query.

Definition getListByFilter (correlationId : JsStr) (filter sort select : JsStr)
    (callback : bool) (st : State)
  : Prog (Completion (option Error * option (list Item))) :=
  using_client st (fun h =>
    r <- perform (All h (listQuery st filter sort select) []) ;;
    match fst r with
    | Some err => Ret (call callback (Some err, None))
    | None =>
        items <- newObjects (default [] (snd r)) ;;
        Ret (call callback (None, Some items))
    end).

(** [create(correlationId, item, callback)] of this class. *)
Definition create (correlationId : JsStr) (item : Item) (callback : bool) (st : State)
  : Prog (Completion (option Error * Item)) :=
  match item with
  | None => Ret (call callback (None, None))
  | Some _ =>
    let row := convertFromPublic item in
    o <- match row with Some l => properties l | None => Ret [] end ;;
    let columns := generateColumns (FromObject o) in
    let params := generateParameters (FromObject o) in
    let values := generateValues o in
    let query := "INSERT INTO " +:+ toString (quoteIdentifier (_tableName st))
                 +:+ " (" +:+ columns +:+ ") VALUES (" +:+ params +:+ ")" in
    using_client st (fun h =>
      err <- perform (Run h query values) ;;
      let newItem := item in
      Ret (call callback (err, newItem)))
  end.

Definition deleteQuery (st : State) (filter : JsStr) : string :=
  let query := "DELETE FROM " +:+ toString (quoteIdentifier (_tableName st)) in
  if negb (is_null filter) && negb (is_empty_string filter)
  then query +:+ " WHERE " +:+ toString filter else query.

Definition deleteByFilter (correlationId : JsStr) (filter : JsStr) (callback : bool)
    (st : State) : Prog (Completion (option Error)) :=
  using_client st (fun h =>
    err <- perform (Run h (deleteQuery st filter) []) ;;
    Ret (call_if_given callback err)).

End WithLibrary.
End SqlitePersistence.

(** ** [persistence/IdentifiableSqlitePersistence] *)

Module IdentifiableSqlitePersistence.
Import Js Commons Runtime SqlitePersistence.
Local Open Scope prog_scope.

(** The constructor refuses a missing table name. *)
Definition new (tableName : JsStr) : Error + State :=
  if is_null tableName
  then inl (MkError PlainError Undefined "Error" (Some "Table name could not be null"))
  else inr (SqlitePersistence.new tableName).

Section WithLibrary.
Context `{Library}.

Definition convertFromPublicPartial (value : Item) : Item := convertFromPublic value.

(** A value used as a condition. *)
Definition val_truthy (v : JsVal) : bool :=
  match v with
  | VUndefined | VNull => false
  | VBool b => b
  | VNum n => negb (n =? 0)
  | VStr s => negb (String.eqb s EmptyString)
  | VObj _ => true
  end.

Definition selectById (st : State) : string :=
  "SELECT * FROM " +:+ toString (quoteIdentifier (_tableName st)) +:+ " WHERE id=?".

(** [result ? this.convertToPublic(result) : null] on what [get]
    returns. *)
Definition publicItem (result : option JsObject) : Prog Item :=
  match result with
  | Some row => item <- newObject row ;; Ret (convertToPublic item)
  | None => Ret None
  end.

Definition getOneById (correlationId : JsStr) (id : JsVal) (callback : bool) (st : State)
  : Prog (Completion (option Error * Item)) :=
  using_client st (fun h =>
    r <- perform (Get h (selectById st) [id]) ;;
    item <- publicItem (snd r) ;;
    Ret (call callback (fst r, item))).

(** [_.clone(item)] followed by the assignment of a generated id; gives
    the clone. *)
Definition cloneWithId (o : JsObject) : Prog loc :=
  newItem <- perform (Alloc o) ;;
  id <- (if val_truthy (prop o "id") then Ret (prop o "id")
         else s <- perform NextLong ;; Ret (VStr s)) ;;
  _ <- perform (Store newItem (set_prop o "id" id)) ;;
  Ret newItem.

Definition create (correlationId : JsStr) (item : Item) (callback : bool) (st : State)
  : Prog (Completion (option Error * Item)) :=
  match item with
  | None => Ret (call callback (None, None))
  | Some l =>
      o <- properties l ;;
      if val_is_null (prop o "id") then
        newItem <- cloneWithId o ;;
        SqlitePersistence.create correlationId (Some newItem) callback st
      else SqlitePersistence.create correlationId item callback st
  end.

(** The read-back that ends [set], [update] and [updatePartially]: the
    callback of [run], which selects the row by id and reports it. *)
Definition readBack (h : Handle) (id : JsVal) (callback : bool) (st : State)
  : Prog (Completion (option Error * Item)) :=
  r <- perform (Get h (selectById st) [id]) ;;
  newItem <- publicItem (snd r) ;;
  Ret (call_if_given callback (fst r, newItem)).

Definition set (correlationId : JsStr) (item : Item) (callback : bool) (st : State)
  : Prog (Completion (option Error * Item)) :=
  match item with
  | None => Ret (call_if_given callback (None, None))
  | Some l =>
      o <- properties l ;;
      item <- (if val_is_null (prop o "id")
               then newItem <- perform (Alloc o) ;;
                    s <- perform NextLong ;;
                    _ <- perform (Store newItem (set_prop o "id" (VStr s))) ;;
                    Ret newItem
               else Ret l) ;;
      row <- properties item ;;
      let columns := generateColumns (FromObject row) in
      let params := generateParameters (FromObject row) in
      let setParams := generateSetParameters row in
      let values := generateValues row in
      let values := values ++ values in
      let query := "INSERT INTO " +:+ toString (quoteIdentifier (_tableName st))
                   +:+ " (" +:+ columns +:+ ") VALUES (" +:+ params +:+ ")" in
      let query := query +:+ " ON CONFLICT(id) DO UPDATE SET " +:+ setParams in
      using_client st (fun h =>
        err <- perform (Run h query values) ;;
        readBack h (prop row "id") callback st)
  end.

Definition updateQuery (st : State) (params : string) : string :=
  "UPDATE " +:+ toString (quoteIdentifier (_tableName st)) +:+ " SET " +:+ params
  +:+ " WHERE id=?".

Definition update (correlationId : JsStr) (item : Item) (callback : bool) (st : State)
  : Prog (Completion (option Error * Item)) :=
  match item with
  | None => Ret (call_if_given callback (None, None))
  | Some l =>
      row <- properties l ;;
      if val_is_null (prop row "id") then Ret (call_if_given callback (None, None))
      else
        let params := generateSetParameters row in
        let values := generateValues row in
        let values := values ++ [prop row "id"] in
        using_client st (fun h =>
          err <- perform (Run h (updateQuery st params) values) ;;
          readBack h (prop row "id") callback st)
  end.

(** [updatePartially(correlationId, id, data, callback)]; [data] is
    [null] or the map whose [getAsObject()] is the given object. *)
Definition updatePartially (correlationId : JsStr) (id : JsVal) (data : option JsObject)
    (callback : bool) (st : State) : Prog (Completion (option Error * Item)) :=
  match data with
  | None => Ret (call_if_given callback (None, None))
  | Some row =>
      if val_is_null id then Ret (call_if_given callback (None, None))
      else
        let params := generateSetParameters row in
        let values := generateValues row in
        let values := values ++ [id] in
        using_client st (fun h =>
          err <- perform (Run h (updateQuery st params) values) ;;
          readBack h id callback st)
  end.

Definition deleteByIdQuery (st : State) : string :=
  "DELETE FROM " +:+ toString (quoteIdentifier (_tableName st)) +:+ " WHERE id=?".

Definition deleteById (correlationId : JsStr) (id : JsVal) (callback : bool) (st : State)
  : Prog (Completion (option Error * Item)) :=
  using_client st (fun h =>
    r <- perform (Get h (selectById st) [id]) ;;
    newItem <- publicItem (snd r) ;;
    match newItem with
    | None => Ret (call_if_given callback (fst r, newItem))
    | Some _ =>
        err <- perform (Run h (deleteByIdQuery st) [id]) ;;
        Ret (call_if_given callback (err, newItem))
    end).

End WithLibrary.
End IdentifiableSqlitePersistence.

(** * Properties *)

(** ** Strings *)

Module JsFacts.
Import Js.

Lemma app_nil_l (s : string) : EmptyString +:+ s = s.
Proof. reflexivity. Qed.

Lemma app_cons (c : ascii) (s t : string) : String c s +:+ t = String c (s +:+ t).
Proof. reflexivity. Qed.

Lemma app_empty_r (s : string) : s +:+ EmptyString = s.
Proof. induction s as [|c s IH]; [reflexivity|]. rewrite app_cons. now f_equal. Qed.

Lemma app_assoc (a b c : string) : (a +:+ b) +:+ c = a +:+ (b +:+ c).
Proof.
  induction a as [|x a IH]; [reflexivity|]. rewrite !app_cons. now f_equal.
Qed.

Lemma app_eq_empty (a b : string) :
  a +:+ b = EmptyString -> a = EmptyString /\ b = EmptyString.
Proof. destruct a; [auto | rewrite app_cons; discriminate]. Qed.

Lemma eqb_empty (s : string) :
  String.eqb s EmptyString = match s with EmptyString => true | _ => false end.
Proof. now destruct s. Qed.

Lemma startsWith_app (p s : string) : startsWith (p +:+ s) p = true.
Proof.
  unfold startsWith. induction p as [|c p IH].
  - now destruct s.
  - rewrite app_cons. simpl.
    destruct (ascii_dec c c) as [_|Hne]; [exact IH | now destruct Hne].
Qed.

Lemma startsWith_split (s p : string) :
  startsWith s p = true -> s = p +:+ substring_from (String.length p) s.
Proof.
  unfold startsWith. revert s. induction p as [|c p IH]; intros s H.
  - reflexivity.
  - destruct s as [|d s]; simpl in H; [discriminate|].
    destruct (ascii_dec c d) as [E|E]; [subst d|discriminate].
    rewrite app_cons. simpl. f_equal. now apply IH.
Qed.

End JsFacts.

(** ** [quoteIdentifier] *)

(** C10. [quoteIdentifier] is idempotent; it returns [null], [undefined]
    and the empty string unchanged, a string that starts with a double
    quote unchanged, and every other string between two double quotes. *)
Theorem quoteIdentifier_idempotent :
  (forall v, SqlitePersistence.quoteIdentifier (SqlitePersistence.quoteIdentifier v)
             = SqlitePersistence.quoteIdentifier v)
  /\ SqlitePersistence.quoteIdentifier Js.Null = Js.Null
  /\ SqlitePersistence.quoteIdentifier Js.Undefined = Js.Undefined
  /\ SqlitePersistence.quoteIdentifier (Js.Str EmptyString) = Js.Str EmptyString
  /\ (forall c s,
        SqlitePersistence.quoteIdentifier (Js.Str (String c s))
        = if Ascii.eqb c Js.dquote
          then Js.Str (String c s)
          else Js.Str (String Js.dquote (String c s +:+ Js.str1 Js.dquote))).
Proof.
  repeat split.
  - intros [| |[|c s]]; simpl; try reflexivity.
    destruct (Ascii.eqb c Js.dquote) eqn:E; simpl.
    + now rewrite E.
    + reflexivity.
Qed.

(** ** [SqliteConnectionResolver.resolve] *)

Module ConnectFacts.
Import Js Connect.

(** A uri that does not start with the file protocol. *)
Definition wrong_protocol (c : ConnectionParams) : bool :=
  match getUri c with
  | Some u => negb (startsWith u file_protocol)
  | None => false
  end.

(** No uri and no database parameter. *)
Definition no_database (c : ConnectionParams) : bool :=
  match getUri c, getDatabase c with
  | None, None => true
  | _, _ => false
  end.

(** The four causes of failure that concern the connections: resolution
    fails, there is no connection, a uri has the wrong protocol, a
    connection without uri has no database. *)
Definition connection_failure (l : Lookups) : bool :=
  match resolveAll l with
  | (Some _, _) => true
  | (None, None) | (None, Some []) => true
  | (None, Some cs) => existsb wrong_protocol cs || existsb no_database cs
  end.

(** The database of one connection as it is stated: its database
    parameter when present, else its uri without its first seven
    characters. *)
Definition database_if_present (acc : JsStr) (c : ConnectionParams) : JsStr :=
  match getDatabase c with
  | Some d => Str d
  | None =>
      match getUri c with
      | Some u => Str (substring_from 7 u)
      | None => acc
      end
  end.

(** The statement that [resolve] fails exactly for the four causes and
    otherwise takes, for the connections in order, the database parameter
    when it is present and else the uri. *)
Definition fails_only_for_connections (correlationId : JsStr) (l : Lookups) : Prop :=
  ((exists e, resolve correlationId l = (Some e, None)) <-> connection_failure l = true)
  /\ (connection_failure l = false ->
      resolve correlationId l
      = (None, Some {| database :=
                         fold_left database_if_present
                           (default [] (snd (resolveAll l))) Undefined |})).

(** What a connection contributes to the database field: its database
    parameter when that is a non-empty string, else its uri, when that is
    a non-empty string, without its first seven characters. *)
Definition contribution (c : ConnectionParams) : option string :=
  match getDatabase c, getUri c with
  | Some (String _ _ as d), _ => Some d
  | _, Some (String _ _ as u) => Some (substring_from 7 u)
  | _, _ => None
  end.

(** The contribution of the last connection, in order, that has one. *)
Fixpoint last_contribution (cs : list ConnectionParams) : option string :=
  match cs with
  | [] => None
  | c :: rest =>
      match last_contribution rest with
      | Some d => Some d
      | None => contribution c
      end
  end.

Definition composed_database (cs : list ConnectionParams) : JsStr :=
  match last_contribution cs with
  | Some d => Str d
  | None => Undefined
  end.

Lemma composeStep_database (config : Config) (c : ConnectionParams) :
  database (composeStep config c)
  = match contribution c with Some d => Str d | None => database config end.
Proof.
  unfold composeStep, contribution.
  destruct (getDatabase c) as [[|a d]|], (getUri c) as [[|b u]|]; reflexivity.
Qed.

Lemma fold_composeStep (cs : list ConnectionParams) (config : Config) :
  database (fold_left composeStep cs config)
  = match last_contribution cs with Some d => Str d | None => database config end.
Proof.
  revert config. induction cs as [|c cs IH]; intros config; simpl.
  - reflexivity.
  - rewrite IH, composeStep_database.
    destruct (last_contribution cs), (contribution c); reflexivity.
Qed.

Lemma composeConfig_database cs credential :
  composeConfig cs credential = {| database := composed_database cs |}.
Proof.
  unfold composeConfig, composed_database.
  pose proof (fold_composeStep cs {| database := Undefined |}) as E.
  destruct (fold_left composeStep cs _) as [d]. simpl in E. now rewrite E.
Qed.

Lemma validateConnection_None correlationId c :
  validateConnection correlationId c = None
  <-> wrong_protocol c = false /\ no_database c = false.
Proof.
  unfold validateConnection, wrong_protocol, no_database.
  destruct (getUri c) as [u|];
    [destruct (startsWith u file_protocol) | destruct (getDatabase c)];
    simpl; intuition discriminate.
Qed.

Lemma validateEach_None correlationId cs :
  validateEach correlationId cs = None
  <-> existsb wrong_protocol cs || existsb no_database cs = false.
Proof.
  induction cs as [|c cs IH]; simpl; [easy|].
  destruct (validateConnection correlationId c) eqn:E.
  - split; [discriminate|]. intros H.
    assert (validateConnection correlationId c = None) as E'.
    { apply validateConnection_None.
      destruct (wrong_protocol c), (no_database c); simpl in H;
        rewrite ?orb_true_r in H; try discriminate; auto. }
    congruence.
  - apply validateConnection_None in E as [-> ->]. simpl. exact IH.
Qed.

Lemma connectionTask_None correlationId l :
  connectionTask correlationId l = None <-> connection_failure l = false.
Proof.
  unfold connectionTask, connection_failure, validateConnections.
  destruct (resolveAll l) as [[e|] [[|c cs]|]]; simpl; try easy.
  apply (validateEach_None correlationId (c :: cs)).
Qed.

Lemma resolve_cases correlationId l :
  (connectionTask correlationId l = None /\ credentialTask l = None
   /\ resolve correlationId l
      = (None, Some (composeConfig (default [] (snd (resolveAll l))) (snd (lookup l)))))
  \/ ((connectionTask correlationId l <> None \/ credentialTask l <> None)
      /\ exists e, resolve correlationId l = (Some e, None)).
Proof.
  unfold resolve.
  destruct (connectionTask correlationId l) as [e1|], (credentialTask l) as [e2|].
  - right. split; [now left|]. destruct (first_done l); eauto.
  - right. split; [now left|]. eauto.
  - right. split; [now right|]. eauto.
  - left. auto.
Qed.

Lemma valid_uri_prefix cs :
  existsb wrong_protocol cs = false ->
  forall c u, In c cs -> getUri c = Some u ->
    u = file_protocol +:+ substring_from 7 u.
Proof.
  intros H c u Hin Hu.
  assert (wrong_protocol c = false) as Hc.
  { destruct (wrong_protocol c) eqn:E; [|reflexivity].
    assert (existsb wrong_protocol cs = true) by (apply existsb_exists; eauto).
    congruence. }
  unfold wrong_protocol in Hc. rewrite Hu in Hc.
  apply negb_false_iff in Hc.
  exact (JsFacts.startsWith_split u file_protocol Hc).
Qed.

Lemma no_failure_protocols l :
  connection_failure l = false ->
  forall c, In c (default [] (snd (resolveAll l))) -> wrong_protocol c = false.
Proof.
  unfold connection_failure.
  destruct (resolveAll l) as [[e|] [[|c0 cs]|]]; try discriminate.
  intros Hf c Hin. simpl default in Hin.
  apply orb_false_iff in Hf as [Hw _].
  destruct (wrong_protocol c) eqn:E; [|reflexivity].
  assert (existsb wrong_protocol (c0 :: cs) = true) by (apply existsb_exists; eauto).
  congruence.
Qed.

(** One turn of the loop on a connection whose uri has the protocol and
    whose database parameter is not the empty string. *)
Lemma composeStep_if_present (config : Config) (c : ConnectionParams) :
  wrong_protocol c = false -> getDatabase c <> Some EmptyString ->
  database (composeStep config c) = database_if_present (database config) c.
Proof.
  unfold composeStep, database_if_present, wrong_protocol.
  destruct (getDatabase c) as [[|a d]|], (getUri c) as [[|b u]|]; simpl;
    try reflexivity; try congruence; discriminate.
Qed.

Lemma fold_if_present (cs : list ConnectionParams) (config : Config) :
  (forall c, In c cs -> wrong_protocol c = false /\ getDatabase c <> Some EmptyString) ->
  database (fold_left composeStep cs config)
  = fold_left database_if_present cs (database config).
Proof.
  revert config. induction cs as [|c cs IH]; intros config Hall; simpl.
  - reflexivity.
  - rewrite IH by (intros c' Hin; apply Hall; now right).
    f_equal. apply composeStep_if_present; apply (Hall c); now left.
Qed.

(** Two inputs: a failing credential lookup next to a valid connection,
    and a connection that has a uri and a database parameter. *)
Definition lookups_credential_fails : Lookups :=
  {| resolveAll := (None, Some [{| getUri := None; getDatabase := Some "./data/test.db" |}]);
     lookup := (Some (MkError ExternalError Null "REF_ERROR" (Some "no credential store")), None);
     first_done := ConnectionTask |}.

Definition lookups_uri_and_database : Lookups :=
  {| resolveAll := (None, Some [{| getUri := Some "file://./data/test.db";
                                   getDatabase := Some "./data/other.db" |}]);
     lookup := (None, None);
     first_done := ConnectionTask |}.

End ConnectFacts.

(** C1, as stated, fails for a failing credential lookup: with one valid
    connection, whose database parameter is [./data/test.db], and a
    credential lookup that reports an error, none of the four causes holds
    and [resolve] delivers the error of the lookup with a null config. *)
Lemma resolve_not_only_connections :
  ConnectFacts.connection_failure ConnectFacts.lookups_credential_fails = false
  /\ Connect.resolve Js.Null ConnectFacts.lookups_credential_fails
     = (Some (Js.MkError Js.ExternalError Js.Null "REF_ERROR" (Some "no credential store")),
        None)
  /\ ~ ConnectFacts.fails_only_for_connections Js.Null
         ConnectFacts.lookups_credential_fails.
Proof.
  split; [reflexivity|]. split; [reflexivity|].
  intros [[H _] _].
  assert (ConnectFacts.connection_failure ConnectFacts.lookups_credential_fails = true)
    as E by (apply H; eexists; reflexivity).
  discriminate E.
Qed.

(** C1, amended. [resolve] delivers an error and a null config exactly
    when one of the four causes of the connections holds or the credential
    lookup fails. Otherwise, for connections whose database parameter is
    null or a non-empty string, as [getAsNullableString] reads it, it
    delivers a config whose database field is, taking the connections in
    order, the database parameter of the connection when present and else
    its uri without its first seven characters, which are [file://]. *)
Theorem resolve_outcome (correlationId : Js.JsStr) (l : Connect.Lookups) :
  ((exists e, Connect.resolve correlationId l = (Some e, None))
   <-> ConnectFacts.connection_failure l = true \/ fst (Connect.lookup l) <> None)
  /\ (ConnectFacts.connection_failure l = false -> fst (Connect.lookup l) = None ->
      (forall c, In c (default [] (snd (Connect.resolveAll l))) ->
         Connect.getDatabase c <> Some EmptyString) ->
      Connect.resolve correlationId l
      = (None, Some {| Connect.database :=
                         fold_left ConnectFacts.database_if_present
                           (default [] (snd (Connect.resolveAll l))) Js.Undefined |})
      /\ forall c u, In c (default [] (snd (Connect.resolveAll l))) ->
           Connect.getUri c = Some u ->
           u = "file://" +:+ Js.substring_from 7 u).
Proof.
  pose proof (ConnectFacts.resolve_cases correlationId l) as Hc.
  pose proof (ConnectFacts.connectionTask_None correlationId l) as Ht.
  unfold Connect.credentialTask in Hc.
  split; [split|].
  - intros [e He]. destruct Hc as [(_ & _ & E)|[[Hn|Hn] _]].
    + congruence.
    + left. destruct (ConnectFacts.connection_failure l); [reflexivity|].
      destruct Hn. now apply Ht.
    + now right.
  - intros Hf. destruct Hc as [(E1 & E2 & _)|[_ He]]; [|exact He].
    destruct Hf as [Hf|Hf]; [|congruence].
    apply Ht in E1. congruence.
  - intros Hf Hl Hread. destruct Hc as [(_ & _ & E)|[[Hn|Hn] _]].
    + pose proof (ConnectFacts.no_failure_protocols l Hf) as Hw.
      split.
      * rewrite E. unfold Connect.composeConfig.
        pose proof (ConnectFacts.fold_if_present
                      (default [] (snd (Connect.resolveAll l)))
                      {| Connect.database := Js.Undefined |}) as Hfold.
        destruct (fold_left Connect.composeStep _ _) as [d]. simpl in Hfold.
        rewrite Hfold; [reflexivity|].
        intros c Hin. split; [now apply Hw | now apply Hread].
      * intros c u Hin Hu.
        pose proof (Hw c Hin) as Hcw.
        unfold ConnectFacts.wrong_protocol in Hcw. rewrite Hu in Hcw.
        apply negb_false_iff in Hcw.
        exact (JsFacts.startsWith_split u Connect.file_protocol Hcw).
    + destruct Hn. now apply Ht.
    + congruence.
Qed.

Lemma resolve_outcome_witness :
  Connect.resolve Js.Null ConnectFacts.lookups_uri_and_database
  = (None, Some {| Connect.database := Js.Str "./data/other.db" |}).
Proof.
  apply (resolve_outcome Js.Null ConnectFacts.lookups_uri_and_database);
    try reflexivity.
  intros c [<-|[]]. discriminate.
Defined.

(** ** The generators of column and parameter lists *)

Module GenerateFacts.
Import Js JsFacts SqlitePersistence.

(** The loop the four generators share: a comma goes before a term
    whenever the result so far is not empty. *)
Definition add_term (f : JsStr -> string) (result : string) (value : JsStr) : string :=
  (if negb (String.eqb result EmptyString) then result +:+ "," else result) +:+ f value.

(** The terms after the first, each behind its comma. *)
Fixpoint rest_terms (l : list string) : string :=
  match l with
  | [] => EmptyString
  | x :: l' => "," +:+ x +:+ rest_terms l'
  end.

Lemma join_cons (x : string) (l : list string) :
  join "," (x :: l) = x +:+ rest_terms l.
Proof.
  revert x. induction l as [|y l IH]; intros x.
  - simpl. now rewrite app_empty_r.
  - change (join "," (x :: y :: l)) with (x +:+ "," +:+ join "," (y :: l)).
    now rewrite IH.
Qed.

Lemma fold_add_term_nonempty (f : JsStr -> string) (l : list JsStr) (acc : string) :
  acc <> EmptyString ->
  fold_left (add_term f) l acc = acc +:+ rest_terms (f <$> l).
Proof.
  revert acc. induction l as [|x l IH]; intros acc Hacc; simpl.
  - now rewrite app_empty_r.
  - assert (add_term f acc x = acc +:+ "," +:+ f x) as E.
    { unfold add_term. rewrite eqb_empty. destruct acc; [congruence|].
      simpl. now rewrite !app_assoc. }
    rewrite E, IH.
    + now rewrite !app_assoc.
    + intros Hn. apply app_eq_empty in Hn as [Hn _]. congruence.
Qed.

(** The loop joins the terms by commas when the first term is not
    empty. *)
Lemma fold_add_term_join (f : JsStr -> string) (l : list JsStr) :
  match l with x :: _ => f x <> EmptyString | [] => True end ->
  fold_left (add_term f) l EmptyString = join "," (f <$> l).
Proof.
  destruct l as [|x l]; [reflexivity|]. intros Hx.
  change (fold_left (add_term f) l (f x) = join "," (f x :: (f <$> l))).
  rewrite join_cons. now apply fold_add_term_nonempty.
Qed.

Lemma quoted_nonempty (k : string) :
  k <> EmptyString -> toString (quoteIdentifier (Str k)) <> EmptyString.
Proof.
  destruct k as [|c k]; [congruence|]. intros _. simpl.
  destruct (Ascii.eqb c dquote); discriminate.
Qed.

(** The column of a key, its placeholder and its set term. *)
Definition column (k : string) : string := toString (quoteIdentifier (Str k)).
Definition placeholder (k : string) : string := "?".
Definition set_term (k : string) : string := column k +:+ "=?".

(** [generateParameters] and [generateSetParameters] on every map, and
    [generateColumns] on the maps whose first key is not empty, join by
    commas the terms of the keys taken in the order of [generateValues]. *)
Lemma generators_join (o : JsObject) :
  generateParameters (FromObject o) = join "," (placeholder <$> keys o)
  /\ generateSetParameters o = join "," (set_term <$> keys o)
  /\ generateValues o = snd <$> o
  /\ length (generateValues o) = length (keys o)
  /\ (match keys o with k :: _ => k <> EmptyString | [] => True end ->
      generateColumns (FromObject o) = join "," (column <$> keys o)).
Proof.
  repeat split.
  - unfold generateParameters, names.
    change (fold_left (add_term (fun _ => "?")) (Str <$> keys o) EmptyString
            = join "," (placeholder <$> keys o)).
    rewrite fold_add_term_join.
    + now rewrite <- list_fmap_compose.
    + now destruct (keys o).
  - unfold generateSetParameters.
    assert (forall l acc,
      fold_left (fun result column0 =>
        (if negb (String.eqb result EmptyString) then result +:+ "," else result)
        +:+ toString (quoteIdentifier (Str column0)) +:+ "=?") l acc
      = fold_left (add_term (fun v => toString (quoteIdentifier v) +:+ "=?")) (Str <$> l) acc) as E.
    { induction l as [|x l IH]; intros acc; [reflexivity|]. simpl. now rewrite IH. }
    rewrite E, fold_add_term_join.
    + now rewrite <- list_fmap_compose.
    + destruct (keys o) as [|k ?]; [exact I|]. simpl. intros Hn.
      apply app_eq_empty in Hn as [_ Hn]. discriminate.
  - unfold generateValues, Js.values, keys. now rewrite !length_map.
  - intros Hk. unfold generateColumns, names.
    change (fold_left (add_term (fun v => toString (quoteIdentifier v))) (Str <$> keys o)
              EmptyString = join "," (column <$> keys o)).
    rewrite fold_add_term_join.
    + now rewrite <- list_fmap_compose.
    + destruct (keys o) as [|k ?]; [exact I|]. now apply quoted_nonempty.
Qed.

Lemma placeholders_replicate (l : list string) :
  placeholder <$> l = replicate (length l) "?".
Proof. induction l as [|x l IH]; [reflexivity|]. simpl. f_equal. exact IH. Qed.

(** A row whose first key is the empty string. *)
Definition row_with_empty_key : JsObject := [(EmptyString, VNum 1); ("a", VNum 2)].

End GenerateFacts.

(** C4, at a row map whose first of two keys is the empty string:
    [generateColumns] returns one column, without a comma, where joining
    the two quoted keys gives a comma and that column, and where
    [generateParameters] returns two placeholders and [generateValues] two
    values. *)
Theorem generateColumns_drops_comma_after_empty_key :
  SqlitePersistence.generateColumns
    (SqlitePersistence.FromObject GenerateFacts.row_with_empty_key)
  = GenerateFacts.column "a"
  /\ Js.join "," (GenerateFacts.column <$> Js.keys GenerateFacts.row_with_empty_key)
     = "," +:+ GenerateFacts.column "a"
  /\ SqlitePersistence.generateParameters
       (SqlitePersistence.FromObject GenerateFacts.row_with_empty_key) = "?,?"
  /\ SqlitePersistence.generateSetParameters GenerateFacts.row_with_empty_key
     = "=?," +:+ GenerateFacts.column "a" +:+ "=?"
  /\ SqlitePersistence.generateValues GenerateFacts.row_with_empty_key
     = [Js.VNum 1; Js.VNum 2].
Proof. repeat split. Qed.

(** ** Running programs *)

Module RunFacts.
Import Js Runtime.

Section Facts.
Context {O : Outside}.

Lemma run_bind {A B : Type} (m : Prog A) (f : A -> Prog B) (w : World O) :
  run (bind m f) w = run (f (fst (run m w))) (snd (run m w)).
Proof.
  revert w. induction m as [a|X c k IH]; intros w; simpl.
  - reflexivity.
  - destruct (handle c w) as [x w']. apply IH.
Qed.

End Facts.

End RunFacts.

(** ** An instance of the libraries and of the outside, to run the
       components on *)

Module Example.
Import Js Commons Runtime.

(** Paging parameters: the items to skip, the items to take, and whether
    the total is asked for. *)
Record Paging : Type := { skip : option Z; take : option Z; with_total : bool }.

(** Decimal numerals. *)

Definition digit (c : ascii) : option Z :=
  let n := Z.of_nat (nat_of_ascii c) in
  if (48 <=? n) && (n <=? 57) then Some (n - 48) else None.

Fixpoint digits (s : string) (acc : Z) : option Z :=
  match s with
  | EmptyString => Some acc
  | String c s' =>
      match digit c with
      | Some d => digits s' (10 * acc + d)
      | None => None
      end
  end.

(** A library whose getters bound the skip from below and the take from
    above, whose converters read numbers and decimal numerals, and whose
    string getter passes over missing and empty entries. *)
#[export] Instance library : Library := {|
  PagingParams := Paging;
  newPagingParams := {| skip := None; take := None; with_total := false |};
  getSkip p minSkip :=
    match skip p with
    | None => minSkip
    | Some s => if s <? minSkip then minSkip else s
    end;
  getTake p maxTake :=
    match take p with
    | None => maxTake
    | Some t => if t <? 0 then 0 else if maxTake <? t then maxTake else t
    end;
  total := with_total;
  toLong v := match v with VNum n => n | _ => 0 end;
  toNullableInteger s := match s with EmptyString => None | _ => digits s 0 end;
  getAsStringWithDefault config key defaultValue :=
    match config !! key with
    | Some (String _ _ as s) => Str s
    | _ => defaultValue
    end
|}.

(** The first page of at most 500 items, with the total. *)
Definition first_page : @PagingParams library :=
  {| skip := Some 0; take := Some 500; with_total := true |}.

(** Equality of values, to find a row by its id. *)
Definition val_eqb (a b : JsVal) : bool :=
  match a, b with
  | VUndefined, VUndefined | VNull, VNull => true
  | VBool x, VBool y => Bool.eqb x y
  | VNum x, VNum y => x =? y
  | VStr x, VStr y => String.eqb x y
  | VObj x, VObj y => Nat.eqb x y
  | _, _ => false
  end.

(** A binding with one table of rows, found by their [id]; the table may
    be missing, and schema statements create it. *)
Record Files : Type := {
  table : option (list JsObject);
  generated : nat;
  lookups : Connect.Lookups
}.

Definition table_missing : Error :=
  MkError ExternalError Undefined "SQLITE_ERROR" (Some "SQLITE_ERROR: no such table: dummies").

Definition io_error : Error :=
  MkError ExternalError Undefined "SQLITE_IOERR" (Some "SQLITE_IOERR: disk I/O error").

Definition find_row (id : JsVal) (rows : list JsObject) : option JsObject :=
  List.find (fun row => val_eqb (prop row "id") id) rows.

Definition answer (X : Type) (c : Call X) (s : Files) : X * Files :=
  match c in Call T return T * Files with
  | Alloc _ => (0%nat, s)
  | Load _ => ([], s)
  | Store _ _ => (tt, s)
  | NewDatabase _ => (inr (1%nat, None), s)
  | Close _ => (None, s)
  | Get _ _ params =>
      match table s with
      | None => ((Some table_missing, None), s)
      | Some rows =>
          match params with
          | [] => ((None, Some [("count", VNum (Z.of_nat (length rows)))]), s)
          | id :: _ => ((None, find_row id rows), s)
          end
      end
  | All _ _ _ =>
      match table s with
      | None => ((Some table_missing, None), s)
      | Some rows => ((None, Some rows), s)
      end
  | Run _ _ params =>
      match table s with
      | None => (Some table_missing, s)
      | Some rows =>
          (None, {| table := Some (rows ++ [[("id", List.last params VNull)]]);
                    generated := generated s; lookups := lookups s |})
      end
  | Exec _ _ =>
      (None, {| table := Some (default [] (table s));
                generated := generated s; lookups := lookups s |})
  | Lookup _ => (lookups s, s)
  | NextLong =>
      ("id" +:+ pretty (Z.of_nat (generated s)),
       {| table := table s; generated := S (generated s); lookups := lookups s |})
  end.

Definition files : Outside := {| OutsideState := Files; Runtime.answer := answer |}.

(** A binding whose every statement fails with an input-output error. *)
Definition broken_answer (X : Type) (c : Call X) (s : Files) : X * Files :=
  match c in Call T return T * Files with
  | Get _ _ _ => ((Some io_error, None), s)
  | All _ _ _ => ((Some io_error, None), s)
  | Run _ _ _ => (Some io_error, s)
  | Exec _ _ => (Some io_error, s)
  | Close _ => (Some io_error, s)
  | c' => answer _ c' s
  end.

Definition broken_files : Outside :=
  {| OutsideState := Files; Runtime.answer := broken_answer |}.

Definition one_connection : Connect.Lookups :=
  {| Connect.resolveAll :=
       (None, Some [{| Connect.getUri := None;
                       Connect.getDatabase := Some "./data/test.db" |}]);
     Connect.lookup := (None, None);
     Connect.first_done := Connect.ConnectionTask |}.

(** A world at the start of a run, for each of the two bindings. *)
Definition world (h : list JsObject) (s : Files) : World files :=
  {| heap := h; outside := s : OutsideState files; trace := [] |}.

Definition broken_world (h : list JsObject) (s : Files) : World broken_files :=
  {| heap := h; outside := s : OutsideState broken_files; trace := [] |}.

(** An opened component on the table [dummies]. *)
Definition dummies : SqlitePersistence.State :=
  SqlitePersistence.with_client (Some 1%nat) (SqlitePersistence.new (Str "dummies")).

Definition no_table : Files :=
  {| table := None; generated := 0; lookups := one_connection |}.

Definition one_row : Files :=
  {| table := Some [[("id", VStr "1"); ("key", VStr "Key 1")]];
     generated := 0; lookups := one_connection |}.

End Example.

(** ** Operations of the persistence components *)

Module PersistenceFacts.
Import Js Commons Runtime RunFacts SqlitePersistence.

Section Facts.
Context `{Library} {O : Outside}.

(** An operation that reports a null error and a null item to the
    callback it is given and leaves the heap, the outside and the trace as
    they are: it sends no statement and changes no state. *)
Definition does_nothing (w : World O)
    (op : bool -> Prog (Completion (option Error * Item))) : Prop :=
  (forall callback, snd (run (op callback) w) = w)
  /\ fst (run (op true) w) = Called (None, None).

(** The WHERE clause of a filter: present when the filter is neither
    [null] nor empty. *)
Definition where_clause (filter : JsStr) : string :=
  match filter with
  | Str (String _ _ as f) => " WHERE " +:+ f
  | _ => EmptyString
  end.

Definition from_table (st : State) : string :=
  toString (quoteIdentifier (_tableName st)).

Definition select_from (st : State) (select : JsStr) : string :=
  "SELECT " +:+ (if truthy select then toString select else "*") +:+ " FROM "
  +:+ from_table st.

Definition order_by (sort : JsStr) : string :=
  if truthy sort then " ORDER BY " +:+ toString sort else EmptyString.

Lemma listQuery_parts st filter sort sel :
  listQuery st filter sort sel
  = select_from st sel +:+ where_clause filter +:+ order_by sort.
Proof.
  unfold listQuery, select_from, where_clause, order_by, from_table.
  destruct sel as [| |[|a s]], filter as [| |[|b f]], sort as [| |[|c o]]; simpl;
    rewrite ?JsFacts.app_assoc, ?JsFacts.app_empty_r; reflexivity.
Qed.

Lemma countQuery_parts st filter :
  countQuery st filter
  = "SELECT COUNT(*) AS count FROM " +:+ from_table st +:+ where_clause filter.
Proof.
  unfold countQuery, where_clause, from_table.
  destruct filter as [| |[|b f]]; simpl;
    rewrite ?JsFacts.app_assoc, ?JsFacts.app_empty_r; reflexivity.
Qed.

Lemma pageCountQuery_countQuery st filter :
  pageCountQuery st filter = countQuery st filter.
Proof.
  unfold pageCountQuery, countQuery. now destruct filter as [| |[|b f]].
Qed.

Lemma deleteQuery_parts st filter :
  deleteQuery st filter = "DELETE FROM " +:+ from_table st +:+ where_clause filter.
Proof.
  unfold deleteQuery, where_clause, from_table.
  destruct filter as [| |[|b f]]; simpl;
    rewrite ?JsFacts.app_assoc, ?JsFacts.app_empty_r; reflexivity.
Qed.

(** The LIMIT and OFFSET clauses of a page. *)
Definition limit_offset (st : State) (paging : option PagingParams) : string :=
  let paging := default newPagingParams paging in
  " LIMIT " +:+ pretty (getTake paging (_maxPageSize st))
  +:+ (if 0 <=? getSkip paging (-1)
       then " OFFSET " +:+ pretty (getSkip paging (-1)) else EmptyString).

Lemma pageQuery_parts st filter paging sort select :
  pageQuery st filter paging sort select
  = listQuery st filter sort select +:+ limit_offset st paging.
Proof.
  unfold pageQuery, listQuery, limit_offset.
  destruct (0 <=? getSkip (default newPagingParams paging) (-1));
    rewrite ?JsFacts.app_assoc, ?JsFacts.app_empty_r; reflexivity.
Qed.


(** The rows of the binding become new objects at the end of the heap;
    nothing else changes. *)
Lemma run_newObjects (rows : list JsObject) (w : World O) :
  run (newObjects rows) w
  = (Some <$> seq (length (heap w)) (length rows),
     {| heap := heap w ++ rows; outside := outside w; trace := trace w |}).
Proof.
  revert w. induction rows as [|row rows IH]; intros w.
  - simpl. rewrite app_nil_r. now destruct w.
  - simpl. rewrite run_bind, IH. simpl.
    rewrite length_app, Nat.add_1_r, <- app_assoc. reflexivity.
Qed.

Lemma run_publicItem (result : option JsObject) (w : World O) :
  run (IdentifiableSqlitePersistence.publicItem result) w
  = match result with
    | Some row =>
        (Some (length (heap w)),
         {| heap := heap w ++ [row]; outside := outside w; trace := trace w |})
    | None => (None, w)
    end.
Proof. now destruct result. Qed.

(** What the binding answers to a statement sent in the world [w], and
    the world once it has answered. *)
Definition answered {X : Type} (c : Call X) (w : World O) : X :=
  fst (answer O X c (outside w)).

Definition after {X : Type} (c : Call X) (w : World O) : World O :=
  {| heap := heap w;
     outside := snd (answer O X c (outside w));
     trace := log c (trace w) |}.

Lemma run_perform {X R : Type} (c : Call X) (k : X -> Prog R) (w : World O) :
  event_of c <> None ->
  run (Vis c k) w = run (k (answered c w)) (after c w).
Proof.
  intros Hc. unfold answered, after. simpl.
  destruct c; simpl in Hc; try congruence; simpl;
    destruct (answer O _ _ (outside w)); reflexivity.
Qed.

End Facts.
End PersistenceFacts.

(** C9. [create] with a null item, [set] with a null item, [update] with
    a null item or with an item whose id is null, and [updatePartially]
    with null data or a null id report a null error and a null item to the
    callback they are given, send no statement and change nothing. *)
Theorem null_arguments_do_nothing {O : Runtime.Outside}
    (correlationId : Js.JsStr) (st : SqlitePersistence.State) (w : Runtime.World O) :
  PersistenceFacts.does_nothing w
    (fun callback => IdentifiableSqlitePersistence.create correlationId None callback st)
  /\ PersistenceFacts.does_nothing w
       (fun callback => SqlitePersistence.create correlationId None callback st)
  /\ PersistenceFacts.does_nothing w
       (fun callback => IdentifiableSqlitePersistence.set correlationId None callback st)
  /\ PersistenceFacts.does_nothing w
       (fun callback => IdentifiableSqlitePersistence.update correlationId None callback st)
  /\ (forall (l : Js.loc) (o : Js.JsObject),
        Runtime.heap w !! l = Some o -> Js.val_is_null (Js.prop o "id") = true ->
        PersistenceFacts.does_nothing w
          (fun callback =>
             IdentifiableSqlitePersistence.update correlationId (Some l) callback st))
  /\ (forall id,
        PersistenceFacts.does_nothing w
          (fun callback =>
             IdentifiableSqlitePersistence.updatePartially correlationId id None callback st))
  /\ (forall id data, Js.val_is_null id = true ->
        PersistenceFacts.does_nothing w
          (fun callback =>
             IdentifiableSqlitePersistence.updatePartially correlationId id data callback st)).
Proof.
  unfold PersistenceFacts.does_nothing.
  repeat match goal with |- _ /\ _ => split end; try (intros; reflexivity).
  - intros l o Hl Hid.
    unfold IdentifiableSqlitePersistence.update, SqlitePersistence.properties.
    simpl. rewrite Hl. simpl. rewrite Hid. split; reflexivity.
  - intros id. split; reflexivity.
  - intros id data Hid.
    unfold IdentifiableSqlitePersistence.updatePartially.
    destruct data; [rewrite Hid|]; split; reflexivity.
Qed.

Lemma null_arguments_do_nothing_witness :
  PersistenceFacts.does_nothing
    (Example.world [[("key", Js.VStr "k")]] Example.one_row)
    (fun callback =>
       IdentifiableSqlitePersistence.update Js.Null (Some 0%nat) callback Example.dummies)
  /\ PersistenceFacts.does_nothing
       (Example.world [] Example.one_row)
       (fun callback =>
          IdentifiableSqlitePersistence.updatePartially Js.Null Js.VNull
            (Some [("key", Js.VStr "k")]) callback Example.dummies).
Proof.
  split.
  - pose proof (null_arguments_do_nothing (O := Example.files) Js.Null Example.dummies
                  (Example.world [[("key", Js.VStr "k")]] Example.one_row))
      as (_ & _ & _ & _ & Hupdate & _).
    exact (Hupdate 0%nat [("key", Js.VStr "k")] eq_refl eq_refl).
  - pose proof (null_arguments_do_nothing (O := Example.files) Js.Null Example.dummies
                  (Example.world [] Example.one_row))
      as (_ & _ & _ & _ & _ & _ & Hpartial).
    exact (Hpartial Js.VNull (Some [("key", Js.VStr "k")]) eq_refl).
Defined.

(** C6. The queries of [getListByFilter], [getCountByFilter] and
    [deleteByFilter] hold the clause [WHERE] followed by the filter
    exactly when the filter is neither null nor empty, and these are the
    statements the three operations send. With a null or empty filter
    [deleteByFilter] sends the DELETE of the table without condition and
    [getCountByFilter] the count of the table without condition. *)
Theorem filter_where_clause `{Commons.Library} {O : Runtime.Outside}
    (correlationId : Js.JsStr) (st : SqlitePersistence.State) (filter : Js.JsStr) :
  (forall sort sel,
     SqlitePersistence.listQuery st filter sort sel
     = PersistenceFacts.select_from st sel +:+ PersistenceFacts.where_clause filter
       +:+ PersistenceFacts.order_by sort)
  /\ SqlitePersistence.countQuery st filter
     = "SELECT COUNT(*) AS count FROM " +:+ PersistenceFacts.from_table st
       +:+ PersistenceFacts.where_clause filter
  /\ SqlitePersistence.deleteQuery st filter
     = "DELETE FROM " +:+ PersistenceFacts.from_table st
       +:+ PersistenceFacts.where_clause filter
  /\ PersistenceFacts.where_clause filter
     = (if negb (Js.is_null filter) && negb (Js.is_empty_string filter)
        then " WHERE " +:+ Js.toString filter else EmptyString)
  /\ (forall f, In f [Js.Null; Js.Undefined; Js.Str EmptyString] ->
        SqlitePersistence.deleteQuery st f = "DELETE FROM " +:+ PersistenceFacts.from_table st
        /\ SqlitePersistence.countQuery st f
           = "SELECT COUNT(*) AS count FROM " +:+ PersistenceFacts.from_table st)
  /\ (forall h sort sel callback (w : Runtime.World O),
        SqlitePersistence._client st = Some h ->
        Runtime.trace
          (snd (Runtime.run
                  (SqlitePersistence.getListByFilter correlationId filter sort sel callback st) w))
        = Runtime.trace w
          ++ [Runtime.EvAll h (SqlitePersistence.listQuery st filter sort sel) []]
        /\ Runtime.trace
             (snd (Runtime.run
                     (SqlitePersistence.getCountByFilter correlationId filter callback st) w))
           = Runtime.trace w
             ++ [Runtime.EvGet h (SqlitePersistence.countQuery st filter) []]
        /\ Runtime.trace
             (snd (Runtime.run
                     (SqlitePersistence.deleteByFilter correlationId filter callback st) w))
           = Runtime.trace w
             ++ [Runtime.EvRun h (SqlitePersistence.deleteQuery st filter) []]).
Proof.
  split; [intros; apply PersistenceFacts.listQuery_parts|].
  split; [apply PersistenceFacts.countQuery_parts|].
  split; [apply PersistenceFacts.deleteQuery_parts|].
  split; [now destruct filter as [| |[|c f]]|].
  split.
  - intros f Hf.
    rewrite PersistenceFacts.deleteQuery_parts, PersistenceFacts.countQuery_parts.
    simpl in Hf. destruct Hf as [<-|[<-|[<-|[]]]]; simpl;
      rewrite !JsFacts.app_empty_r; split; reflexivity.
  - intros h sort sel callback w Hh.
    unfold SqlitePersistence.getListByFilter, SqlitePersistence.getCountByFilter,
      SqlitePersistence.deleteByFilter, SqlitePersistence.using_client.
    rewrite Hh. unfold Runtime.bind at 1 3 4, Runtime.perform.
    rewrite !PersistenceFacts.run_perform by discriminate.
    repeat split.
    + destruct (fst (PersistenceFacts.answered _ w)); [reflexivity|].
      rewrite RunFacts.run_bind, PersistenceFacts.run_newObjects. reflexivity.
    + destruct (fst (PersistenceFacts.answered _ w)); reflexivity.
Qed.

Lemma filter_where_clause_witness :
  Runtime.trace
    (snd (Runtime.run
            (SqlitePersistence.deleteByFilter Js.Null (Js.Str EmptyString) true Example.dummies)
            (Example.world [] Example.one_row)))
  = [Runtime.EvRun 1%nat (SqlitePersistence.deleteQuery Example.dummies (Js.Str EmptyString)) []]
  /\ SqlitePersistence.deleteQuery Example.dummies Js.Null
     = "DELETE FROM " +:+ PersistenceFacts.from_table Example.dummies.
Proof.
  pose proof (filter_where_clause (H := Example.library) (O := Example.files)
                Js.Null Example.dummies (Js.Str EmptyString))
    as (_ & _ & _ & _ & _ & Hrun).
  pose proof (filter_where_clause (H := Example.library) (O := Example.files)
                Js.Null Example.dummies Js.Null)
    as (_ & _ & _ & _ & Hnull & _).
  split.
  - exact (proj2 (proj2 (Hrun 1%nat Js.Null Js.Null true
                           (Example.world [] Example.one_row) eq_refl))).
  - exact (proj1 (Hnull Js.Null (or_introl eq_refl))).
Defined.

(** ** Pages *)

Module PageFacts.
Import Js Commons Runtime RunFacts SqlitePersistence PersistenceFacts.

Section Facts.
Context `{Library} {O : Outside}.

Lemma default_max_page_size :
  _defaultConfig !! "options.max_page_size" = Some "100".
Proof. reflexivity. Qed.

Lemma configure_maxPageSize (config : ConfigParams) (st : State) :
  _maxPageSize (configure config st)
  = default (_maxPageSize st)
      (toNullableInteger (default "100" (config !! "options.max_page_size"))).
Proof.
  unfold configure, getAsIntegerWithDefault, setDefaults. simpl.
  rewrite lookup_union, default_max_page_size.
  now destruct (config !! "options.max_page_size").
Qed.

(** The page that [getPageByFilter] builds from the answers of the
    binding: the rows as new objects, and the count when a total is asked
    for. *)
Definition count_of (result : option JsObject) : Z :=
  match result with
  | Some row => toLong (prop row "count")
  | None => 0
  end.

Definition page_outcome (st : State) (h : Handle) (filter : JsStr)
    (paging : option PagingParams) (sort sel : JsStr) (w : World O)
  : option Error * option DataPage.t :=
  let rows := answered (All h (pageQuery st filter paging sort sel) []) w in
  let w1 := after (All h (pageQuery st filter paging sort sel) []) w in
  let w2 := {| heap := heap w1 ++ default [] (snd rows);
               outside := outside w1; trace := trace w1 |} in
  let count := answered (Get h (countQuery st filter) []) w2 in
  let items := Some <$> seq (length (heap w)) (length (default [] (snd rows))) in
  match fst rows with
  | Some err => (Some err, None)
  | None =>
      if total (default newPagingParams paging) then
        match fst count with
        | Some err => (Some err, None)
        | None => (None, Some {| DataPage.data := items;
                                 DataPage.total := Some (count_of (snd count)) |})
        end
      else (None, Some {| DataPage.data := items; DataPage.total := None |})
  end.

Lemma run_getPageByFilter correlationId st h filter paging sort sel callback (w : World O) :
  _client st = Some h ->
  fst (run (getPageByFilter correlationId filter paging sort sel callback st) w)
  = call callback (page_outcome st h filter paging sort sel w).
Proof.
  intros Hh. unfold getPageByFilter, using_client, page_outcome.
  rewrite Hh. unfold bind at 1, perform.
  rewrite run_perform by discriminate.
  destruct (fst (answered _ w)); [reflexivity|].
  rewrite run_bind, run_newObjects. simpl fst. simpl snd.
  destruct (total (default newPagingParams paging)); [|reflexivity].
  unfold bind, perform. rewrite run_perform by discriminate.
  rewrite pageCountQuery_countQuery.
  match goal with |- context [fst (answered ?c ?w')] =>
    destruct (fst (answered c w')) end; reflexivity.
Qed.

Lemma page_outcome_total st h filter paging sort sel (w : World O) page :
  page_outcome st h filter paging sort sel w = (None, Some page) ->
  (DataPage.total page <> None <-> total (default newPagingParams paging) = true).
Proof.
  unfold page_outcome.
  destruct (fst (answered _ w)); [discriminate|].
  destruct (total (default newPagingParams paging)).
  - match goal with |- context [fst (answered ?c ?w')] =>
      destruct (fst (answered c w')) end; [discriminate|].
    intros [= <-]. simpl. split; [reflexivity | discriminate].
  - intros [= <-]. simpl. split; [congruence | discriminate].
Qed.

End Facts.
End PageFacts.

(** C3. The query of [getPageByFilter] is the query of the filter, the
    sort and the projection followed by a LIMIT clause with
    [paging.getTake(maxPageSize)] and, exactly when
    [paging.getSkip(-1) >= 0], by an OFFSET clause with that number. The
    maximum page size is 100 in a new component and [configure] takes it
    from [options.max_page_size], whose default is 100. The callback
    receives what the binding's answers give: the page of the rows, with
    the count of the rows of the same filter as its total exactly when
    [paging.total] is set and without a total otherwise. *)
Theorem page_limit_offset_total `{Commons.Library} {O : Runtime.Outside}
    (correlationId : Js.JsStr) (st : SqlitePersistence.State) (filter : Js.JsStr)
    (paging : option Commons.PagingParams) (sort sel : Js.JsStr) :
  SqlitePersistence.pageQuery st filter paging sort sel
  = SqlitePersistence.listQuery st filter sort sel
    +:+ " LIMIT "
    +:+ pretty (Commons.getTake (default Commons.newPagingParams paging)
                  (SqlitePersistence._maxPageSize st))
    +:+ (if 0 <=? Commons.getSkip (default Commons.newPagingParams paging) (-1)
         then " OFFSET "
              +:+ pretty (Commons.getSkip (default Commons.newPagingParams paging) (-1))
         else EmptyString)
  /\ (forall tableName,
        SqlitePersistence._maxPageSize (SqlitePersistence.new tableName) = 100)
  /\ (forall config,
        SqlitePersistence._maxPageSize (SqlitePersistence.configure config st)
        = default (SqlitePersistence._maxPageSize st)
            (Commons.toNullableInteger
               (default "100" (config !! "options.max_page_size"))))
  /\ (forall h callback (w : Runtime.World O),
        SqlitePersistence._client st = Some h ->
        fst (Runtime.run
               (SqlitePersistence.getPageByFilter correlationId filter paging sort sel
                  callback st) w)
        = Js.call callback (PageFacts.page_outcome st h filter paging sort sel w)
        /\ forall page,
             PageFacts.page_outcome st h filter paging sort sel w = (None, Some page) ->
             (SqlitePersistence.DataPage.total page <> None
              <-> Commons.total (default Commons.newPagingParams paging) = true)).
Proof.
  split; [apply PersistenceFacts.pageQuery_parts|].
  split; [reflexivity|].
  split; [intros config; apply PageFacts.configure_maxPageSize|].
  intros h callback w Hh. split.
  - now apply PageFacts.run_getPageByFilter.
  - apply PageFacts.page_outcome_total.
Qed.

Lemma page_limit_offset_total_witness :
  fst (Runtime.run
         (SqlitePersistence.getPageByFilter Js.Null (Js.Str "key='Key 1'")
            (Some Example.first_page) Js.Null Js.Null true Example.dummies)
         (Example.world [] Example.one_row))
  = Js.Called (None, Some {| SqlitePersistence.DataPage.data := [Some 0%nat];
                             SqlitePersistence.DataPage.total := Some 1 |})
  /\ (SqlitePersistence.DataPage.total
        {| SqlitePersistence.DataPage.data := [Some 0%nat];
           SqlitePersistence.DataPage.total := Some 1 |} <> None
      <-> Commons.total Example.first_page = true).
Proof.
  destruct (page_limit_offset_total (O := Example.files)
              Js.Null Example.dummies (Js.Str "key='Key 1'")
              (Some Example.first_page) Js.Null Js.Null)
    as (_ & _ & _ & Hrun).
  destruct (Hrun 1%nat true (Example.world [] Example.one_row) eq_refl) as [Hfst Htotal].
  split; [exact Hfst | exact (Htotal _ eq_refl)].
Defined.

(** ** The connection component *)

Module ConnectionFacts.
Import Js Commons Runtime RunFacts SqliteConnection PersistenceFacts.

Section Facts.
Context {O : Outside}.

(** A connection without a handle has no database name. *)
Definition closed_has_no_name (st : State) : Prop :=
  _connection st = None -> is_null (_databaseName st) = true.

Lemma run_open correlationId callback st (w : World O) :
  let l := answered (Lookup (_configs st)) w in
  let w1 := after (Lookup (_configs st)) w in
  run (open correlationId callback st) w
  = match Connect.resolve correlationId l with
    | (Some err, _) => ((call_if_given callback (Some err), st), w1)
    | (None, config) =>
        let filename := default Undefined (Connect.database <$> config) in
        let w2 := after (NewDatabase filename) w1 in
        match answered (NewDatabase filename) w1 with
        | inl ex =>
            ((call callback (Some (withCause (connect_failed correlationId) ex)), st), w2)
        | inr (db, Some err) =>
            ((call_if_given callback (Some (withCause (connect_failed correlationId) err)), st),
             w2)
        | inr (db, None) =>
            ((call_if_given callback None,
              {| _configs := _configs st; _connection := Some db;
                 _databaseName := filename |}), w2)
        end
    end.
Proof.
  intros l w1. unfold open. unfold bind at 1, perform.
  rewrite run_perform by discriminate. fold l w1.
  destruct (Connect.resolve correlationId l) as [[err|] config]; [reflexivity|].
  unfold bind, perform. rewrite run_perform by discriminate.
  destruct (answered _ w1) as [ex|[db [err|]]]; reflexivity.
Qed.

Lemma run_close correlationId callback st (w : World O) :
  run (close correlationId callback st) w
  = match _connection st with
    | None => ((call_if_given callback None, st), w)
    | Some h =>
        ((call_if_given callback
            (withCause (disconnect_failed correlationId) <$> answered (Close h) w),
          {| _configs := _configs st; _connection := None; _databaseName := Null |}),
         after (Close h) w)
    end.
Proof.
  unfold close. destruct (_connection st) as [h|]; [|reflexivity].
  unfold bind, perform. now rewrite run_perform by discriminate.
Qed.

Lemma step_closed_has_no_name op st (w : World O) :
  closed_has_no_name st -> closed_has_no_name (fst (run (step op st) w)).
Proof.
  intros Hst. destruct op as [config|correlationId callback|correlationId callback];
    unfold step.
  - exact Hst.
  - rewrite run_bind, run_open. cbv zeta.
    destruct (Connect.resolve _ _) as [[err|] config]; [exact Hst|].
    destruct (answered _ _) as [ex|[db [err|]]]; try exact Hst.
    intros Hc. discriminate Hc.
  - rewrite run_bind, run_close.
    destruct st as [configs [h|] name]; [intros _; reflexivity | exact Hst].
Qed.

Lemma steps_closed_has_no_name ops st (w : World O) :
  closed_has_no_name st -> closed_has_no_name (fst (run (steps ops st) w)).
Proof.
  revert st w. induction ops as [|op ops IH]; intros st w Hst.
  - exact Hst.
  - change (steps (op :: ops) st) with (bind (step op st) (steps ops)).
    rewrite run_bind. apply IH. now apply step_closed_has_no_name.
Qed.

End Facts.
End ConnectionFacts.

(** C7. The component holds at most one handle. After every sequence of
    [configure], [open] and [close], [isOpen] is true exactly when a handle
    is held, and a component that holds none has no database name. When
    the resolver delivers a config and the binding opens the database,
    [open] reports success and the component holds the handle of the
    binding and the database of the config, and [open] reports success to
    its callback in no other case. [close] on a held handle closes it and,
    whatever the binding answers, leaves the handle and the database name
    null and [isOpen] false, reporting the answer (wrapped when it is an
    error); [close] on a component that is not open changes nothing and
    reports null. *)
Theorem connection_lifecycle {O : Runtime.Outside} :
  (forall ops (w : Runtime.World O),
     let st := fst (Runtime.run (SqliteConnection.steps ops SqliteConnection.new) w) in
     (SqliteConnection.isOpen st = true
      <-> exists h, SqliteConnection.getConnection st = Some h)
     /\ (SqliteConnection.isOpen st = false ->
         SqliteConnection.getConnection st = None
         /\ Js.is_null (SqliteConnection.getDatabaseName st) = true))
  /\ (forall correlationId callback st (w : Runtime.World O) config h,
        let lookups := Runtime.Lookup (SqliteConnection._configs st) in
        Connect.resolve correlationId (PersistenceFacts.answered lookups w)
        = (None, Some config) ->
        PersistenceFacts.answered (Runtime.NewDatabase (Connect.database config))
          (PersistenceFacts.after lookups w) = inr (h, None) ->
        let r := Runtime.run (SqliteConnection.open correlationId callback st) w in
        fst (fst r) = Js.call_if_given callback None
        /\ SqliteConnection.getConnection (snd (fst r)) = Some h
        /\ SqliteConnection.getDatabaseName (snd (fst r)) = Connect.database config
        /\ SqliteConnection.isOpen (snd (fst r)) = true)
  /\ (forall correlationId st (w : Runtime.World O),
        let lookups := Runtime.Lookup (SqliteConnection._configs st) in
        fst (fst (Runtime.run (SqliteConnection.open correlationId true st) w))
        = Js.Called None ->
        exists config h,
          Connect.resolve correlationId (PersistenceFacts.answered lookups w)
          = (None, Some config)
          /\ PersistenceFacts.answered (Runtime.NewDatabase (Connect.database config))
               (PersistenceFacts.after lookups w) = inr (h, None))
  /\ (forall correlationId callback st (w : Runtime.World O) h,
        SqliteConnection.getConnection st = Some h ->
        let r := Runtime.run (SqliteConnection.close correlationId callback st) w in
        fst (fst r)
        = Js.call_if_given callback
            (Js.withCause (SqliteConnection.disconnect_failed correlationId)
             <$> PersistenceFacts.answered (Runtime.Close h) w)
        /\ SqliteConnection.getConnection (snd (fst r)) = None
        /\ SqliteConnection.getDatabaseName (snd (fst r)) = Js.Null
        /\ SqliteConnection.isOpen (snd (fst r)) = false
        /\ Runtime.trace (snd r) = Runtime.trace w ++ [Runtime.EvClose h])
  /\ (forall correlationId callback st (w : Runtime.World O),
        SqliteConnection.isOpen st = false ->
        Runtime.run (SqliteConnection.close correlationId callback st) w
        = ((Js.call_if_given callback None, st), w)).
Proof.
  repeat match goal with |- _ /\ _ => split end.
  - intros ops w st.
    assert (ConnectionFacts.closed_has_no_name st) as Hinv.
    { apply ConnectionFacts.steps_closed_has_no_name. intros _. reflexivity. }
    unfold SqliteConnection.isOpen, SqliteConnection.getConnection,
      SqliteConnection.getDatabaseName.
    unfold ConnectionFacts.closed_has_no_name in Hinv.
    destruct (SqliteConnection._connection st) as [h|].
    + split; [split; eauto | discriminate].
    + split; [split; [discriminate | intros [h Hh]; discriminate] | auto].
  - intros correlationId callback st w config h lookups Hres Hdb r. subst r.
    rewrite ConnectionFacts.run_open. cbv zeta. fold lookups. rewrite Hres.
    simpl default. rewrite Hdb. repeat split.
  - intros correlationId st w lookups.
    rewrite ConnectionFacts.run_open. cbv zeta. fold lookups.
    destruct (Connect.resolve correlationId _) as [[err|] config] eqn:Hres;
      [discriminate|].
    destruct (ConnectFacts.resolve_cases correlationId
                (PersistenceFacts.answered lookups w)) as [(_ & _ & E)|(_ & e & E)];
      [|congruence].
    rewrite Hres in E. injection E as ->. simpl default.
    destruct (PersistenceFacts.answered (Runtime.NewDatabase _) _)
      as [ex|[db [err|]]] eqn:Hdb; try discriminate.
    intros _. eexists _, db. split; [reflexivity | exact Hdb].
  - intros correlationId callback st w h Hh r. subst r.
    rewrite ConnectionFacts.run_close.
    unfold SqliteConnection.getConnection in Hh. rewrite Hh. repeat split.
  - intros correlationId callback st w Hopen.
    rewrite ConnectionFacts.run_close.
    unfold SqliteConnection.isOpen in Hopen.
    destruct (SqliteConnection._connection st); [discriminate | reflexivity].
Qed.

Lemma connection_lifecycle_witness :
  let opened :=
    Runtime.run (SqliteConnection.open Js.Null true SqliteConnection.new)
      (Example.world [] Example.no_table) in
  let closed :=
    Runtime.run (SqliteConnection.close Js.Null true (snd (fst opened))) (snd opened) in
  (fst (fst opened) = Js.Called None
   /\ SqliteConnection.getConnection (snd (fst opened)) = Some 1%nat
   /\ SqliteConnection.getDatabaseName (snd (fst opened)) = Js.Str "./data/test.db"
   /\ SqliteConnection.isOpen (snd (fst opened)) = true)
  /\ (SqliteConnection.getConnection (snd (fst closed)) = None
      /\ SqliteConnection.getDatabaseName (snd (fst closed)) = Js.Null)
  /\ Runtime.run (SqliteConnection.close Js.Null true SqliteConnection.new)
       (Example.world [] Example.no_table)
     = ((Js.Called None, SqliteConnection.new), Example.world [] Example.no_table).
Proof.
  intros opened closed.
  destruct (connection_lifecycle (O := Example.files))
    as (_ & Hopen & _ & Hclose & Hnot_open).
  split; [|split].
  - exact (Hopen Js.Null true SqliteConnection.new (Example.world [] Example.no_table)
             {| Connect.database := Js.Str "./data/test.db" |} 1%nat eq_refl eq_refl).
  - destruct (Hclose Js.Null true (snd (fst opened)) (snd opened) 1%nat eq_refl)
      as (_ & Hc & Hn & _).
    exact (conj Hc Hn).
  - exact (Hnot_open Js.Null true SqliteConnection.new
             (Example.world [] Example.no_table) eq_refl).
Defined.

(** ** Operations on identifiable items *)

Module IdentifiableFacts.
Import Js Commons Runtime RunFacts SqlitePersistence PersistenceFacts.
Import IdentifiableSqlitePersistence.
Local Open Scope prog_scope.

Section Facts.
Context `{Library} {O : Outside}.

Lemma run_do {X R : Type} (c : Call X) (k : X -> Prog R) (w : World O) :
  event_of c <> None ->
  run (x <- perform c ;; k x) w = run (k (answered c w)) (after c w).
Proof. intros Hc. unfold perform. simpl bind. now rewrite run_perform. Qed.

Lemma run_load {R : Type} (l : loc) (k : JsObject -> Prog R) (w : World O) :
  run (x <- perform (Load l) ;; k x) w = run (k (default [] (heap w !! l))) w.
Proof. reflexivity. Qed.

Lemma run_alloc {R : Type} (o : JsObject) (k : loc -> Prog R) (w : World O) :
  run (x <- perform (Alloc o) ;; k x) w
  = run (k (length (heap w)))
      {| heap := heap w ++ [o]; outside := outside w; trace := trace w |}.
Proof. reflexivity. Qed.

Lemma run_store {R : Type} (l : loc) (o : JsObject) (k : unit -> Prog R) (w : World O) :
  run (x <- perform (Store l o) ;; k x) w
  = run (k tt) {| heap := <[l := o]> (heap w); outside := outside w; trace := trace w |}.
Proof. reflexivity. Qed.

(** The world with one more object. *)
Definition with_object (row : option JsObject) (w : World O) : World O :=
  match row with
  | Some o => {| heap := heap w ++ [o]; outside := outside w; trace := trace w |}
  | None => w
  end.

(** The item that stands for a row of the binding: the new object, or
    null when there is no row. *)
Definition item_of (row : option JsObject) (w : World O) : Item :=
  match row with
  | Some _ => Some (length (heap w))
  | None => None
  end.

(** The read-back in the world [w]: the SELECT by id is answered in [w],
    its row becomes the item, its error the error. *)
Definition read_back (st : State) (h : Handle) (id : JsVal) (callback : bool)
    (w : World O) : Completion (option Error * Item) * World O :=
  let read := Get h (selectById st) [id] in
  (call_if_given callback (fst (answered read w), item_of (snd (answered read w)) w),
   with_object (snd (answered read w)) (after read w)).

Lemma run_readBack st h id callback (w : World O) :
  run (readBack h id callback st) w = read_back st h id callback w.
Proof.
  unfold readBack, read_back. rewrite run_do by discriminate.
  rewrite run_bind, run_publicItem.
  now destruct (snd (answered _ w)).
Qed.

(** The row that [set] writes for an item with the properties [o]: the
    item itself, or its clone with the generated id. *)
Definition set_row (o : JsObject) (w : World O) : JsObject :=
  if val_is_null (prop o "id") then set_prop o "id" (VStr (answered NextLong w)) else o.

(** The world in which [set] sends its INSERT. *)
Definition set_world (o : JsObject) (w : World O) : World O :=
  if val_is_null (prop o "id")
  then {| heap := heap w ++ [set_row o w];
          outside := outside (after NextLong w);
          trace := trace w ++ [EvNextLong] |}
  else w.

Definition set_query (st : State) (row : JsObject) : string :=
  ("INSERT INTO " +:+ toString (quoteIdentifier (_tableName st))
   +:+ " (" +:+ generateColumns (FromObject row) +:+ ") VALUES ("
   +:+ generateParameters (FromObject row) +:+ ")")
  +:+ " ON CONFLICT(id) DO UPDATE SET " +:+ generateSetParameters row.

Lemma lookup_snoc {A : Type} (l : list A) (x : A) : (l ++ [x]) !! length l = Some x.
Proof. induction l; simpl; auto. Qed.

Lemma insert_snoc {A : Type} (l : list A) (x y : A) :
  <[length l := y]> (l ++ [x]) = l ++ [y].
Proof. induction l; simpl; [reflexivity | now f_equal]. Qed.

Lemma run_set correlationId st h l o callback (w : World O) :
  _client st = Some h -> heap w !! l = Some o ->
  let row := set_row o w in
  let write := Run h (set_query st row) (generateValues row ++ generateValues row) in
  run (set correlationId (Some l) callback st) w
  = read_back st h (prop row "id") callback (after write (set_world o w)).
Proof.
  intros Hh Hl row write. unfold set, properties.
  rewrite run_load, Hl. simpl default. rewrite run_bind.
  assert (run (if val_is_null (prop o "id")
               then newItem <- perform (Alloc o) ;;
                    s <- perform NextLong ;;
                    _ <- perform (Store newItem (set_prop o "id" (VStr s))) ;;
                    Ret newItem
               else Ret l) w
          = (if val_is_null (prop o "id") then length (heap w) else l, set_world o w)) as E.
  { unfold set_world, set_row. destruct (val_is_null (prop o "id")); [|reflexivity].
    rewrite run_alloc. cbv beta. rewrite (run_do NextLong) by discriminate. cbv beta.
    rewrite run_store. simpl. now rewrite insert_snoc. }
  rewrite E. simpl fst. simpl snd.
  assert (default [] (heap (set_world o w)
                        !! (if val_is_null (prop o "id") then length (heap w) else l))
          = row) as Erow.
  { unfold set_world, row, set_row. destruct (val_is_null (prop o "id")).
    - simpl heap. now rewrite lookup_snoc.
    - now rewrite Hl. }
  rewrite run_load, Erow. unfold using_client. rewrite Hh.
  rewrite run_do by discriminate. apply run_readBack.
Qed.

Lemma run_update correlationId st h l row callback (w : World O) :
  _client st = Some h -> heap w !! l = Some row ->
  val_is_null (prop row "id") = false ->
  let write := Run h (updateQuery st (generateSetParameters row))
                 (generateValues row ++ [prop row "id"]) in
  run (update correlationId (Some l) callback st) w
  = read_back st h (prop row "id") callback (after write w).
Proof.
  intros Hh Hl Hid write. unfold update, properties.
  rewrite run_load, Hl. simpl default. rewrite Hid.
  unfold using_client. rewrite Hh.
  rewrite run_do by discriminate. apply run_readBack.
Qed.

Lemma run_updatePartially correlationId st h id row callback (w : World O) :
  _client st = Some h -> val_is_null id = false ->
  let write := Run h (updateQuery st (generateSetParameters row))
                 (generateValues row ++ [id]) in
  run (updatePartially correlationId id (Some row) callback st) w
  = read_back st h id callback (after write w).
Proof.
  intros Hh Hid write. unfold updatePartially. rewrite Hid.
  unfold using_client. rewrite Hh.
  rewrite run_do by discriminate. apply run_readBack.
Qed.

(** [deleteById] in the world [w]: the DELETE is sent when the SELECT
    has found a row, and then reports its own error with the item. *)
Definition delete_by_id (st : State) (h : Handle) (id : JsVal) (callback : bool)
    (w : World O) : Completion (option Error * Item) * World O :=
  let read := Get h (selectById st) [id] in
  let delete := Run h (deleteByIdQuery st) [id] in
  match snd (answered read w) with
  | None => (call_if_given callback (fst (answered read w), None), after read w)
  | Some row =>
      let w1 := with_object (Some row) (after read w) in
      (call_if_given callback (answered delete w1, Some (length (heap w))),
       after delete w1)
  end.

Lemma run_deleteById correlationId st h id callback (w : World O) :
  _client st = Some h ->
  run (deleteById correlationId id callback st) w = delete_by_id st h id callback w.
Proof.
  intros Hh. unfold deleteById, delete_by_id, using_client. rewrite Hh.
  rewrite run_do by discriminate. rewrite run_bind, run_publicItem.
  destruct (snd (answered _ w)) as [row|]; [|reflexivity].
  cbn [fst snd]. now rewrite run_do by discriminate.
Qed.


Definition insert_query (st : State) (row : JsObject) : string :=
  "INSERT INTO " +:+ toString (quoteIdentifier (_tableName st))
  +:+ " (" +:+ generateColumns (FromObject row) +:+ ") VALUES ("
  +:+ generateParameters (FromObject row) +:+ ")".

(** The item [create] inserts and delivers: the item given, or its clone,
    which is the next object of the heap. *)
Definition created_item (l : loc) (o : JsObject) (w : World O) : loc :=
  if val_is_null (prop o "id") then length (heap w) else l.

Lemma run_cloneWithId (o : JsObject) (w : World O) :
  val_is_null (prop o "id") = true ->
  run (cloneWithId o) w = (length (heap w), set_world o w).
Proof.
  intros Hid. unfold cloneWithId, set_world, set_row. rewrite Hid.
  assert (val_truthy (prop o "id") = false) as ->
    by (destruct (prop o "id"); simpl in *; congruence).
  rewrite run_alloc. cbv beta. rewrite run_bind.
  rewrite (run_do NextLong) by discriminate. cbn [run fst snd].
  rewrite run_store. simpl. now rewrite insert_snoc.
Qed.

Lemma created_item_row l o (w : World O) :
  heap w !! l = Some o ->
  heap (set_world o w) !! created_item l o w = Some (set_row o w).
Proof.
  intros Hl. unfold set_world, created_item, set_row.
  destruct (val_is_null (prop o "id")); [|exact Hl].
  simpl heap. apply lookup_snoc.
Qed.

Lemma run_base_create correlationId st l callback (w : World O) :
  run (SqlitePersistence.create correlationId (Some l) callback st) w
  = let row := default [] (heap w !! l) in
    match _client st with
    | Some h =>
        let write := Run h (insert_query st row) (generateValues row) in
        (call callback (answered write w, Some l), after write w)
    | None => (Threw null_dereference, w)
    end.
Proof.
  unfold SqlitePersistence.create, convertFromPublic, properties, using_client.
  rewrite run_load. destruct (_client st) as [h|]; [|reflexivity].
  now rewrite run_do by discriminate.
Qed.

Lemma run_create correlationId st l o callback (w : World O) :
  heap w !! l = Some o ->
  run (create correlationId (Some l) callback st) w
  = match _client st with
    | Some h =>
        let write := Run h (insert_query st (set_row o w)) (generateValues (set_row o w)) in
        (call callback (answered write (set_world o w), Some (created_item l o w)),
         after write (set_world o w))
    | None => (Threw null_dereference, set_world o w)
    end.
Proof.
  intros Hl. pose proof (created_item_row l o w Hl) as Hrow.
  unfold create, properties. rewrite run_load, Hl. simpl default.
  unfold created_item, set_world, set_row in *.
  destruct (val_is_null (prop o "id")) eqn:Hid.
  - rewrite run_bind, run_cloneWithId by exact Hid. cbn [fst snd].
    unfold set_world, set_row. rewrite Hid.
    rewrite run_base_create. cbv zeta. now rewrite Hrow.
  - rewrite run_base_create. cbv zeta. now rewrite Hl.
Qed.

End Facts.
End IdentifiableFacts.

(** C5. With a handle [h], [set], [update] and [updatePartially] send
    their INSERT or UPDATE and then, in the world in which that statement
    has completed, the SELECT by id; the callback receives the error of the
    SELECT and, as a new object, the row it finds there, or null when it
    finds none. [deleteById] sends the SELECT by id first and sends the
    DELETE, in the world in which the SELECT has completed, only when a row
    was found. The trace of each operation lists the two statements in that
    order and nothing else from the binding. The statements are, for the
    quoted table [t]: [SELECT * FROM t WHERE id=?], [DELETE FROM t WHERE
    id=?], [UPDATE t SET] with one term [column=?] for each property of the
    row, separated by commas, followed by [WHERE id=?], and for [set] the
    INSERT of the columns with one placeholder for each property, followed
    by [ON CONFLICT(id) DO UPDATE SET] with the same terms. *)
Theorem write_then_read_back {O : Runtime.Outside}
    (correlationId : Js.JsStr) (st : SqlitePersistence.State) (h : Runtime.Handle)
    (callback : bool) (w : Runtime.World O) :
  SqlitePersistence._client st = Some h ->
  (IdentifiableSqlitePersistence.selectById st
   = "SELECT * FROM " +:+ PersistenceFacts.from_table st +:+ " WHERE id=?"
   /\ IdentifiableSqlitePersistence.deleteByIdQuery st
      = "DELETE FROM " +:+ PersistenceFacts.from_table st +:+ " WHERE id=?"
   /\ (forall row,
         IdentifiableSqlitePersistence.updateQuery st
           (SqlitePersistence.generateSetParameters row)
         = "UPDATE " +:+ PersistenceFacts.from_table st +:+ " SET "
           +:+ Js.join "," (GenerateFacts.set_term <$> Js.keys row) +:+ " WHERE id=?")
   /\ (forall row,
         IdentifiableFacts.set_query st row
         = ("INSERT INTO " +:+ PersistenceFacts.from_table st
            +:+ " (" +:+ SqlitePersistence.generateColumns (SqlitePersistence.FromObject row)
            +:+ ") VALUES (" +:+ Js.join "," (replicate (length (Js.keys row)) "?") +:+ ")")
           +:+ " ON CONFLICT(id) DO UPDATE SET "
           +:+ Js.join "," (GenerateFacts.set_term <$> Js.keys row)))
  /\ (forall l o, Runtime.heap w !! l = Some o ->
     let row := IdentifiableFacts.set_row o w in
     let write :=
       Runtime.Run h (IdentifiableFacts.set_query st row)
         (SqlitePersistence.generateValues row ++ SqlitePersistence.generateValues row) in
     let r := Runtime.run
                (IdentifiableSqlitePersistence.set correlationId (Some l) callback st) w in
     r = IdentifiableFacts.read_back st h (Js.prop row "id") callback
           (PersistenceFacts.after write (IdentifiableFacts.set_world o w))
     /\ Runtime.trace (snd r)
        = Runtime.trace (IdentifiableFacts.set_world o w)
          ++ [Runtime.EvRun h (IdentifiableFacts.set_query st row)
                (SqlitePersistence.generateValues row ++ SqlitePersistence.generateValues row);
              Runtime.EvGet h (IdentifiableSqlitePersistence.selectById st)
                [Js.prop row "id"]])
  /\ (forall l row, Runtime.heap w !! l = Some row ->
        Js.val_is_null (Js.prop row "id") = false ->
        let write :=
          Runtime.Run h
            (IdentifiableSqlitePersistence.updateQuery st
               (SqlitePersistence.generateSetParameters row))
            (SqlitePersistence.generateValues row ++ [Js.prop row "id"]) in
        let r := Runtime.run
                   (IdentifiableSqlitePersistence.update correlationId (Some l) callback st) w in
        r = IdentifiableFacts.read_back st h (Js.prop row "id") callback
              (PersistenceFacts.after write w)
        /\ Runtime.trace (snd r)
           = Runtime.trace w
             ++ [Runtime.EvRun h
                   (IdentifiableSqlitePersistence.updateQuery st
                      (SqlitePersistence.generateSetParameters row))
                   (SqlitePersistence.generateValues row ++ [Js.prop row "id"]);
                 Runtime.EvGet h (IdentifiableSqlitePersistence.selectById st)
                   [Js.prop row "id"]])
  /\ (forall id row, Js.val_is_null id = false ->
        let write :=
          Runtime.Run h
            (IdentifiableSqlitePersistence.updateQuery st
               (SqlitePersistence.generateSetParameters row))
            (SqlitePersistence.generateValues row ++ [id]) in
        let r := Runtime.run
                   (IdentifiableSqlitePersistence.updatePartially correlationId id (Some row)
                      callback st) w in
        r = IdentifiableFacts.read_back st h id callback (PersistenceFacts.after write w)
        /\ Runtime.trace (snd r)
           = Runtime.trace w
             ++ [Runtime.EvRun h
                   (IdentifiableSqlitePersistence.updateQuery st
                      (SqlitePersistence.generateSetParameters row))
                   (SqlitePersistence.generateValues row ++ [id]);
                 Runtime.EvGet h (IdentifiableSqlitePersistence.selectById st) [id]])
  /\ (forall id,
        let read := Runtime.Get h (IdentifiableSqlitePersistence.selectById st) [id] in
        let r := Runtime.run
                   (IdentifiableSqlitePersistence.deleteById correlationId id callback st) w in
        r = IdentifiableFacts.delete_by_id st h id callback w
        /\ Runtime.trace (snd r)
           = Runtime.trace w
             ++ Runtime.EvGet h (IdentifiableSqlitePersistence.selectById st) [id]
                :: match snd (PersistenceFacts.answered read w) with
                   | Some _ =>
                       [Runtime.EvRun h (IdentifiableSqlitePersistence.deleteByIdQuery st) [id]]
                   | None => []
                   end).
Proof.
  intros Hh.
  assert (forall id (w1 : Runtime.World O),
            Runtime.trace (snd (IdentifiableFacts.read_back st h id callback w1))
            = Runtime.trace w1
              ++ [Runtime.EvGet h (IdentifiableSqlitePersistence.selectById st) [id]])
    as Hread.
  { intros id w1. unfold IdentifiableFacts.read_back. simpl snd.
    now destruct (snd (PersistenceFacts.answered _ w1)). }
  split.
  { split; [reflexivity|]. split; [reflexivity|]. split.
    - intros row. unfold IdentifiableSqlitePersistence.updateQuery.
      destruct (GenerateFacts.generators_join row) as (_ & -> & _). reflexivity.
    - intros row. unfold IdentifiableFacts.set_query.
      destruct (GenerateFacts.generators_join row) as (-> & -> & _).
      now rewrite GenerateFacts.placeholders_replicate. }
  repeat match goal with |- _ /\ _ => split end.
  - intros l o Hl row write r. subst r.
    rewrite (IdentifiableFacts.run_set correlationId st h l o callback w Hh Hl).
    split; [reflexivity|]. rewrite Hread.
    unfold PersistenceFacts.after, write.
    cbn [Runtime.trace Runtime.log Runtime.event_of]. now rewrite <- app_assoc.
  - intros l row Hl Hid write r. subst r.
    rewrite (IdentifiableFacts.run_update correlationId st h l row callback w Hh Hl Hid).
    split; [reflexivity|]. rewrite Hread.
    unfold PersistenceFacts.after, write.
    cbn [Runtime.trace Runtime.log Runtime.event_of]. now rewrite <- app_assoc.
  - intros id row Hid write r. subst r.
    rewrite (IdentifiableFacts.run_updatePartially correlationId st h id row callback w Hh Hid).
    split; [reflexivity|]. rewrite Hread.
    unfold PersistenceFacts.after, write.
    cbn [Runtime.trace Runtime.log Runtime.event_of]. now rewrite <- app_assoc.
  - intros id read r. subst r.
    rewrite (IdentifiableFacts.run_deleteById correlationId st h id callback w Hh).
    split; [reflexivity|]. unfold IdentifiableFacts.delete_by_id. fold read.
    destruct (snd (PersistenceFacts.answered read w)); [|reflexivity].
    unfold PersistenceFacts.after, IdentifiableFacts.with_object, read.
    cbn [snd Runtime.trace Runtime.log Runtime.event_of]. now rewrite <- app_assoc.
Qed.

Lemma write_then_read_back_witness :
  fst (Runtime.run
         (IdentifiableSqlitePersistence.update Js.Null (Some 0%nat) true Example.dummies)
         (Example.world [[("id", Js.VStr "1"); ("key", Js.VStr "Key 2")]] Example.one_row))
  = Js.Called (None, Some 1%nat)
  /\ fst (Runtime.run
            (IdentifiableSqlitePersistence.deleteById Js.Null (Js.VStr "7") true
               Example.dummies)
            (Example.world [] Example.one_row))
     = Js.Called (None, None).
Proof.
  destruct (write_then_read_back (O := Example.files) Js.Null Example.dummies 1%nat true
              (Example.world [[("id", Js.VStr "1"); ("key", Js.VStr "Key 2")]]
                 Example.one_row) eq_refl)
    as (_ & _ & Hupdate & _ & _).
  destruct (write_then_read_back (O := Example.files) Js.Null Example.dummies 1%nat true
              (Example.world [] Example.one_row) eq_refl)
    as (_ & _ & _ & _ & Hdelete).
  split.
  - exact (f_equal fst
             (proj1 (Hupdate 0%nat [("id", Js.VStr "1"); ("key", Js.VStr "Key 2")]
                       eq_refl eq_refl))).
  - exact (f_equal fst (proj1 (Hdelete (Js.VStr "7")))).
Defined.

(** C8. [create] of an item that is not null leaves every object of the
    heap, the caller's among them, as it was. An item whose id is null is
    cloned into a new object, which receives the id that
    [IdGenerator.nextLong] generates; an item with an id is used as it is.
    With a handle, the only statement sent is the INSERT of the properties
    of that object, and the callback receives the error of the INSERT and
    that very object: no row is read back. *)
Theorem create_delivers_the_item {O : Runtime.Outside}
    (correlationId : Js.JsStr) (st : SqlitePersistence.State) (callback : bool)
    (l : Js.loc) (o : Js.JsObject) (w : Runtime.World O) :
  Runtime.heap w !! l = Some o ->
  let r := Runtime.run
             (IdentifiableSqlitePersistence.create correlationId (Some l) callback st) w in
  let item := IdentifiableFacts.created_item l o w in
  (forall (l0 : Js.loc) (o0 : Js.JsObject),
     Runtime.heap w !! l0 = Some o0 -> Runtime.heap (snd r) !! l0 = Some o0)
  /\ (Js.val_is_null (Js.prop o "id") = true ->
      item = length (Runtime.heap w) /\ item <> l
      /\ Runtime.heap (snd r) !! item
         = Some (Js.set_prop o "id"
                   (Js.VStr (PersistenceFacts.answered Runtime.NextLong w))))
  /\ (Js.val_is_null (Js.prop o "id") = false ->
      item = l /\ Runtime.heap (snd r) = Runtime.heap w)
  /\ (forall h, SqlitePersistence._client st = Some h ->
        let row := IdentifiableFacts.set_row o w in
        let write :=
          Runtime.Run h (IdentifiableFacts.insert_query st row)
            (SqlitePersistence.generateValues row) in
        fst r = Js.call callback
                  (PersistenceFacts.answered write (IdentifiableFacts.set_world o w),
                   Some item)
        /\ Runtime.heap (snd r) !! item = Some row
        /\ Runtime.trace (snd r)
           = Runtime.trace (IdentifiableFacts.set_world o w)
             ++ [Runtime.EvRun h (IdentifiableFacts.insert_query st row)
                   (SqlitePersistence.generateValues row)]).
Proof.
  intros Hl r item. subst r item.
  rewrite (IdentifiableFacts.run_create correlationId st l o callback w Hl).
  pose proof (IdentifiableFacts.created_item_row l o w Hl) as Hrow.
  assert (Runtime.heap
            (snd match SqlitePersistence._client st with
                 | Some h =>
                     let write :=
                       Runtime.Run h
                         (IdentifiableFacts.insert_query st (IdentifiableFacts.set_row o w))
                         (SqlitePersistence.generateValues (IdentifiableFacts.set_row o w)) in
                     (Js.call callback
                        (PersistenceFacts.answered write (IdentifiableFacts.set_world o w),
                         Some (IdentifiableFacts.created_item l o w)),
                      PersistenceFacts.after write (IdentifiableFacts.set_world o w))
                 | None => (Js.Threw Js.null_dereference, IdentifiableFacts.set_world o w)
                 end)
          = Runtime.heap (IdentifiableFacts.set_world o w)) as Hheap.
  { now destruct (SqlitePersistence._client st). }
  rewrite Hheap. clear Hheap.
  unfold IdentifiableFacts.set_world, IdentifiableFacts.created_item,
    IdentifiableFacts.set_row in *.
  repeat match goal with |- _ /\ _ => split end.
  - intros l0 o0 Hl0. destruct (Js.val_is_null (Js.prop o "id")); [|exact Hl0].
    simpl Runtime.heap. rewrite lookup_app_l; [exact Hl0|].
    now apply lookup_lt_Some in Hl0.
  - intros Hid. rewrite Hid in *. split; [reflexivity|]. split; [|exact Hrow].
    apply lookup_lt_Some in Hl. lia.
  - intros Hid. rewrite Hid. split; reflexivity.
  - intros h Hh. rewrite Hh. cbv zeta. cbn [fst snd].
    split; [reflexivity|]. split; [exact Hrow|].
    now destruct (Js.val_is_null (Js.prop o "id")).
Qed.

Lemma create_delivers_the_item_witness :
  let w := Example.world [[("key", Js.VStr "Key 1")]] Example.one_row in
  let r := Runtime.run
             (IdentifiableSqlitePersistence.create Js.Null (Some 0%nat) true Example.dummies)
             w in
  fst r = Js.Called (None, Some 1%nat)
  /\ Runtime.heap (snd r) !! 1%nat
     = Some [("key", Js.VStr "Key 1"); ("id", Js.VStr "id0")]
  /\ Runtime.heap (snd r) !! 0%nat = Some [("key", Js.VStr "Key 1")].
Proof.
  intros w r.
  destruct (create_delivers_the_item (O := Example.files) Js.Null Example.dummies true
              0%nat [("key", Js.VStr "Key 1")] w eq_refl)
    as (Hkept & _ & _ & Hsent).
  destruct (Hsent 1%nat eq_refl) as (Hitem & Hrow & _).
  split; [exact Hitem | split; [exact Hrow | exact (Hkept 0%nat _ eq_refl)]].
Defined.

(** ** Opening a persistence component *)

Module OpenFacts.
Import Js JsFacts Commons Runtime RunFacts SqlitePersistence PersistenceFacts.
Local Open Scope prog_scope.

(** [m] contains [p]. *)
Definition contains (m p : string) : Prop :=
  exists pre post, m = pre +:+ p +:+ post.

Lemma substring_split (k : nat) (s p : string) :
  p <> EmptyString -> String.substring k (String.length p) s = p -> contains s p.
Proof.
  intros Hp. revert s. induction k as [|k IH]; intros s Hs.
  - apply String.prefix_correct in Hs.
    exists EmptyString, (substring_from (String.length p) s).
    rewrite app_nil_l. now apply startsWith_split.
  - destruct s as [|c s]; simpl in Hs; [congruence|].
    destruct (IH s Hs) as (pre & post & ->).
    exists (String c pre), post. now rewrite app_cons.
Qed.

Lemma substring_app (pre p post : string) :
  String.substring (String.length pre) (String.length p) (pre +:+ p +:+ post) = p.
Proof.
  induction pre as [|c pre IH].
  - rewrite app_nil_l. apply String.prefix_correct. apply (startsWith_app p post).
  - rewrite app_cons. exact IH.
Qed.

Lemma indexOf_contains (m p : string) :
  p <> EmptyString -> ((indexOf m p <? 0) = false <-> contains m p).
Proof.
  intros Hp. unfold indexOf. split.
  - destruct (String.index 0 p m) as [k|] eqn:E; [|discriminate].
    intros _. apply String.index_correct1 in E. now apply (substring_split k).
  - intros (pre & post & ->).
    destruct (String.index 0 p (pre +:+ p +:+ post)) as [k|] eqn:E.
    + apply Z.ltb_ge. lia.
    + exfalso. apply (String.index_correct3 0 (String.length pre) _ _ E Hp); [lia|].
      apply substring_app.
Qed.

(** The error of the probe says that the table is missing. *)
Definition no_such_table (err : Error) : bool :=
  match message err with
  | Some m => negb (indexOf m "no such table" <? 0)
  | None => false
  end.

Lemma no_such_table_contains (err : Error) :
  no_such_table err = true
  <-> exists m, message err = Some m /\ contains m "no such table".
Proof.
  unfold no_such_table. destruct (message err) as [m|].
  - rewrite negb_true_iff, indexOf_contains by discriminate.
    split; [eauto | now intros (m' & [= <-] & Hc)].
  - split; [discriminate | now intros (m' & Hm & _)].
Qed.

Section Facts.
Context {O : Outside}.

(** The schema statements that are executed in the world [w]: each in
    turn, as long as the one before has succeeded. *)
Fixpoint executed (h : Handle) (statements : list string) (w : World O) : list string :=
  match statements with
  | [] => []
  | dml :: rest =>
      dml :: match answered (Exec h dml) w with
             | Some _ => []
             | None => executed h rest (after (Exec h dml) w)
             end
  end.

(** The world once the statements [done] have been executed one after
    the other. *)
Fixpoint after_each (h : Handle) (done : list string) (w : World O) : World O :=
  match done with
  | [] => w
  | dml :: rest => after_each h rest (after (Exec h dml) w)
  end.

(** The error of the first schema statement that fails when each is
    executed in the world that the one before has left. *)
Fixpoint first_failure (h : Handle) (statements : list string) (w : World O)
  : option Error :=
  match statements with
  | [] => None
  | dml :: rest =>
      match answered (Exec h dml) w with
      | Some e => Some e
      | None => first_failure h rest (after (Exec h dml) w)
      end
  end.

(** No statement fails: each one succeeds in the world that the
    statements before it have left. *)
Lemma first_failure_None h statements (w : World O) :
  first_failure h statements w = None
  <-> forall pre dml post,
        statements = pre ++ dml :: post ->
        answered (Exec h dml) (after_each h pre w) = None.
Proof.
  revert w. induction statements as [|a l IH]; intros w; simpl.
  - split; [|reflexivity]. intros _ pre dml post E. now destruct pre.
  - destruct (answered (Exec h a) w) as [e|] eqn:Ea.
    + split; [discriminate|]. intros Hall.
      specialize (Hall [] a l eq_refl). simpl in Hall. congruence.
    + rewrite IH. split.
      * intros Hall pre dml post E. destruct pre as [|b pre].
        -- injection E as <- _. exact Ea.
        -- injection E as <- E. simpl. now apply (Hall pre dml post).
      * intros Hall pre dml post E.
        apply (Hall (a :: pre) dml post). now rewrite E.
Qed.

(** A statement fails: it is the last one executed, the ones before it
    have succeeded, and the error is the one the binding gives for it. *)
Lemma first_failure_Some h statements (w : World O) e :
  first_failure h statements w = Some e ->
  exists pre dml post,
    statements = pre ++ dml :: post
    /\ executed h statements w = pre ++ [dml]
    /\ first_failure h pre w = None
    /\ answered (Exec h dml) (after_each h pre w) = Some e.
Proof.
  revert w. induction statements as [|a l IH]; intros w; simpl; [discriminate|].
  destruct (answered (Exec h a) w) as [e'|] eqn:Ea.
  - intros [= ->]. exists [], a, l. simpl. auto.
  - intros Hl. destruct (IH _ Hl) as (pre & dml & post & -> & Ex & Hpre & Hdml).
    exists (a :: pre), dml, post. simpl. rewrite Ea, Ex. auto.
Qed.

Lemma executed_prefix h statements (w : World O) :
  exists rest, statements = executed h statements w ++ rest.
Proof.
  revert w. induction statements as [|dml l IH]; intros w; simpl.
  - now exists [].
  - destruct (answered (Exec h dml) w).
    + now exists l.
    + destruct (IH (after (Exec h dml) w)) as [rest E]. exists rest. now f_equal.
Qed.

Lemma run_execEach h statements (w : World O) :
  let r := run (execEach h statements) w in
  trace (snd r) = trace w ++ (EvExec h <$> executed h statements w)
  /\ (fst r = None -> executed h statements w = statements).
Proof.
  revert w. induction statements as [|dml l IH]; intros w; cbv zeta.
  - simpl. now rewrite app_nil_r.
  - change (execEach h (dml :: l))
      with (err <- perform (Exec h dml) ;;
            match err with Some e => Ret (Some e) | None => execEach h l end).
    rewrite IdentifiableFacts.run_do by discriminate.
    simpl executed. destruct (answered (Exec h dml) w) as [e|].
    + simpl. split; [reflexivity | discriminate].
    + destruct (IH (after (Exec h dml) w)) as [Ht Hr]. rewrite Ht.
      split.
      * unfold after. cbn [trace log event_of]. rewrite <- List.app_assoc.
        reflexivity.
      * intros Hn. now rewrite (Hr Hn).
Qed.

Lemma run_execEach_result h statements (w : World O) :
  fst (run (execEach h statements) w) = first_failure h statements w.
Proof.
  revert w. induction statements as [|dml l IH]; intros w; [reflexivity|].
  change (execEach h (dml :: l))
    with (err <- perform (Exec h dml) ;;
          match err with Some e => Ret (Some e) | None => execEach h l end).
  rewrite IdentifiableFacts.run_do by discriminate. simpl first_failure.
  destruct (answered (Exec h dml) w) as [e|]; [reflexivity | apply IH].
Qed.

End Facts.
End OpenFacts.

Module SchemaFacts.
Import Js JsFacts Commons Runtime RunFacts SqlitePersistence PersistenceFacts OpenFacts.
Local Open Scope prog_scope.

Section Facts.
Context {O : Outside}.
Variable defineSchema : list string -> list string.

(** The probe queries of the two releases. *)
Definition probe_3_1 (st : State) : string :=
  "SELECT * FROM " +:+ toString (quoteIdentifier (_tableName st)) +:+ " LIMIT 1".

Definition probe_3_0 (st : State) : string :=
  "SELECT * FROM '" +:+ toString (_tableName st) +:+ "' LIMIT 1".

(** The connection that [open] opens itself: one it owns, or the one it
    creates when it has none. *)
Definition own_connection (st : State) : option SqliteConnection.State :=
  match _connection st with
  | None => Some (createConnection st)
  | Some c => if _localConnection st then Some c else None
  end.

(** [open] has its connection [c] in place, with the component in the
    state [st0] and the world [w0]: a shared connection that is open, or
    its own connection once it has opened it with success. *)
Inductive ready (correlationId : JsStr) (st : State) (w : World O)
  : SqliteConnection.State -> State -> World O -> Prop :=
  | ready_shared (c : SqliteConnection.State) :
      _connection st = Some c -> _localConnection st = false ->
      SqliteConnection.isOpen c = true ->
      ready correlationId st w c st w
  | ready_own (c0 c : SqliteConnection.State) (w0 : World O) :
      own_connection st = Some c0 ->
      run (SqliteConnection.open correlationId true c0) w = ((Called None, c), w0) ->
      ready correlationId st w c (with_connection (Some c) true st) w0.

(** The component once the connection is in place and the schema is
    defined. *)
Definition connected (c : SqliteConnection.State) (st : State) : State :=
  with_schemaStatements (defineSchema (_schemaStatements st))
    (with_databaseName (SqliteConnection.getDatabaseName c)
       (with_client (SqliteConnection.getConnection c) (with_opened false st))).

(** What [open] reports for the outcome [e] of the schema creation, and
    the state it leaves. *)
Definition reported (correlationId : JsStr) (callback : bool) (e : option Error)
    (st1 : State) : Completion (option Error) * State :=
  match e with
  | Some err =>
      (call_if_given callback
         (Some (withCause (SqliteConnection.connect_failed correlationId) err)), st1)
  | None => (call_if_given callback None, with_opened true st1)
  end.

Lemma run_createObjects query st h (w : World O) :
  _client st = Some h -> _schemaStatements st <> [] ->
  run (createObjects query st) w
  = let r := answered (Get h query []) w in
    let w1 := after (Get h query []) w in
    match fst r with
    | None => (Called None, w1)
    | Some err =>
        if no_such_table err
        then (Called (fst (run (execEach h (_schemaStatements st)) w1)),
              snd (run (execEach h (_schemaStatements st)) w1))
        else (Called (Some err), w1)
    end.
Proof.
  intros Hh Hs. unfold createObjects, using_client, no_such_table.
  destruct (_schemaStatements st) as [|s l] eqn:E; [congruence|].
  rewrite Hh, IdentifiableFacts.run_do by discriminate. cbv zeta.
  destruct (fst (answered _ w)) as [err|]; [|reflexivity].
  destruct (message err) as [m|]; [|reflexivity].
  destruct (indexOf m "no such table" <? 0); [reflexivity|].
  simpl negb. cbv iota. now rewrite run_bind.
Qed.

Lemma run_openCurl create correlationId callback st c (w : World O) :
  _connection st = Some c -> SqliteConnection.isOpen c = true ->
  run (openCurl defineSchema create correlationId callback None st) w
  = let st1 := connected c st in
    let r := run (create correlationId st1) w in
    (match fst r with
     | Called e => reported correlationId callback e st1
     | NotCalled => (NotCalled, st1)
     | Threw e => (Threw e, st1)
     end, snd r).
Proof.
  intros Hc Hopen. unfold openCurl, connected, reported.
  rewrite Hc, Hopen. simpl negb. cbv iota.
  assert (_connection (with_opened false st) = Some c) as -> by exact Hc.
  assert (forall h, _connection (with_client h (with_opened false st)) = Some c) as E
    by (intros; exact Hc).
  rewrite E. simpl mbind. simpl fmap. simpl default.
  rewrite run_bind.
  destruct (run (create correlationId _) w) as [[[e|]| |e] w1]; reflexivity.
Qed.

Lemma run_open_with create correlationId callback st c st0 (w w0 : World O) :
  _opened st = false -> ready correlationId st w c st0 w0 ->
  run (open_with defineSchema create correlationId callback st) w
  = run (openCurl defineSchema create correlationId callback None st0) w0
  /\ _connection st0 = Some c /\ SqliteConnection.isOpen c = true
  /\ _schemaStatements st0 = _schemaStatements st.
Proof.
  intros Hopened Hready. unfold open_with. rewrite Hopened.
  destruct Hready as [c Hc Hlocal Hopen | c0 c w0 Hown Hrun].
  - rewrite Hc, Hlocal. auto.
  - assert (SqliteConnection.isOpen c = true) as Hopen.
    { rewrite ConnectionFacts.run_open in Hrun. cbv zeta in Hrun.
      destruct (Connect.resolve _ _) as [[err|] config]; [discriminate|].
      destruct (answered _ _) as [ex|[db [err|]]]; try discriminate.
      now injection Hrun as <- _. }
    unfold own_connection in Hown.
    destruct (_connection st) as [c1|] eqn:Hc.
    + destruct (_localConnection st) eqn:Hlocal; [|discriminate].
      injection Hown as ->. rewrite Hc, run_bind, Hrun. auto.
    + injection Hown as <-. cbn [_localConnection _connection with_connection].
      rewrite run_bind, Hrun. auto.
Qed.

(** What [open] does with the schema once its connection is in place,
    for the probe query [probe]. When the probe succeeds, nothing is
    executed and [open] succeeds. When it fails for a missing table, the
    schema statements are executed in order up to the first that fails;
    [open] succeeds when none fails, and otherwise fails with a
    CONNECT_FAILED error whose cause is the error that the binding gives
    for that statement. When the probe fails otherwise, nothing is
    executed and [open] fails with a CONNECT_FAILED error whose cause is
    the error of the probe. *)
Definition opens_as_probed
    (open : JsStr -> bool -> State -> Prog (Completion (option Error) * State))
    (probe : State -> string) : Prop :=
  forall correlationId callback st c st0 h (w w0 : World O),
    _opened st = false ->
    ready correlationId st w c st0 w0 ->
    SqliteConnection.getConnection c = Some h ->
    defineSchema (_schemaStatements st) <> [] ->
    let st1 := connected c st0 in
    let statements := defineSchema (_schemaStatements st) in
    let r := answered (Get h (probe st1) []) w0 in
    let w1 := after (Get h (probe st1) []) w0 in
    let result := run (open correlationId callback st) w in
    trace w1 = trace w0 ++ [EvGet h (probe st1) []]
    /\ match fst r with
       | None => result = (reported correlationId callback None st1, w1)
       | Some err =>
           if no_such_table err
           then trace (snd result)
                = trace w1 ++ (EvExec h <$> executed h statements w1)
                /\ executed h statements w1 <> []
                /\ match first_failure h statements w1 with
                   | None =>
                       fst result = (call_if_given callback None, with_opened true st1)
                       /\ executed h statements w1 = statements
                   | Some e =>
                       fst result
                       = (call_if_given callback
                            (Some (WithCause
                                     (SqliteConnection.connect_failed correlationId) e)),
                          st1)
                       /\ exists pre dml post,
                            statements = pre ++ dml :: post
                            /\ executed h statements w1 = pre ++ [dml]
                            /\ first_failure h pre w1 = None
                            /\ answered (Exec h dml) (after_each h pre w1) = Some e
                   end
           else result = (reported correlationId callback (Some err) st1, w1)
       end.

Lemma open_with_as_probed (probe : State -> string) :
  opens_as_probed
    (open_with defineSchema (fun _ st => createObjects (probe st) st)) probe.
Proof.
  intros correlationId callback st c st0 h w w0 Hopened Hready Hh Hs
    st1 statements r w1 result.
  split; [reflexivity|].
  destruct (run_open_with (fun _ st => createObjects (probe st) st)
              correlationId callback st c st0 w w0 Hopened Hready)
    as (Erun & Hc & Hopen & Est).
  assert (_schemaStatements st1 = statements) as Hst1.
  { unfold st1, statements, connected. simpl. now rewrite Est. }
  subst result. rewrite Erun, (run_openCurl _ _ _ _ c w0 Hc Hopen). cbv zeta.
  fold st1. rewrite (run_createObjects (probe st1) st1 h w0 Hh); [|now rewrite Hst1].
  cbv zeta. fold r w1. rewrite Hst1.
  destruct (fst r) as [err|]; [|reflexivity].
  destruct (no_such_table err); [|reflexivity].
  cbn [fst snd].
  destruct (run_execEach h statements w1) as [Ht He].
  rewrite run_execEach_result in *.
  split; [exact Ht|]. split.
  - change (statements <> []) in Hs. clearbody statements.
    destruct statements; [congruence | discriminate].
  - destruct (first_failure h statements w1) as [e|] eqn:Ef.
    + split; [reflexivity|]. now apply first_failure_Some.
    + split; [reflexivity|]. now apply He.
Qed.

(** The statement that [open] reports the very error of a probe that
    fails otherwise than for a missing table. *)
Definition reports_probe_error
    (open : JsStr -> bool -> State -> Prog (Completion (option Error) * State))
    (probe : State -> string) : Prop :=
  forall correlationId st c st0 h (w w0 : World O) err,
    _opened st = false ->
    ready correlationId st w c st0 w0 ->
    SqliteConnection.getConnection c = Some h ->
    defineSchema (_schemaStatements st) <> [] ->
    fst (answered (Get h (probe (connected c st0)) []) w0) = Some err ->
    no_such_table err = false ->
    fst (fst (run (open correlationId true st) w)) = Called (Some err).

End Facts.

(** A component with one schema statement that shares an open
    connection. *)
Definition shared_connection : SqliteConnection.State :=
  {| SqliteConnection._configs := [];
     SqliteConnection._connection := Some 1%nat;
     SqliteConnection._databaseName := Str "./data/test.db" |}.

Definition with_schema : State :=
  setReferences (Some shared_connection)
    (ensureSchema "CREATE TABLE dummies (id TEXT PRIMARY KEY)" (new (Str "dummies"))).

(** The same component without references: it opens its own
    connection. *)
Definition on_its_own : State :=
  ensureSchema "CREATE TABLE dummies (id TEXT PRIMARY KEY)" (new (Str "dummies")).

End SchemaFacts.

(** C2, as stated, fails where the probe fails with an error other than
    a missing table: on a binding whose statements fail with a disk error,
    [open] of a component with one schema statement and a shared open
    connection reports a CONNECT_FAILED error whose cause is the disk
    error, not the disk error. *)
Lemma open_wraps_the_probe_error :
  fst (fst (Runtime.run
              (SqlitePersistence.open (fun l => l) Js.Null true SchemaFacts.with_schema)
              (Example.broken_world [] Example.no_table)))
  = Js.Called
      (Some (Js.WithCause (SqliteConnection.connect_failed Js.Null) Example.io_error))
  /\ ~ SchemaFacts.reports_probe_error (O := Example.broken_files) (fun l => l)
         (SqlitePersistence.open (fun l => l)) SchemaFacts.probe_3_1.
Proof.
  split; [reflexivity|].
  intros Hclaim.
  specialize (Hclaim Js.Null SchemaFacts.with_schema SchemaFacts.shared_connection
                SchemaFacts.with_schema 1%nat
                (Example.broken_world [] Example.no_table)
                (Example.broken_world [] Example.no_table)
                Example.io_error eq_refl).
  specialize (Hclaim (SchemaFacts.ready_shared Js.Null SchemaFacts.with_schema _
                        SchemaFacts.shared_connection eq_refl eq_refl eq_refl)).
  specialize (Hclaim eq_refl).
  assert ((fun l : list string => l)
            (SqlitePersistence._schemaStatements SchemaFacts.with_schema) <> [])
    as Hs by discriminate.
  specialize (Hclaim Hs eq_refl eq_refl).
  discriminate Hclaim.
Qed.

(** C2, amended. In both releases, once [open] has its connection in
    place and there are schema statements, it sends the probe query. If
    the probe succeeds, no schema statement is executed and [open]
    succeeds. If the probe fails with an error whose message contains
    [no such table], the schema statements are executed in order up to
    and including the first that fails, and [open] succeeds when none
    fails and otherwise fails with a CONNECT_FAILED error whose cause is
    the error of that statement. If the probe fails with any other error,
    no schema statement is executed and [open] fails with a CONNECT_FAILED
    error whose cause is the error of the probe. *)
Theorem schema_created_when_table_missing {O : Runtime.Outside}
    (defineSchema : list string -> list string) :
  SchemaFacts.opens_as_probed (O := O) defineSchema
    (SqlitePersistence.open defineSchema) SchemaFacts.probe_3_1
  /\ SchemaFacts.opens_as_probed (O := O) defineSchema
       (SqlitePersistence.open_3_0 defineSchema) SchemaFacts.probe_3_0
  /\ (forall err,
        OpenFacts.no_such_table err = true
        <-> exists m, Js.message err = Some m /\ OpenFacts.contains m "no such table")
  /\ (forall h statements (w : Runtime.World O),
        OpenFacts.first_failure h statements w = None
        <-> forall pre dml post,
              statements = pre ++ dml :: post ->
              PersistenceFacts.answered (Runtime.Exec h dml) (OpenFacts.after_each h pre w)
              = None).
Proof.
  split; [|split; [|split]].
  - exact (SchemaFacts.open_with_as_probed defineSchema SchemaFacts.probe_3_1).
  - exact (SchemaFacts.open_with_as_probed defineSchema SchemaFacts.probe_3_0).
  - exact OpenFacts.no_such_table_contains.
  - exact OpenFacts.first_failure_None.
Qed.

Lemma schema_created_when_table_missing_witness :
  let result :=
    Runtime.run (SqlitePersistence.open (fun l => l) Js.Null true SchemaFacts.with_schema)
      (Example.world [] Example.no_table) in
  let own :=
    Runtime.run (SqlitePersistence.open (fun l => l) Js.Null true SchemaFacts.on_its_own)
      (Example.world [] Example.no_table) in
  (fst result
   = SchemaFacts.reported Js.Null true None
       (SchemaFacts.connected (fun l => l) SchemaFacts.shared_connection
          SchemaFacts.with_schema)
   /\ Runtime.trace (snd result)
      = [Runtime.EvGet 1%nat
           (SchemaFacts.probe_3_1
              (SchemaFacts.connected (fun l => l) SchemaFacts.shared_connection
                 SchemaFacts.with_schema)) [];
         Runtime.EvExec 1%nat "CREATE TABLE dummies (id TEXT PRIMARY KEY)"])
  /\ (fst (fst own) = Js.Called None
      /\ SqlitePersistence.isOpen (snd (fst own)) = true
      /\ Runtime.trace (snd own)
         = [Runtime.EvLookup; Runtime.EvNewDatabase (Js.Str "./data/test.db");
            Runtime.EvGet 1%nat
              (SchemaFacts.probe_3_1
                 (SchemaFacts.connected (fun l => l) SchemaFacts.shared_connection
                    SchemaFacts.with_schema)) [];
            Runtime.EvExec 1%nat "CREATE TABLE dummies (id TEXT PRIMARY KEY)"]).
Proof.
  intros result own.
  destruct (schema_created_when_table_missing (O := Example.files) (fun l => l))
    as (Hopen & _ & _ & _).
  assert ((fun l : list string => l)
            (SqlitePersistence._schemaStatements SchemaFacts.with_schema) <> [])
    as Hs by discriminate.
  split.
  - destruct (Hopen Js.Null true SchemaFacts.with_schema SchemaFacts.shared_connection
                SchemaFacts.with_schema 1%nat
                (Example.world [] Example.no_table) (Example.world [] Example.no_table)
                eq_refl
                (SchemaFacts.ready_shared Js.Null SchemaFacts.with_schema _
                   SchemaFacts.shared_connection eq_refl eq_refl eq_refl)
                eq_refl Hs)
      as (_ & Htrace & _ & Hreported & _).
    split; [exact Hreported | exact Htrace].
  - destruct (Hopen Js.Null true SchemaFacts.on_its_own _ _ 1%nat
                (Example.world [] Example.no_table) _
                eq_refl
                (SchemaFacts.ready_own Js.Null SchemaFacts.on_its_own
                   (Example.world [] Example.no_table) SqliteConnection.new _ _
                   eq_refl eq_refl)
                eq_refl Hs)
      as (_ & Htrace & _ & Hreported & _).
    split; [exact (f_equal fst Hreported)|].
    split; [exact (f_equal (fun r => SqlitePersistence.isOpen (snd r)) Hreported)|].
    exact Htrace.
Defined.

(** * Further properties *)

(** ** The resolver: which error, which database *)

Module ResolverFacts.
Import Js Connect ConnectFacts.

(** A connection that validation refuses. *)
Definition invalid (c : ConnectionParams) : bool := wrong_protocol c || no_database c.

Definition refusal (correlationId : JsStr) (c : ConnectionParams) : Error :=
  match getUri c with
  | Some _ => MkError ConfigException correlationId "WRONG_PROTOCOL"
                (Some "Connection protocol must be file://")
  | None => MkError ConfigException correlationId "NO_DATABASE"
              (Some "Connection database is not set")
  end.

Lemma validateConnection_refusal correlationId c :
  validateConnection correlationId c
  = if invalid c then Some (refusal correlationId c) else None.
Proof.
  unfold validateConnection, invalid, wrong_protocol, no_database, refusal.
  destruct (getUri c) as [u|].
  - now destruct (startsWith u file_protocol).
  - now destruct (getDatabase c).
Qed.

Lemma last_contribution_snoc cs c :
  last_contribution (cs ++ [c])
  = match contribution c with
    | Some d => Some d
    | None => last_contribution cs
    end.
Proof.
  induction cs as [|c0 cs IH]; simpl.
  - now destruct (contribution c).
  - rewrite IH. now destruct (contribution c), (last_contribution cs).
Qed.

Lemma valid_has_contribution c :
  invalid c = false -> getDatabase c <> Some EmptyString -> contribution c <> None.
Proof.
  unfold invalid, wrong_protocol, no_database, contribution.
  destruct (getDatabase c) as [[|a d]|], (getUri c) as [[|b u]|]; simpl;
    try discriminate; try congruence.
Qed.

Lemma last_contribution_defined cs :
  cs <> [] ->
  (forall c, In c cs -> invalid c = false /\ getDatabase c <> Some EmptyString) ->
  last_contribution cs <> None.
Proof.
  destruct cs as [|c cs]; [congruence|]. intros _ Hall. simpl.
  destruct (last_contribution cs); [discriminate|].
  apply valid_has_contribution; apply (Hall c); now left.
Qed.

Lemma not_failure_valid l :
  connection_failure l = false ->
  exists cs, resolveAll l = (None, Some cs) /\ cs <> []
             /\ forall c, In c cs -> invalid c = false.
Proof.
  unfold connection_failure.
  destruct (resolveAll l) as [[e|] [[|c0 cs]|]]; try discriminate.
  intros Hf. exists (c0 :: cs). split; [reflexivity|]. split; [discriminate|].
  intros c Hin. unfold invalid.
  apply orb_false_iff in Hf as [Hw Hn].
  destruct (wrong_protocol c) eqn:Ew.
  - assert (existsb wrong_protocol (c0 :: cs) = true) by (apply existsb_exists; eauto).
    congruence.
  - destruct (no_database c) eqn:En; [|reflexivity].
    assert (existsb no_database (c0 :: cs) = true) by (apply existsb_exists; eauto).
    congruence.
Qed.

Lemma resolve_success correlationId l :
  connection_failure l = false -> fst (lookup l) = None ->
  resolve correlationId l
  = (None, Some {| database := composed_database (default [] (snd (resolveAll l))) |}).
Proof.
  intros Hf Hl.
  destruct (resolve_cases correlationId l) as [(_ & _ & E)|[[Hn|Hn] _]].
  - now rewrite E, composeConfig_database.
  - destruct Hn. now apply connectionTask_None.
  - now destruct Hn.
Qed.

(** A list of connections where the last one names a database file and
    one where it only has a uri. *)
Definition two_connections : Lookups :=
  {| resolveAll :=
       (None, Some [{| getUri := Some "file://./data/first.db"; getDatabase := None |};
                    {| getUri := Some "file://./data/second.db";
                       getDatabase := Some "./data/third.db" |}]);
     lookup := (None, None);
     first_done := ConnectionTask |}.

Definition uri_connection : Lookups :=
  {| resolveAll := (None, Some [{| getUri := Some "file://./data/test.db";
                                   getDatabase := None |}]);
     lookup := (None, None);
     first_done := ConnectionTask |}.

End ResolverFacts.

(** X1. [validateConnections] reports NO_CONNECTION for a missing or empty
    list and otherwise the refusal of the first connection, in order, that
    is not valid: WRONG_PROTOCOL when that connection has a uri,
    NO_DATABASE when it has none. A connection with a uri is judged by its
    protocol alone. *)
Theorem validateConnections_first_invalid (correlationId : Js.JsStr)
    (connections : option (list Connect.ConnectionParams)) :
  Connect.validateConnections correlationId connections
  = match connections with
    | None | Some [] =>
        Some (Js.MkError Js.ConfigException correlationId "NO_CONNECTION"
                (Some "Database connection is not set"))
    | Some cs =>
        ResolverFacts.refusal correlationId <$> List.find ResolverFacts.invalid cs
    end.
Proof.
  destruct connections as [[|c0 cs]|]; try reflexivity.
  change (Connect.validateConnections correlationId (Some (c0 :: cs)))
    with (Connect.validateEach correlationId (c0 :: cs)).
  induction (c0 :: cs) as [|c l IH]; [reflexivity|]. simpl.
  rewrite ResolverFacts.validateConnection_refusal.
  destruct (ResolverFacts.invalid c); [reflexivity | exact IH].
Qed.

(** X2. When [resolve] succeeds, the last connection decides the database
    whenever it has a non-empty database parameter or a uri: the parameter
    wins over the uri of the same connection and over every earlier
    connection, and a uri [file://p] without such a parameter gives [p]. *)
Theorem resolve_last_connection_decides (correlationId : Js.JsStr) (l : Connect.Lookups)
    (cs : list Connect.ConnectionParams) (c : Connect.ConnectionParams) :
  Connect.resolveAll l = (None, Some (cs ++ [c])) ->
  fst (Connect.lookup l) = None ->
  ConnectFacts.connection_failure l = false ->
  (forall a d, Connect.getDatabase c = Some (String a d) ->
     Connect.resolve correlationId l
     = (None, Some {| Connect.database := Js.Str (String a d) |}))
  /\ (forall p, Connect.getUri c = Some ("file://" +:+ p) ->
        Js.truthy (Js.of_nullable (Connect.getDatabase c)) = false ->
        Connect.resolve correlationId l = (None, Some {| Connect.database := Js.Str p |})).
Proof.
  intros Hcs Hl Hf.
  rewrite (ResolverFacts.resolve_success correlationId l Hf Hl), Hcs. simpl default.
  unfold ConnectFacts.composed_database.
  rewrite ResolverFacts.last_contribution_snoc. split.
  - intros a d Hd. unfold ConnectFacts.contribution. now rewrite Hd.
  - intros p Hu Hd. unfold ConnectFacts.contribution. rewrite Hu.
    destruct (Connect.getDatabase c) as [[|a d]|]; try discriminate; reflexivity.
Qed.

Lemma resolve_last_connection_decides_witness :
  Connect.resolve Js.Null ResolverFacts.two_connections
  = (None, Some {| Connect.database := Js.Str "./data/third.db" |})
  /\ Connect.resolve Js.Null ResolverFacts.uri_connection
     = (None, Some {| Connect.database := Js.Str "./data/test.db" |}).
Proof.
  split.
  - exact (proj1 (resolve_last_connection_decides Js.Null ResolverFacts.two_connections
                    [{| Connect.getUri := Some "file://./data/first.db";
                        Connect.getDatabase := None |}]
                    {| Connect.getUri := Some "file://./data/second.db";
                       Connect.getDatabase := Some "./data/third.db" |}
                    eq_refl eq_refl eq_refl) _ _ eq_refl).
  - exact (proj2 (resolve_last_connection_decides Js.Null ResolverFacts.uri_connection []
                    {| Connect.getUri := Some "file://./data/test.db";
                       Connect.getDatabase := None |}
                    eq_refl eq_refl eq_refl) "./data/test.db" eq_refl eq_refl).
Defined.

(** X3. When [resolve] succeeds and no connection has an empty database
    parameter, the config it delivers names a database: the field is a
    string, never left undefined. *)
Theorem resolve_names_a_database (correlationId : Js.JsStr) (l : Connect.Lookups) :
  ConnectFacts.connection_failure l = false ->
  fst (Connect.lookup l) = None ->
  (forall c, In c (default [] (snd (Connect.resolveAll l))) ->
     Connect.getDatabase c <> Some EmptyString) ->
  exists d, Connect.resolve correlationId l = (None, Some {| Connect.database := Js.Str d |}).
Proof.
  intros Hf Hl Hne.
  rewrite (ResolverFacts.resolve_success correlationId l Hf Hl).
  destruct (ResolverFacts.not_failure_valid l Hf) as (cs & Hcs & Hnil & Hvalid).
  rewrite Hcs in *. simpl default in *.
  unfold ConnectFacts.composed_database.
  destruct (ConnectFacts.last_contribution cs) as [d|] eqn:E; [now exists d|].
  exfalso. revert E. apply ResolverFacts.last_contribution_defined; [exact Hnil|].
  intros c Hin. split; [now apply Hvalid | now apply Hne].
Qed.

Lemma resolve_names_a_database_witness :
  exists d, Connect.resolve Js.Null ResolverFacts.two_connections
            = (None, Some {| Connect.database := Js.Str d |}).
Proof.
  apply (resolve_names_a_database Js.Null ResolverFacts.two_connections eq_refl eq_refl).
  intros c [<-|[<-|[]]]; discriminate.
Defined.

(** ** The connection component: what a failed open leaves *)

Module ReopenFacts.
Import Js Commons Runtime.

(** A resolver whose connection has the wrong protocol, and a connection
    component that holds a handle. *)
Definition wrong_uri : Connect.Lookups :=
  {| Connect.resolveAll :=
       (None, Some [{| Connect.getUri := Some "http://localhost/test.db";
                       Connect.getDatabase := None |}]);
     Connect.lookup := (None, None);
     Connect.first_done := Connect.ConnectionTask |}.

Definition wrong_uri_files : Example.Files :=
  {| Example.table := None; Example.generated := 0; Example.lookups := wrong_uri |}.

Definition holding : SqliteConnection.State :=
  {| SqliteConnection._configs := [];
     SqliteConnection._connection := Some 5%nat;
     SqliteConnection._databaseName := Str "./data/old.db" |}.

End ReopenFacts.

(** X4. [open] of the connection component never closes a handle: it
    sends the lookup and, when the resolver delivers a config, the opening
    of the database of that config, and nothing else, also when the
    component already holds a handle. When it reports an error, the
    component is as it was before, with the handle and the database name it
    had. The error is the one of the resolver, or a CONNECT_FAILED error
    whose cause is what the binding has thrown or has reported for the
    opening of that database; an error thrown is passed to the callback
    without a test. *)
Theorem connection_open_failure_keeps_state {O : Runtime.Outside}
    (correlationId : Js.JsStr) (callback : bool) (st : SqliteConnection.State)
    (w : Runtime.World O) :
  let r := Runtime.run (SqliteConnection.open correlationId callback st) w in
  let lookup := Runtime.Lookup (SqliteConnection._configs st) in
  let w1 := PersistenceFacts.after lookup w in
  match Connect.resolve correlationId (PersistenceFacts.answered lookup w) with
  | (Some err, _) =>
      r = ((Js.call_if_given callback (Some err), st), w1)
      /\ Runtime.trace (snd r) = Runtime.trace w ++ [Runtime.EvLookup]
  | (None, config) =>
      let filename := default Js.Undefined (Connect.database <$> config) in
      snd r = PersistenceFacts.after (Runtime.NewDatabase filename) w1
      /\ Runtime.trace (snd r)
         = Runtime.trace w ++ [Runtime.EvLookup; Runtime.EvNewDatabase filename]
      /\ match PersistenceFacts.answered (Runtime.NewDatabase filename) w1 with
         | inl thrown =>
             fst r
             = (Js.call callback
                  (Some (Js.WithCause (SqliteConnection.connect_failed correlationId)
                           thrown)),
                st)
         | inr (db, Some err) =>
             fst r
             = (Js.call_if_given callback
                  (Some (Js.WithCause (SqliteConnection.connect_failed correlationId) err)),
                st)
         | inr (db, None) =>
             fst (fst r) = Js.call_if_given callback None
             /\ SqliteConnection.getConnection (snd (fst r)) = Some db
         end
  end
  /\ (forall e, fst (fst r) = Js.Called (Some e) -> snd (fst r) = st).
Proof.
  intros r lookup w1. subst r. rewrite ConnectionFacts.run_open. cbv zeta.
  fold lookup. fold w1.
  destruct (Connect.resolve correlationId (PersistenceFacts.answered lookup w))
    as [[err|] config].
  - split; [split; reflexivity|]. intros e _. reflexivity.
  - set (filename := default Js.Undefined (Connect.database <$> config)).
    assert (Runtime.trace (PersistenceFacts.after (Runtime.NewDatabase filename) w1)
            = Runtime.trace w ++ [Runtime.EvLookup; Runtime.EvNewDatabase filename]) as Ht.
    { subst w1 lookup. unfold PersistenceFacts.after.
      cbn [Runtime.trace Runtime.log Runtime.event_of]. now rewrite <- List.app_assoc. }
    destruct (PersistenceFacts.answered (Runtime.NewDatabase filename) w1)
      as [ex|[db [err|]]]; cbn [fst snd].
    + split; [split; [reflexivity | split; [exact Ht | reflexivity]]|].
      intros e _. reflexivity.
    + split; [split; [reflexivity | split; [exact Ht | reflexivity]]|].
      intros e _. reflexivity.
    + split; [split; [reflexivity | split; [exact Ht | split; reflexivity]]|].
      intros e He. destruct callback; simpl in He; discriminate.
Qed.

Lemma connection_open_failure_keeps_state_witness :
  let r := Runtime.run (SqliteConnection.open Js.Null true ReopenFacts.holding)
             (Example.world [] ReopenFacts.wrong_uri_files) in
  snd (fst r) = ReopenFacts.holding
  /\ SqliteConnection.getConnection (snd (fst r)) = Some 5%nat.
Proof.
  intros r.
  destruct (connection_open_failure_keeps_state (O := Example.files) Js.Null true
              ReopenFacts.holding (Example.world [] ReopenFacts.wrong_uri_files))
    as [_ Hkept].
  pose proof (Hkept _ eq_refl) as Hst.
  split; [exact Hst | exact (f_equal SqliteConnection.getConnection Hst)].
Defined.

(** ** The lifecycle of a persistence component *)

Module LifecycleFacts.
Import Js Commons Runtime RunFacts SqlitePersistence PersistenceFacts OpenFacts SchemaFacts.
Local Open Scope prog_scope.

Definition not_opened (correlationId : JsStr) : Error :=
  MkError ConnectionException correlationId "CONNECT_FAILED"
    (Some "SQLite connection is not opened").

Section Facts.
Context {O : Outside}.
Variable defineSchema : list string -> list string.
Variable probe : State -> string.

Definition create_with (correlationId : JsStr) (st : State)
  : Prog (Completion (option Error)) :=
  createObjects (probe st) st.

(** The statements that the schema creation sends on the handle [h] in
    the world [w]: none without schema statements; otherwise the probe
    and, when the probe fails for a missing table, the schema statements
    that are executed, in their order. *)
Definition schema_events (h : Handle) (query : string) (statements : list string)
    (w : World O) : list Event :=
  match statements with
  | [] => []
  | _ :: _ =>
      EvGet h query []
      :: match fst (answered (Get h query []) w) with
         | Some err =>
             if no_such_table err
             then EvExec h <$> executed h statements (after (Get h query []) w)
             else []
         | None => []
         end
  end.

Lemma schema_events_shape h query statements (w : World O) :
  schema_events h query statements w = []
  \/ exists pre post,
       statements = pre ++ post
       /\ schema_events h query statements w = EvGet h query [] :: (EvExec h <$> pre).
Proof.
  unfold schema_events. destruct statements as [|s l]; [now left|]. right.
  destruct (fst (answered _ w)) as [err|].
  - destruct (no_such_table err).
    + destruct (executed_prefix h (s :: l) (after (Get h query []) w)) as [rest E].
      exists (executed h (s :: l) (after (Get h query []) w)), rest. auto.
    + exists [], (s :: l). auto.
  - exists [], (s :: l). auto.
Qed.

Lemma createObjects_trace (query : string) (st : State) (w : World O) :
  trace (snd (run (createObjects query st) w))
  = trace w ++ match _client st with
               | Some h => schema_events h query (_schemaStatements st) w
               | None => []
               end.
Proof.
  unfold createObjects, using_client, schema_events, no_such_table.
  destruct (_schemaStatements st) as [|s l] eqn:Es.
  { simpl. destruct (_client st); now rewrite app_nil_r. }
  destruct (_client st) as [h|].
  2: { simpl. now rewrite app_nil_r. }
  rewrite IdentifiableFacts.run_do by discriminate.
  assert (trace (after (Get h query []) w) = trace w ++ [EvGet h query []]) as Ht
    by reflexivity.
  destruct (fst (answered _ w)) as [err|]; [|exact Ht].
  destruct (message err) as [m|]; [|exact Ht].
  destruct (indexOf m "no such table" <? 0); [exact Ht|].
  rewrite run_bind. cbn [run snd negb].
  destruct (run_execEach h (s :: l) (after (Get h query []) w)) as [He _].
  rewrite He, Ht, <- List.app_assoc. reflexivity.
Qed.

Lemma run_open_opened create correlationId callback st (w : World O) :
  _opened st = true ->
  run (open_with defineSchema create correlationId callback st) w
  = ((call callback None, st), w).
Proof. intros Ho. unfold open_with. now rewrite Ho. Qed.

Lemma run_open_shared create correlationId callback st c (w : World O) :
  _opened st = false -> _connection st = Some c -> _localConnection st = false ->
  run (open_with defineSchema create correlationId callback st) w
  = run (openCurl defineSchema create correlationId callback None st) w.
Proof. intros Ho Hc Hl. unfold open_with. now rewrite Ho, Hc, Hl. Qed.

Lemma run_openCurl_closed create correlationId callback st c (w : World O) :
  _connection st = Some c -> SqliteConnection.isOpen c = false ->
  run (openCurl defineSchema create correlationId callback None st) w
  = ((call_if_given callback (Some (not_opened correlationId)), with_opened false st), w).
Proof. intros Hc Ho. unfold openCurl. now rewrite Hc, Ho. Qed.

(** With a shared connection, [open] sends the statements of the schema
    creation on the handle of that connection, and nothing else, and keeps
    the connection it was given. *)
Lemma open_shared_trace correlationId callback st c (w : World O) :
  _connection st = Some c -> _localConnection st = false ->
  let r := run (open_with defineSchema create_with correlationId callback st) w in
  _connection (snd (fst r)) = Some c
  /\ trace (snd r)
     = trace w
       ++ (if _opened st then []
           else match SqliteConnection.getConnection c with
                | Some h =>
                    schema_events h (probe (connected defineSchema c st))
                      (defineSchema (_schemaStatements st)) w
                | None => []
                end).
Proof.
  intros Hc Hl r. subst r.
  destruct (_opened st) eqn:Ho.
  { rewrite run_open_opened by exact Ho. split; [exact Hc|]. now rewrite app_nil_r. }
  rewrite (run_open_shared _ _ _ _ c w Ho Hc Hl).
  destruct (SqliteConnection.isOpen c) eqn:Hopen.
  - rewrite (run_openCurl defineSchema create_with correlationId callback st c w Hc Hopen).
    cbv zeta. unfold create_with. cbn [snd]. split.
    + destruct (fst (run _ w)) as [[e|]| |e]; exact Hc.
    + rewrite createObjects_trace. reflexivity.
  - rewrite (run_openCurl_closed _ _ _ _ c w Hc Hopen). split; [exact Hc|].
    unfold SqliteConnection.isOpen in Hopen. unfold SqliteConnection.getConnection.
    destruct (SqliteConnection._connection c); [discriminate|].
    cbn [snd]. now rewrite app_nil_r.
Qed.

Lemma run_close_shared correlationId callback st c (w : World O) :
  _opened st = true -> _connection st = Some c -> _localConnection st = false ->
  run (close correlationId callback st) w
  = ((call_if_given callback None, with_client None (with_opened false st)), w).
Proof. intros Ho Hc Hl. unfold close. now rewrite Ho, Hc, Hl. Qed.

Lemma run_close_own correlationId callback st c h (w : World O) :
  _opened st = true -> _connection st = Some c -> _localConnection st = true ->
  SqliteConnection._connection c = Some h ->
  run (close correlationId callback st) w
  = ((call_if_given callback
        (withCause (SqliteConnection.disconnect_failed correlationId)
         <$> answered (Close h) w),
      with_client None
        (with_opened false
           (with_connection
              (Some {| SqliteConnection._configs := SqliteConnection._configs c;
                       SqliteConnection._connection := None;
                       SqliteConnection._databaseName := Null |})
              true st))),
     after (Close h) w).
Proof.
  intros Ho Hc Hl Hh. unfold close. rewrite Ho, Hc, Hl. simpl negb. cbv iota.
  rewrite run_bind, ConnectionFacts.run_close, Hh. reflexivity.
Qed.

Lemma run_close_closed correlationId callback st (w : World O) :
  _opened st = false -> run (close correlationId callback st) w = ((call callback None, st), w).
Proof. intros Ho. unfold close. now rewrite Ho. Qed.

End Facts.
End LifecycleFacts.

(** X5. A component that was given a connection leaves it alone. [open],
    in both releases, sends nothing on a component that is open or whose
    connection holds no handle, and nothing without schema statements;
    otherwise it sends, on the handle of that connection, the probe of the
    release for the table and, when the probe fails for a missing table,
    the schema statements in their order up to the first that fails, and
    nothing else. [close] sends nothing at all. Neither opens, closes or
    replaces the connection. *)
Theorem shared_connection_is_left_alone {O : Runtime.Outside}
    (defineSchema : list string -> list string) (correlationId : Js.JsStr)
    (callback : bool) (st : SqlitePersistence.State) (c : SqliteConnection.State)
    (w : Runtime.World O) :
  SqlitePersistence._connection st = Some c ->
  SqlitePersistence._localConnection st = false ->
  let statements := defineSchema (SqlitePersistence._schemaStatements st) in
  let sent (probe : string) : list Runtime.Event :=
    if SqlitePersistence._opened st then []
    else match SqliteConnection._connection c with
         | Some h => LifecycleFacts.schema_events h probe statements w
         | None => []
         end in
  (let r := Runtime.run (SqlitePersistence.open defineSchema correlationId callback st) w in
   SqlitePersistence._connection (snd (fst r)) = Some c
   /\ Runtime.trace (snd r)
      = Runtime.trace w
        ++ sent ("SELECT * FROM "
                 +:+ Js.toString
                       (SqlitePersistence.quoteIdentifier (SqlitePersistence._tableName st))
                 +:+ " LIMIT 1"))
  /\ (let r := Runtime.run
                 (SqlitePersistence.open_3_0 defineSchema correlationId callback st) w in
      SqlitePersistence._connection (snd (fst r)) = Some c
      /\ Runtime.trace (snd r)
         = Runtime.trace w
           ++ sent ("SELECT * FROM '" +:+ Js.toString (SqlitePersistence._tableName st)
                    +:+ "' LIMIT 1"))
  /\ (let r := Runtime.run (SqlitePersistence.close correlationId callback st) w in
      snd r = w /\ SqlitePersistence._connection (snd (fst r)) = Some c)
  /\ (forall h probe,
        LifecycleFacts.schema_events h probe statements w = []
        \/ exists pre post,
             statements = pre ++ post
             /\ LifecycleFacts.schema_events h probe statements w
                = Runtime.EvGet h probe [] :: (Runtime.EvExec h <$> pre)).
Proof.
  intros Hc Hl statements sent. subst sent. cbv beta. split; [|split; [|split]].
  - exact (LifecycleFacts.open_shared_trace defineSchema SchemaFacts.probe_3_1
             correlationId callback st c w Hc Hl).
  - exact (LifecycleFacts.open_shared_trace defineSchema SchemaFacts.probe_3_0
             correlationId callback st c w Hc Hl).
  - cbv zeta. destruct (SqlitePersistence._opened st) eqn:Ho.
    + rewrite (LifecycleFacts.run_close_shared correlationId callback st c w Ho Hc Hl).
      split; [reflexivity | exact Hc].
    + rewrite (LifecycleFacts.run_close_closed correlationId callback st w Ho).
      split; [reflexivity | exact Hc].
  - intros h probe. apply LifecycleFacts.schema_events_shape.
Qed.

Lemma shared_connection_is_left_alone_witness :
  let r := Runtime.run
             (SqlitePersistence.open (fun l => l) Js.Null true SchemaFacts.with_schema)
             (Example.world [] Example.no_table) in
  SqlitePersistence._connection (snd (fst r)) = Some SchemaFacts.shared_connection
  /\ Runtime.trace (snd r)
     = [Runtime.EvGet 1%nat ("SELECT * FROM " +:+ Js.str1 Js.dquote +:+ "dummies"
                             +:+ Js.str1 Js.dquote +:+ " LIMIT 1") [];
        Runtime.EvExec 1%nat "CREATE TABLE dummies (id TEXT PRIMARY KEY)"].
Proof.
  exact (proj1 (shared_connection_is_left_alone (O := Example.files) (fun l => l) Js.Null
                  true SchemaFacts.with_schema SchemaFacts.shared_connection
                  (Example.world [] Example.no_table) eq_refl eq_refl)).
Defined.

(** X6. [open] of a component whose shared connection is not open fails
    with a CONNECT_FAILED error that says so; it sends nothing, does not
    open the connection, and the component stays closed. *)
Theorem open_needs_an_open_connection {O : Runtime.Outside}
    (defineSchema : list string -> list string) (correlationId : Js.JsStr)
    (callback : bool) (st : SqlitePersistence.State) (c : SqliteConnection.State)
    (w : Runtime.World O) :
  SqlitePersistence._opened st = false ->
  SqlitePersistence._connection st = Some c ->
  SqlitePersistence._localConnection st = false ->
  SqliteConnection.isOpen c = false ->
  Runtime.run (SqlitePersistence.open defineSchema correlationId callback st) w
  = ((Js.call_if_given callback (Some (LifecycleFacts.not_opened correlationId)),
      SqlitePersistence.with_opened false st), w)
  /\ Runtime.run (SqlitePersistence.open_3_0 defineSchema correlationId callback st) w
     = ((Js.call_if_given callback (Some (LifecycleFacts.not_opened correlationId)),
         SqlitePersistence.with_opened false st), w).
Proof.
  intros Ho Hc Hl Hclosed. unfold SqlitePersistence.open, SqlitePersistence.open_3_0.
  rewrite !(LifecycleFacts.run_open_shared defineSchema _ correlationId callback st c w
              Ho Hc Hl).
  rewrite !(LifecycleFacts.run_openCurl_closed defineSchema _ correlationId callback st c w
              Hc Hclosed).
  split; reflexivity.
Qed.

Lemma open_needs_an_open_connection_witness :
  fst (fst (Runtime.run
              (SqlitePersistence.open (fun l => l) Js.Null true
                 (SqlitePersistence.setReferences (Some SqliteConnection.new)
                    (SqlitePersistence.new (Js.Str "dummies"))))
              (Example.world [] Example.one_row)))
  = Js.Called (Some (LifecycleFacts.not_opened Js.Null)).
Proof.
  exact (f_equal (fun r => fst (fst r))
           (proj1 (open_needs_an_open_connection (O := Example.files) (fun l => l) Js.Null
                     true
                     (SqlitePersistence.setReferences (Some SqliteConnection.new)
                        (SqlitePersistence.new (Js.Str "dummies")))
                     SqliteConnection.new (Example.world [] Example.one_row)
                     eq_refl eq_refl eq_refl eq_refl))).
Defined.

(** X7. With no schema statement, [open] never probes the table: once
    its connection is in place it sends nothing more and succeeds, whether
    or not the table exists. *)
Theorem open_without_schema_sends_nothing {O : Runtime.Outside}
    (defineSchema : list string -> list string) (correlationId : Js.JsStr)
    (callback : bool) (st st0 : SqlitePersistence.State) (c : SqliteConnection.State)
    (w w0 : Runtime.World O) :
  SqlitePersistence._opened st = false ->
  SchemaFacts.ready correlationId st w c st0 w0 ->
  defineSchema (SqlitePersistence._schemaStatements st) = [] ->
  Runtime.run (SqlitePersistence.open defineSchema correlationId callback st) w
  = ((Js.call_if_given callback None,
      SqlitePersistence.with_opened true (SchemaFacts.connected defineSchema c st0)), w0)
  /\ Runtime.run (SqlitePersistence.open_3_0 defineSchema correlationId callback st) w
     = ((Js.call_if_given callback None,
         SqlitePersistence.with_opened true (SchemaFacts.connected defineSchema c st0)), w0).
Proof.
  intros Ho Hready Hs. unfold SqlitePersistence.open, SqlitePersistence.open_3_0.
  destruct (SchemaFacts.run_open_with defineSchema SqlitePersistence.createSchema
              correlationId callback st c st0 w w0 Ho Hready) as (E1 & Hc & Hopen & Est).
  destruct (SchemaFacts.run_open_with defineSchema SqlitePersistence.autoCreateObjects
              correlationId callback st c st0 w w0 Ho Hready) as (E2 & _).
  rewrite E1, E2.
  rewrite !(SchemaFacts.run_openCurl defineSchema _ correlationId callback st0 c w0 Hc Hopen).
  cbv zeta.
  unfold SqlitePersistence.createSchema, SqlitePersistence.autoCreateObjects,
    SqlitePersistence.createObjects.
  assert (SqlitePersistence._schemaStatements (SchemaFacts.connected defineSchema c st0) = [])
    as -> by (unfold SchemaFacts.connected; simpl; now rewrite Est).
  split; reflexivity.
Qed.

Lemma open_without_schema_sends_nothing_witness :
  let st := SqlitePersistence.setReferences (Some SchemaFacts.shared_connection)
              (SqlitePersistence.new (Js.Str "dummies")) in
  let r := Runtime.run (SqlitePersistence.open (fun l => l) Js.Null true st)
             (Example.world [] Example.no_table) in
  fst (fst r) = Js.Called None /\ snd r = Example.world [] Example.no_table.
Proof.
  intros st r.
  pose proof (proj1 (open_without_schema_sends_nothing (O := Example.files) (fun l => l)
                       Js.Null true st st SchemaFacts.shared_connection
                       (Example.world [] Example.no_table)
                       (Example.world [] Example.no_table) eq_refl
                       (SchemaFacts.ready_shared Js.Null st _ SchemaFacts.shared_connection
                          eq_refl eq_refl eq_refl)
                       eq_refl)) as E.
  split; [exact (f_equal (fun x => fst (fst x)) E) | exact (f_equal snd E)].
Defined.

Module LeakFacts.
Import Js Commons Runtime RunFacts SqlitePersistence PersistenceFacts OpenFacts SchemaFacts.

Section Facts.
Context {O : Outside}.
Variable defineSchema : list string -> list string.

(** What is left of an [open] that fails in the schema creation: the
    component is not opened and still holds the handle and its open
    connection, and [close] does nothing to either. *)
Definition left_half_open (h : Handle) (st' : State) : Prop :=
  isOpen st' = false
  /\ _client st' = Some h
  /\ (exists c', _connection st' = Some c' /\ SqliteConnection.getConnection c' = Some h)
  /\ forall correlationId callback (w' : World O),
       run (close correlationId callback st') w' = ((call callback None, st'), w').

Lemma failed_probe_leaves_half_open (probe : State -> string)
    correlationId callback st c st0 h (w w0 : World O) err :
  _opened st = false ->
  ready correlationId st w c st0 w0 ->
  SqliteConnection.getConnection c = Some h ->
  defineSchema (_schemaStatements st) <> [] ->
  fst (answered (Get h (probe (connected defineSchema c st0)) []) w0) = Some err ->
  no_such_table err = false ->
  left_half_open h
    (snd (fst (run (open_with defineSchema (fun _ s => createObjects (probe s) s)
                      correlationId callback st) w))).
Proof.
  intros Ho Hready Hh Hs Herr Hno.
  destruct (run_open_with defineSchema (fun _ s => createObjects (probe s) s)
              correlationId callback st c st0 w w0 Ho Hready) as (_ & Hc & _ & _).
  destruct (open_with_as_probed defineSchema probe correlationId callback st c st0 h w w0
              Ho Hready Hh Hs) as [_ Hcase].
  rewrite Herr, Hno in Hcase. rewrite Hcase. cbn [fst snd reported].
  split; [reflexivity|]. split; [exact Hh|]. split.
  - exists c. split; [exact Hc | exact Hh].
  - intros cid cb w'. now apply LifecycleFacts.run_close_closed.
Qed.

End Facts.
End LeakFacts.

(** X8. When the probe of [open] fails with an error other than a missing
    table, the component is left not opened but still holding the handle
    and its connection, which stays open: [close] on it then sends nothing
    and reports success, so a connection the component opened itself is
    never closed. *)
Theorem failed_open_keeps_the_connection_open {O : Runtime.Outside}
    (defineSchema : list string -> list string) (correlationId : Js.JsStr)
    (callback : bool) (st st0 : SqlitePersistence.State) (c : SqliteConnection.State)
    (h : Runtime.Handle) (w w0 : Runtime.World O) (err : Js.Error) :
  SqlitePersistence._opened st = false ->
  SchemaFacts.ready correlationId st w c st0 w0 ->
  SqliteConnection.getConnection c = Some h ->
  defineSchema (SqlitePersistence._schemaStatements st) <> [] ->
  fst (PersistenceFacts.answered
         (Runtime.Get h (SchemaFacts.probe_3_1 (SchemaFacts.connected defineSchema c st0)) [])
         w0) = Some err ->
  OpenFacts.no_such_table err = false ->
  LeakFacts.left_half_open (O := O) h
    (snd (fst (Runtime.run
                 (SqlitePersistence.open defineSchema correlationId callback st) w))).
Proof.
  exact (LeakFacts.failed_probe_leaves_half_open defineSchema SchemaFacts.probe_3_1
           correlationId callback st c st0 h w w0 err).
Qed.

Lemma failed_open_keeps_the_connection_open_witness :
  LeakFacts.left_half_open (O := Example.broken_files) 1%nat
    (snd (fst (Runtime.run
                 (SqlitePersistence.open (fun l => l) Js.Null true SchemaFacts.on_its_own)
                 (Example.broken_world [] Example.no_table)))).
Proof.
  assert ((fun l : list string => l)
            (SqlitePersistence._schemaStatements SchemaFacts.on_its_own) <> [])
    as Hs by discriminate.
  exact (failed_open_keeps_the_connection_open (O := Example.broken_files) (fun l => l)
           Js.Null true SchemaFacts.on_its_own _ _ 1%nat
           (Example.broken_world [] Example.no_table) _ Example.io_error eq_refl
           (SchemaFacts.ready_own Js.Null SchemaFacts.on_its_own
              (Example.broken_world [] Example.no_table) SqliteConnection.new _ _
              eq_refl eq_refl)
           eq_refl Hs eq_refl eq_refl).
Defined.

(** X9. [close] after a successful [open]. A component that opened its
    own connection closes the handle of that connection, reports the
    answer of the binding (wrapped in DISCONNECT_FAILED when it is an
    error) and, whatever the answer, is left closed without a client and
    with a connection that holds no handle. A component with a shared
    connection sends nothing and leaves the connection as it is. *)
Theorem close_after_open {O : Runtime.Outside}
    (defineSchema : list string -> list string) (correlationId : Js.JsStr)
    (callback : bool) (st st0 : SqlitePersistence.State) (c : SqliteConnection.State)
    (h : Runtime.Handle) (w w0 w' : Runtime.World O) :
  SchemaFacts.ready correlationId st w c st0 w0 ->
  SqliteConnection.getConnection c = Some h ->
  let opened :=
    SqlitePersistence.with_opened true (SchemaFacts.connected defineSchema c st0) in
  let r := Runtime.run (SqlitePersistence.close correlationId callback opened) w' in
  SqlitePersistence.isOpen (snd (fst r)) = false
  /\ SqlitePersistence._client (snd (fst r)) = None
  /\ (if SqlitePersistence._localConnection st0
      then fst (fst r)
           = Js.call_if_given callback
               (Js.withCause (SqliteConnection.disconnect_failed correlationId)
                <$> PersistenceFacts.answered (Runtime.Close h) w')
           /\ Runtime.trace (snd r) = Runtime.trace w' ++ [Runtime.EvClose h]
           /\ (SqlitePersistence._connection (snd (fst r))
               ≫= SqliteConnection.getConnection) = None
      else fst (fst r) = Js.call_if_given callback None
           /\ snd r = w'
           /\ SqlitePersistence._connection (snd (fst r)) = Some c).
Proof.
  intros Hready Hh opened r.
  assert (SqlitePersistence._connection st0 = Some c) as Hc.
  { destruct Hready as [c Hc _ _ | c0 c w0 _ _]; [exact Hc | reflexivity]. }
  assert (SqlitePersistence._connection opened = Some c) as Hco by exact Hc.
  destruct (SqlitePersistence._localConnection st0) eqn:Hl.
  - assert (SqlitePersistence._localConnection opened = true) as Hlo by exact Hl.
    subst r.
    rewrite (LifecycleFacts.run_close_own correlationId callback opened c h w'
               eq_refl Hco Hlo Hh).
    repeat split.
  - assert (SqlitePersistence._localConnection opened = false) as Hlo by exact Hl.
    subst r.
    rewrite (LifecycleFacts.run_close_shared correlationId callback opened c w'
               eq_refl Hco Hlo).
    repeat split. exact Hc.
Qed.

Lemma close_after_open_witness :
  let own :=
    Runtime.run (SqlitePersistence.open (fun l => l) Js.Null true SchemaFacts.on_its_own)
      (Example.world [] Example.no_table) in
  let r := Runtime.run (SqlitePersistence.close Js.Null true (snd (fst own))) (snd own) in
  SqlitePersistence.isOpen (snd (fst r)) = false
  /\ SqlitePersistence._client (snd (fst r)) = None.
Proof.
  intros own r.
  destruct (close_after_open (O := Example.files) (fun l => l) Js.Null true
              SchemaFacts.on_its_own _ _ 1%nat (Example.world [] Example.no_table) _
              (snd own)
              (SchemaFacts.ready_own Js.Null SchemaFacts.on_its_own
                 (Example.world [] Example.no_table) SqliteConnection.new _ _
                 eq_refl eq_refl)
              eq_refl)
    as (Hopen & Hclient & _).
  split; [exact Hopen | exact Hclient].
Defined.

(** ** More operations of the components *)

(** [getListByIds] and [deleteByIds] of [IdentifiableSqlitePersistence]. *)
Module IdentifiableBatch.
Import Js Commons Runtime SqlitePersistence IdentifiableSqlitePersistence.
Local Open Scope prog_scope.

(** An id as [generateParameters] meets it in the array of ids: the loop
    visits the elements without reading them. *)
Definition as_name (id : JsVal) : JsStr :=
  match id with
  | VUndefined => Undefined
  | VNull => Null
  | VBool true => Str "true"
  | VBool false => Str "false"
  | VNum n => Str (pretty n)
  | VStr s => Str s
  | VObj _ => Str "[object Object]"
  end.

Definition idsQuery (head : string) (st : State) (ids : list JsVal) : string :=
  let params := generateParameters (FromArray (as_name <$> ids)) in
  head +:+ toString (quoteIdentifier (_tableName st)) +:+ " WHERE id IN(" +:+ params +:+ ")".

Definition getListByIds (correlationId : JsStr) (ids : list JsVal) (callback : bool)
    (st : State) : Prog (Completion (option Error * option (list Item))) :=
  let query := idsQuery "SELECT * FROM " st ids in
  using_client st (fun h =>
    r <- perform (All h query ids) ;;
    match fst r with
    | Some err => Ret (call callback (Some err, None))
    | None =>
        items <- newObjects (default [] (snd r)) ;;
        Ret (call callback (None, Some items))
    end).

Definition deleteByIds (correlationId : JsStr) (ids : list JsVal) (callback : bool)
    (st : State) : Prog (Completion (option Error)) :=
  let query := idsQuery "DELETE FROM " st ids in
  using_client st (fun h =>
    err <- perform (Run h query ids) ;;
    Ret (call_if_given callback err)).

End IdentifiableBatch.

(** [getOneRandom] of [SqlitePersistence]. *)
Module RandomItem.
Import Js Commons Runtime SqlitePersistence.
Local Open Scope prog_scope.

Section WithRandom.
(** The text of the position that [_.random(0, count - 1)] draws for the
    count read from the table. *)
Variable random : JsVal -> string.

Definition randomQuery (st : State) (filter : JsStr) (count : JsVal) : string :=
  let query := "SELECT * FROM " +:+ toString (quoteIdentifier (_tableName st)) in
  let query := if truthy filter && negb (is_empty_string filter)
               then query +:+ " WHERE " +:+ toString filter else query in
  query +:+ " LIMIT 1 OFFSET " +:+ random count.

Definition getOneRandom (correlationId : JsStr) (filter : JsStr) (callback : bool)
    (st : State) : Prog (Completion (option Error * Item)) :=
  let query := "SELECT COUNT(*) AS count FROM "
               +:+ toString (quoteIdentifier (_tableName st)) in
  let query := if truthy filter && negb (is_empty_string filter)
               then query +:+ " WHERE " +:+ toString filter else query in
  using_client st (fun h =>
    r <- perform (Get h query []) ;;
    match fst r with
    | Some err => Ret (call callback (Some err, None))
    | None =>
        let count := match snd r with
                     | Some result => prop result "count"
                     | None => VNum 0
                     end in
        r <- perform (Get h (randomQuery st filter count) []) ;;
        item <- match snd r with
                | Some row => newObject row
                | None => Ret None
                end ;;
        Ret (call callback (fst r, convertToPublic item))
    end).

End WithRandom.
End RandomItem.

(** ** What no operation does to the objects of the caller *)

Module FrameFacts.
Import Js Commons Runtime RunFacts SqlitePersistence PersistenceFacts.
Import IdentifiableSqlitePersistence IdentifiableFacts.
Local Open Scope prog_scope.

Section Facts.
Context `{Library} {O : Outside}.

(** Along [p] the heap only receives new objects. *)
Definition grows {R : Type} (p : Prog R) : Prop :=
  forall w : World O, exists more, heap (snd (run p w)) = heap w ++ more.

(** Along [p] every object of the heap stays as it is. *)
Definition keeps_objects {R : Type} (p : Prog R) : Prop :=
  forall (w : World O) (l : loc) (o : JsObject),
    heap w !! l = Some o -> heap (snd (run p w)) !! l = Some o.

Lemma grows_keeps {R : Type} (p : Prog R) : grows p -> keeps_objects p.
Proof.
  intros Hp w l o Hl. destruct (Hp w) as [more ->].
  rewrite lookup_app_l; [exact Hl | now apply lookup_lt_Some in Hl].
Qed.

Lemma grows_ret {R : Type} (r : R) : grows (Ret r).
Proof. intros w. exists []. simpl. now rewrite app_nil_r. Qed.

Lemma grows_bind {A B : Type} (m : Prog A) (f : A -> Prog B) :
  grows m -> (forall a, grows (f a)) -> grows (bind m f).
Proof.
  intros Hm Hf w. rewrite run_bind.
  destruct (Hm w) as [more1 E1].
  destruct (Hf (fst (run m w)) (snd (run m w))) as [more2 E2].
  exists (more1 ++ more2). now rewrite E2, E1, <- List.app_assoc.
Qed.

Lemma grows_perform {X : Type} (c : Call X) :
  match c with Store _ _ => False | _ => True end -> grows (perform c).
Proof.
  intros Hc w. unfold perform.
  destruct c; try (now destruct Hc);
    try (exists []; simpl; destruct (answer O _ _ (outside w)); simpl;
         now rewrite app_nil_r).
  - exists [o]. reflexivity.
  - exists []. simpl. now rewrite app_nil_r.
Qed.

Lemma grows_newObjects rows : grows (newObjects rows).
Proof. intros w. rewrite run_newObjects. exists rows. reflexivity. Qed.

Lemma grows_clone (o : JsObject) :
  grows (newItem <- perform (Alloc o) ;;
         s <- perform NextLong ;;
         _ <- perform (Store newItem (set_prop o "id" (VStr s))) ;;
         Ret newItem).
Proof.
  intros w. rewrite run_alloc. cbv beta.
  rewrite (run_do NextLong) by discriminate. cbv beta. rewrite run_store.
  simpl. rewrite insert_snoc. eexists. reflexivity.
Qed.

Lemma grows_cloneWithId (o : JsObject) : grows (cloneWithId o).
Proof.
  intros w. unfold cloneWithId. rewrite run_alloc. cbv beta. rewrite run_bind.
  destruct (val_truthy (prop o "id")).
  - cbn [run fst snd]. rewrite run_store. simpl. rewrite insert_snoc.
    eexists. reflexivity.
  - rewrite (run_do NextLong) by discriminate. cbn [run fst snd].
    rewrite run_store. simpl. rewrite insert_snoc. eexists. reflexivity.
Qed.

End Facts.

Ltac grows_step :=
  first
    [ apply grows_ret
    | apply grows_newObjects
    | apply grows_clone
    | apply grows_cloneWithId
    | apply grows_perform; exact I
    | apply grows_bind; [|intros ?]
    | match goal with
      | |- grows (match ?x with _ => _ end) => destruct x
      | |- grows (if ?b then _ else _) => destruct b
      end ].

Ltac grows_all := repeat grows_step.

End FrameFacts.

(** X10. No data operation changes an object that exists when it is
    called: the item handed to [create], [set] or [update] and every other
    object of the caller stay as they are, whatever the database answers.
    The id that [create] and [set] assign goes to a clone, and the rows
    read are new objects. *)
Theorem operations_keep_the_objects `{Commons.Library} {O : Runtime.Outside}
    (random : Js.JsVal -> string) (correlationId : Js.JsStr) (callback : bool)
    (st : SqlitePersistence.State) :
  (forall filter paging sort sel,
     FrameFacts.keeps_objects (O := O)
       (SqlitePersistence.getPageByFilter correlationId filter paging sort sel callback st))
  /\ (forall filter,
     FrameFacts.keeps_objects (O := O)
       (SqlitePersistence.getCountByFilter correlationId filter callback st))
  /\ (forall filter sort sel,
     FrameFacts.keeps_objects (O := O)
       (SqlitePersistence.getListByFilter correlationId filter sort sel callback st))
  /\ (forall filter,
     FrameFacts.keeps_objects (O := O)
       (RandomItem.getOneRandom random correlationId filter callback st))
  /\ (forall item,
     FrameFacts.keeps_objects (O := O)
       (SqlitePersistence.create correlationId item callback st))
  /\ (forall filter,
     FrameFacts.keeps_objects (O := O)
       (SqlitePersistence.deleteByFilter correlationId filter callback st))
  /\ FrameFacts.keeps_objects (O := O) (SqlitePersistence.clear correlationId callback st)
  /\ (forall ids,
     FrameFacts.keeps_objects (O := O)
       (IdentifiableBatch.getListByIds correlationId ids callback st))
  /\ (forall id,
     FrameFacts.keeps_objects (O := O)
       (IdentifiableSqlitePersistence.getOneById correlationId id callback st))
  /\ (forall item,
     FrameFacts.keeps_objects (O := O)
       (IdentifiableSqlitePersistence.create correlationId item callback st))
  /\ (forall item,
     FrameFacts.keeps_objects (O := O)
       (IdentifiableSqlitePersistence.set correlationId item callback st))
  /\ (forall item,
     FrameFacts.keeps_objects (O := O)
       (IdentifiableSqlitePersistence.update correlationId item callback st))
  /\ (forall id data,
     FrameFacts.keeps_objects (O := O)
       (IdentifiableSqlitePersistence.updatePartially correlationId id data callback st))
  /\ (forall id,
     FrameFacts.keeps_objects (O := O)
       (IdentifiableSqlitePersistence.deleteById correlationId id callback st))
  /\ (forall ids,
     FrameFacts.keeps_objects (O := O)
       (IdentifiableBatch.deleteByIds correlationId ids callback st)).
Proof.
  repeat match goal with |- _ /\ _ => split end; intros;
    apply FrameFacts.grows_keeps;
    unfold SqlitePersistence.getPageByFilter, SqlitePersistence.getCountByFilter,
      SqlitePersistence.getListByFilter, RandomItem.getOneRandom,
      SqlitePersistence.create, SqlitePersistence.deleteByFilter,
      SqlitePersistence.clear, IdentifiableBatch.getListByIds,
      IdentifiableSqlitePersistence.getOneById, IdentifiableSqlitePersistence.create,
      IdentifiableSqlitePersistence.set, IdentifiableSqlitePersistence.update,
      IdentifiableSqlitePersistence.updatePartially,
      IdentifiableSqlitePersistence.deleteById, IdentifiableBatch.deleteByIds,
      IdentifiableSqlitePersistence.readBack, IdentifiableSqlitePersistence.publicItem,
      SqlitePersistence.create, SqlitePersistence.properties,
      SqlitePersistence.newObject, SqlitePersistence.using_client;
    cbv zeta; FrameFacts.grows_all.
Qed.

(** ** A component without a client *)

Module ClosedFacts.
Import Js Commons Runtime RunFacts SqlitePersistence PersistenceFacts.
Import IdentifiableSqlitePersistence IdentifiableFacts.
Local Open Scope prog_scope.

Section Facts.
Context `{Library} {O : Outside}.

Lemma run_set_no_client correlationId st l o callback (w : World O) :
  _client st = None -> heap w !! l = Some o ->
  run (set correlationId (Some l) callback st) w
  = (Threw null_dereference, set_world o w).
Proof.
  intros Hh Hl. unfold set, properties.
  rewrite run_load, Hl. simpl default. rewrite run_bind.
  unfold set_world, set_row, using_client. rewrite Hh.
  destruct (val_is_null (prop o "id")); [|reflexivity].
  rewrite run_alloc. cbv beta. rewrite (run_do NextLong) by discriminate. cbv beta.
  rewrite run_store. simpl. now rewrite insert_snoc.
Qed.

Lemma set_world_trace (o : JsObject) (w : World O) :
  trace (set_world o w) = trace w \/ trace (set_world o w) = trace w ++ [EvNextLong].
Proof. unfold set_world. destruct (val_is_null (prop o "id")); [right | left]; reflexivity. Qed.

End Facts.

(** A component that has been created and configured, and not opened. *)
Definition never_opened : State := SqlitePersistence.new (Str "dummies").

End ClosedFacts.

(** X11. A component without a client, as it is before [open] and after
    [close], answers no data operation: each operation that gets past its
    null checks throws where it reaches for the client, calls no callback
    and sends no statement. The read operations, the deletions and the
    updates leave the world as it is; [create] and [set] have by then cloned
    an item without id and drawn an id for the clone. [clear] on a
    component without a table name reports that to the callback instead. *)
Theorem operations_need_a_client `{Commons.Library} {O : Runtime.Outside}
    (random : Js.JsVal -> string) (correlationId : Js.JsStr) (callback : bool)
    (st : SqlitePersistence.State) (w : Runtime.World O) :
  SqlitePersistence._client st = None ->
  let thrown {A : Type} (p : Runtime.Prog (Js.Completion A)) :=
    Runtime.run p w = (Js.Threw Js.null_dereference, w) in
  (forall filter paging sort sel,
     thrown (SqlitePersistence.getPageByFilter correlationId filter paging sort sel
               callback st))
  /\ (forall filter, thrown (SqlitePersistence.getCountByFilter correlationId filter callback st))
  /\ (forall filter sort sel,
     thrown (SqlitePersistence.getListByFilter correlationId filter sort sel callback st))
  /\ (forall filter, thrown (RandomItem.getOneRandom random correlationId filter callback st))
  /\ (forall filter, thrown (SqlitePersistence.deleteByFilter correlationId filter callback st))
  /\ (forall ids, thrown (IdentifiableBatch.getListByIds correlationId ids callback st))
  /\ (forall id, thrown (IdentifiableSqlitePersistence.getOneById correlationId id callback st))
  /\ (forall id, thrown (IdentifiableSqlitePersistence.deleteById correlationId id callback st))
  /\ (forall ids, thrown (IdentifiableBatch.deleteByIds correlationId ids callback st))
  /\ (forall id row,
     Js.val_is_null id = false ->
     thrown (IdentifiableSqlitePersistence.updatePartially correlationId id (Some row)
               callback st))
  /\ (forall l row,
     Runtime.heap w !! l = Some row -> Js.val_is_null (Js.prop row "id") = false ->
     thrown (IdentifiableSqlitePersistence.update correlationId (Some l) callback st))
  /\ (forall l o,
     Runtime.heap w !! l = Some o ->
     Runtime.run (IdentifiableSqlitePersistence.create correlationId (Some l) callback st) w
     = (Js.Threw Js.null_dereference, IdentifiableFacts.set_world o w)
     /\ Runtime.run (IdentifiableSqlitePersistence.set correlationId (Some l) callback st) w
        = (Js.Threw Js.null_dereference, IdentifiableFacts.set_world o w)
     /\ (Runtime.trace (IdentifiableFacts.set_world o w) = Runtime.trace w
         \/ Runtime.trace (IdentifiableFacts.set_world o w)
            = Runtime.trace w ++ [Runtime.EvNextLong]))
  /\ Runtime.run (SqlitePersistence.clear correlationId callback st) w
     = (if Js.is_null (SqlitePersistence._tableName st)
        then Js.call_if_given callback
               (Some (Js.MkError Js.PlainError Js.Undefined "Error"
                        (Some "Table name is not defined")))
        else Js.Threw Js.null_dereference, w).
Proof.
  intros Hc thrown. subst thrown. cbv beta.
  repeat match goal with |- _ /\ _ => split end;
    try (intros;
         unfold SqlitePersistence.getPageByFilter, SqlitePersistence.getCountByFilter,
           SqlitePersistence.getListByFilter, RandomItem.getOneRandom,
           SqlitePersistence.deleteByFilter, IdentifiableBatch.getListByIds,
           IdentifiableSqlitePersistence.getOneById,
           IdentifiableSqlitePersistence.deleteById, IdentifiableBatch.deleteByIds,
           SqlitePersistence.using_client;
         cbv zeta; rewrite Hc; reflexivity).
  - intros id row Hid.
    unfold IdentifiableSqlitePersistence.updatePartially, SqlitePersistence.using_client.
    now rewrite Hid, Hc.
  - intros l row Hl Hid.
    unfold IdentifiableSqlitePersistence.update, SqlitePersistence.properties,
      SqlitePersistence.using_client.
    rewrite IdentifiableFacts.run_load, Hl. simpl default. now rewrite Hid, Hc.
  - intros l o Hl. split; [|split].
    + rewrite (IdentifiableFacts.run_create _ _ _ o) by assumption. now rewrite Hc.
    + now apply ClosedFacts.run_set_no_client.
    + apply ClosedFacts.set_world_trace.
  - unfold SqlitePersistence.clear, SqlitePersistence.using_client.
    destruct (Js.is_null _); [reflexivity|]. cbv zeta. now rewrite Hc.
Qed.

Lemma operations_need_a_client_witness :
  Runtime.run (SqlitePersistence.getListByFilter Js.Null Js.Null Js.Null Js.Null true
                 ClosedFacts.never_opened)
    (Example.world [] Example.one_row)
  = (Js.Threw Js.null_dereference, Example.world [] Example.one_row).
Proof.
  pose proof (operations_need_a_client (H := Example.library) (O := Example.files)
                (fun _ => "0") Js.Null true ClosedFacts.never_opened
                (Example.world [] Example.one_row) eq_refl) as P.
  cbv zeta in P.
  destruct P as (_ & _ & P & _).
  exact (P Js.Null Js.Null Js.Null).
Defined.

(** ** The rows that the read operations deliver *)

Module ReadFacts.
Import Js Commons Runtime RunFacts SqlitePersistence PersistenceFacts.
Import IdentifiableSqlitePersistence IdentifiableFacts IdentifiableBatch.
Local Open Scope prog_scope.

(** [item] is an object that did not exist in the heap [before] and that
    has the properties [row] in the heap [after]. *)
Definition holds (before after : list JsObject) (item : Item) (row : JsObject) : Prop :=
  exists l, item = Some l /\ (length before <= l)%nat /\ after !! l = Some row.

Lemma new_objects_hold (before pre rows : list JsObject) :
  (length before <= length pre)%nat ->
  Forall2 (holds before (pre ++ rows)) (Some <$> seq (length pre) (length rows)) rows.
Proof.
  revert pre. induction rows as [|row rows IH]; intros pre Hle; simpl.
  - constructor.
  - constructor.
    + exists (length pre). split; [reflexivity|]. split; [exact Hle|].
      now apply list_lookup_middle.
    + replace (pre ++ row :: rows) with ((pre ++ [row]) ++ rows)
        by now rewrite <- List.app_assoc.
      replace (S (length pre)) with (length (pre ++ [row]))
        by (rewrite length_app; simpl; lia).
      apply IH. rewrite length_app. lia.
Qed.

Section Facts.
Context `{Library} {O : Outside}.

(** What an operation that reads a list makes of the answer to its
    statement [read] in the world [w]: the error alone, or the rows as new
    objects at the end of the heap. *)
Definition delivered (read : Call (option Error * option (list JsObject))) (w : World O)
  : (option Error * option (list Item)) * World O :=
  match fst (answered read w) with
  | Some err => ((Some err, None), after read w)
  | None =>
      let rows := default [] (snd (answered read w)) in
      ((None, Some (Some <$> seq (length (heap w)) (length rows))),
       {| heap := heap w ++ rows;
          outside := outside (after read w);
          trace := trace (after read w) |})
  end.

Lemma run_getListByFilter correlationId st h filter sort sel callback (w : World O) :
  _client st = Some h ->
  run (getListByFilter correlationId filter sort sel callback st) w
  = (call callback (fst (delivered (All h (listQuery st filter sort sel) []) w)),
     snd (delivered (All h (listQuery st filter sort sel) []) w)).
Proof.
  intros Hh. unfold getListByFilter, using_client, delivered. rewrite Hh.
  rewrite run_do by discriminate.
  destruct (fst (answered _ w)); [reflexivity|].
  now rewrite run_bind, run_newObjects.
Qed.

Lemma run_getListByIds correlationId st h ids callback (w : World O) :
  _client st = Some h ->
  run (getListByIds correlationId ids callback st) w
  = (call callback (fst (delivered (All h (idsQuery "SELECT * FROM " st ids) ids) w)),
     snd (delivered (All h (idsQuery "SELECT * FROM " st ids) ids) w)).
Proof.
  intros Hh. unfold getListByIds, using_client, delivered. cbv zeta. rewrite Hh.
  rewrite run_do by discriminate.
  destruct (fst (answered _ w)); [reflexivity|].
  now rewrite run_bind, run_newObjects.
Qed.

Lemma run_getOneById correlationId st h id callback (w : World O) :
  _client st = Some h ->
  run (getOneById correlationId id callback st) w
  = (call callback (fst (answered (Get h (selectById st) [id]) w),
                    item_of (snd (answered (Get h (selectById st) [id]) w)) w),
     with_object (snd (answered (Get h (selectById st) [id]) w))
       (after (Get h (selectById st) [id]) w)).
Proof.
  intros Hh. unfold getOneById, using_client. rewrite Hh.
  rewrite run_do by discriminate. rewrite run_bind, run_publicItem.
  now destruct (snd (answered _ w)).
Qed.

Lemma delivered_holds read (w : World O) items :
  fst (delivered read w) = (None, Some items) ->
  Forall2 (holds (heap w) (heap (snd (delivered read w)))) items
    (default [] (snd (answered read w))).
Proof.
  unfold delivered. destruct (fst (answered read w)); [discriminate|].
  cbn [fst snd heap]. intros [= <-]. now apply new_objects_hold.
Qed.

End Facts.
End ReadFacts.

(** X12. With a handle, [getListByFilter] and [getListByIds] send one
    statement. When it fails the callback receives its error with a null
    list and no object is made; otherwise the callback receives a null error
    with one new object for each row of the answer, in the order of the
    rows, each with the properties of its row. [getOneById] sends its
    SELECT and delivers the error with the row as a new object, or with
    null when there is no row. *)
Theorem reads_deliver_the_rows {O : Runtime.Outside}
    (correlationId : Js.JsStr) (callback : bool) (st : SqlitePersistence.State)
    (h : Runtime.Handle) (w : Runtime.World O) :
  SqlitePersistence._client st = Some h ->
  (forall filter sort sel,
     let read := Runtime.All h (SqlitePersistence.listQuery st filter sort sel) [] in
     Runtime.run (SqlitePersistence.getListByFilter correlationId filter sort sel callback st) w
     = (Js.call callback (fst (ReadFacts.delivered read w)), snd (ReadFacts.delivered read w)))
  /\ (forall ids,
     let read := Runtime.All h (IdentifiableBatch.idsQuery "SELECT * FROM " st ids) ids in
     Runtime.run (IdentifiableBatch.getListByIds correlationId ids callback st) w
     = (Js.call callback (fst (ReadFacts.delivered read w)), snd (ReadFacts.delivered read w)))
  /\ (forall id,
     let read := Runtime.Get h (IdentifiableSqlitePersistence.selectById st) [id] in
     let row := snd (PersistenceFacts.answered read w) in
     let r := Runtime.run
                (IdentifiableSqlitePersistence.getOneById correlationId id callback st) w in
     fst r = Js.call callback
               (fst (PersistenceFacts.answered read w), IdentifiableFacts.item_of row w)
     /\ Runtime.trace (snd r) = Runtime.trace w ++ [Runtime.EvGet h
                                  (IdentifiableSqlitePersistence.selectById st) [id]]
     /\ (forall o, row = Some o ->
           ReadFacts.holds (Runtime.heap w) (Runtime.heap (snd r))
             (IdentifiableFacts.item_of row w) o))
  /\ (forall h' query params,
     let read := Runtime.All h' query params in
     Runtime.trace (snd (ReadFacts.delivered read w))
     = Runtime.trace w ++ [Runtime.EvAll h' query params]
     /\ (forall err, fst (PersistenceFacts.answered read w) = Some err ->
           fst (ReadFacts.delivered read w) = (Some err, None)
           /\ Runtime.heap (snd (ReadFacts.delivered read w)) = Runtime.heap w)
     /\ (fst (PersistenceFacts.answered read w) = None ->
           exists items,
             fst (ReadFacts.delivered read w) = (None, Some items)
             /\ Forall2
                  (ReadFacts.holds (Runtime.heap w)
                     (Runtime.heap (snd (ReadFacts.delivered read w))))
                  items (default [] (snd (PersistenceFacts.answered read w))))).
Proof.
  intros Hh. repeat match goal with |- _ /\ _ => split end.
  - intros filter sort sel read. now apply ReadFacts.run_getListByFilter.
  - intros ids read. now apply ReadFacts.run_getListByIds.
  - intros id read row r. subst r.
    rewrite (ReadFacts.run_getOneById correlationId st h id callback w Hh).
    fold read. fold row. cbn [fst snd].
    split; [reflexivity|]. split.
    + now destruct row.
    + intros o ->. exists (length (Runtime.heap w)).
      split; [reflexivity|]. split; [lia|]. apply IdentifiableFacts.lookup_snoc.
  - intros h' query params read. unfold ReadFacts.delivered.
    split; [now destruct (fst (PersistenceFacts.answered read w))|].
    split.
    + intros err ->. split; reflexivity.
    + intros E. eexists. split; [now rewrite E|].
      apply ReadFacts.delivered_holds. unfold ReadFacts.delivered. now rewrite E.
Qed.

Lemma reads_deliver_the_rows_witness :
  Runtime.run (SqlitePersistence.getListByFilter Js.Null Js.Null Js.Null Js.Null true
                 Example.dummies)
    (Example.world [] Example.one_row)
  = (Js.Called (None, Some [Some 0%nat]),
     snd (ReadFacts.delivered
            (Runtime.All 1%nat
               (SqlitePersistence.listQuery Example.dummies Js.Null Js.Null Js.Null) [])
            (Example.world [] Example.one_row))).
Proof.
  pose proof (reads_deliver_the_rows (O := Example.files) Js.Null true Example.dummies
                1%nat (Example.world [] Example.one_row) eq_refl) as (P & _).
  exact (P Js.Null Js.Null Js.Null).
Defined.

(** ** The statements of the batch operations and of a page *)

Module BatchFacts.
Import Js Commons Runtime RunFacts SqlitePersistence PersistenceFacts.
Import IdentifiableSqlitePersistence IdentifiableFacts IdentifiableBatch.
Local Open Scope prog_scope.

Lemma generateParameters_array (a : list JsStr) :
  generateParameters (FromArray a) = join "," (replicate (length a) "?").
Proof.
  unfold generateParameters, names.
  change (fold_left (GenerateFacts.add_term (fun _ => "?")) a EmptyString
          = join "," (replicate (length a) "?")).
  rewrite GenerateFacts.fold_add_term_join by now destruct a.
  f_equal. induction a as [|x a IH]; [reflexivity|]. simpl. now rewrite <- IH.
Qed.

Lemma idsQuery_parts head st ids :
  idsQuery head st ids
  = head +:+ from_table st +:+ " WHERE id IN("
    +:+ join "," (replicate (length ids) "?") +:+ ")".
Proof.
  unfold idsQuery, from_table. cbv zeta.
  now rewrite generateParameters_array, length_fmap.
Qed.

Section Facts.
Context `{Library} {O : Outside}.

Lemma run_deleteByIds correlationId st h ids callback (w : World O) :
  _client st = Some h ->
  run (deleteByIds correlationId ids callback st) w
  = (call_if_given callback (answered (Run h (idsQuery "DELETE FROM " st ids) ids) w),
     after (Run h (idsQuery "DELETE FROM " st ids) ids) w).
Proof.
  intros Hh. unfold deleteByIds, using_client. cbv zeta. rewrite Hh.
  now rewrite run_do by discriminate.
Qed.

(** The world in which [getPageByFilter] ends. *)
Definition page_world (st : State) (h : Handle) (filter : JsStr)
    (paging : option PagingParams) (sort sel : JsStr) (w : World O) : World O :=
  let read := All h (pageQuery st filter paging sort sel) [] in
  match fst (answered read w) with
  | Some _ => after read w
  | None =>
      let w2 := {| heap := heap w ++ default [] (snd (answered read w));
                   outside := outside (after read w);
                   trace := trace (after read w) |} in
      if total (default newPagingParams paging)
      then after (Get h (countQuery st filter) []) w2
      else w2
  end.

Lemma run_page_world correlationId st h filter paging sort sel callback (w : World O) :
  _client st = Some h ->
  snd (run (getPageByFilter correlationId filter paging sort sel callback st) w)
  = page_world st h filter paging sort sel w.
Proof.
  intros Hh. unfold getPageByFilter, using_client, page_world.
  rewrite Hh. unfold bind at 1, perform.
  rewrite run_perform by discriminate.
  destruct (fst (answered _ w)); [reflexivity|].
  rewrite run_bind, run_newObjects. simpl fst. simpl snd.
  destruct (total (default newPagingParams paging)); [|reflexivity].
  unfold bind, perform. rewrite run_perform by discriminate.
  rewrite pageCountQuery_countQuery.
  match goal with |- context [fst (answered ?c ?w')] =>
    destruct (fst (answered c w')) end; reflexivity.
Qed.

Lemma page_outcome_data st h filter paging sort sel (w : World O) page :
  PageFacts.page_outcome st h filter paging sort sel w = (None, Some page) ->
  fst (answered (All h (pageQuery st filter paging sort sel) []) w) = None
  /\ DataPage.data page
     = Some <$> seq (length (heap w))
                  (length (default []
                     (snd (answered (All h (pageQuery st filter paging sort sel) []) w)))).
Proof.
  unfold PageFacts.page_outcome.
  destruct (fst (answered _ w)); [discriminate|].
  destruct (total (default newPagingParams paging)).
  - match goal with |- context [fst (answered ?c ?w')] =>
      destruct (fst (answered c w')) end; [discriminate|].
    intros [= <-]. split; reflexivity.
  - intros [= <-]. split; reflexivity.
Qed.

End Facts.
End BatchFacts.

(** X13. The statements of [getListByIds] and [deleteByIds] name the
    table and carry one placeholder for each id given, separated by commas,
    and the ids are their parameters in the order given; without ids the
    list of placeholders is empty. With a handle [deleteByIds] sends that
    one statement and reports its error, or null, to the callback when one
    is given. *)
Theorem batch_statements_take_each_id {O : Runtime.Outside}
    (correlationId : Js.JsStr) (callback : bool) (st : SqlitePersistence.State)
    (h : Runtime.Handle) (ids : list Js.JsVal) (w : Runtime.World O) :
  SqlitePersistence._client st = Some h ->
  let placeholders := Js.join "," (replicate (length ids) "?") in
  let select := "SELECT * FROM " +:+ PersistenceFacts.from_table st
                +:+ " WHERE id IN(" +:+ placeholders +:+ ")" in
  let delete := "DELETE FROM " +:+ PersistenceFacts.from_table st
                +:+ " WHERE id IN(" +:+ placeholders +:+ ")" in
  Runtime.trace
    (snd (Runtime.run (IdentifiableBatch.getListByIds correlationId ids callback st) w))
  = Runtime.trace w ++ [Runtime.EvAll h select ids]
  /\ Runtime.run (IdentifiableBatch.deleteByIds correlationId ids callback st) w
     = (Js.call_if_given callback (PersistenceFacts.answered (Runtime.Run h delete ids) w),
        PersistenceFacts.after (Runtime.Run h delete ids) w)
  /\ Runtime.trace (PersistenceFacts.after (Runtime.Run h delete ids) w)
     = Runtime.trace w ++ [Runtime.EvRun h delete ids].
Proof.
  intros Hh placeholders select delete.
  assert (IdentifiableBatch.idsQuery "SELECT * FROM " st ids = select) as Es
    by apply BatchFacts.idsQuery_parts.
  assert (IdentifiableBatch.idsQuery "DELETE FROM " st ids = delete) as Ed
    by apply BatchFacts.idsQuery_parts.
  split; [|split].
  - rewrite (ReadFacts.run_getListByIds correlationId st h ids callback w Hh), Es.
    cbn [snd]. unfold ReadFacts.delivered.
    now destruct (fst (PersistenceFacts.answered _ w)).
  - rewrite (BatchFacts.run_deleteByIds correlationId st h ids callback w Hh), Ed.
    reflexivity.
  - reflexivity.
Qed.

Lemma batch_statements_take_each_id_witness :
  Runtime.trace
    (snd (Runtime.run
            (IdentifiableBatch.getListByIds Js.Null [Js.VStr "1"; Js.VStr "7"] true
               Example.dummies)
            (Example.world [] Example.one_row)))
  = [Runtime.EvAll 1%nat
       ("SELECT * FROM " +:+ PersistenceFacts.from_table Example.dummies
        +:+ " WHERE id IN(?,?)")
       [Js.VStr "1"; Js.VStr "7"]].
Proof.
  exact (proj1 (batch_statements_take_each_id (O := Example.files) Js.Null true
                  Example.dummies 1%nat [Js.VStr "1"; Js.VStr "7"]
                  (Example.world [] Example.one_row) eq_refl)).
Defined.

(** X14. With a handle, [getPageByFilter] sends the query of the rows and,
    only when that query has succeeded and a total is asked for, the query
    that counts. The rows of a successful query become new objects even
    when the count then fails; a failed query of the rows makes none. The
    data of a page that the callback receives are these objects: one for
    each row, in the order of the rows, with the properties of its row. *)
Theorem page_statements_and_items `{Commons.Library} {O : Runtime.Outside}
    (correlationId : Js.JsStr) (callback : bool) (st : SqlitePersistence.State)
    (h : Runtime.Handle) (filter : Js.JsStr) (paging : option Commons.PagingParams)
    (sort sel : Js.JsStr) (w : Runtime.World O) :
  SqlitePersistence._client st = Some h ->
  let read := Runtime.All h (SqlitePersistence.pageQuery st filter paging sort sel) [] in
  let rows := default [] (snd (PersistenceFacts.answered read w)) in
  let r := Runtime.run
             (SqlitePersistence.getPageByFilter correlationId filter paging sort sel
                callback st) w in
  Runtime.trace (snd r)
  = Runtime.trace w
    ++ Runtime.EvAll h (SqlitePersistence.pageQuery st filter paging sort sel) []
       :: match fst (PersistenceFacts.answered read w) with
          | Some _ => []
          | None =>
              if Commons.total (default Commons.newPagingParams paging)
              then [Runtime.EvGet h (SqlitePersistence.countQuery st filter) []]
              else []
          end
  /\ Runtime.heap (snd r)
     = Runtime.heap w
       ++ match fst (PersistenceFacts.answered read w) with
          | Some _ => []
          | None => rows
          end
  /\ (forall page,
        fst r = Js.Called (None, Some page) ->
        Forall2 (ReadFacts.holds (Runtime.heap w) (Runtime.heap (snd r)))
          (SqlitePersistence.DataPage.data page) rows).
Proof.
  intros Hh read rows r. subst r.
  rewrite (BatchFacts.run_page_world correlationId st h filter paging sort sel callback w Hh).
  rewrite (PageFacts.run_getPageByFilter correlationId st h filter paging sort sel
             callback w Hh).
  unfold BatchFacts.page_world. fold read.
  split; [|split].
  - destruct (fst (PersistenceFacts.answered read w)); [reflexivity|].
    destruct (Commons.total _); [|reflexivity].
    subst read.
    cbn [Runtime.trace PersistenceFacts.after Runtime.log Runtime.event_of].
    now rewrite <- app_assoc.
  - destruct (fst (PersistenceFacts.answered read w)).
    + simpl. now rewrite app_nil_r.
    + now destruct (Commons.total _).
  - intros page Hpage. destruct callback; [|discriminate].
    injection Hpage as Hpage.
    apply BatchFacts.page_outcome_data in Hpage as [E ->]. fold read in E.
    rewrite E. fold rows.
    destruct (Commons.total (default Commons.newPagingParams paging));
      now apply ReadFacts.new_objects_hold.
Qed.

Lemma page_statements_and_items_witness :
  Runtime.heap
    (snd (Runtime.run
            (SqlitePersistence.getPageByFilter Js.Null (Js.Str "key='Key 1'")
               (Some Example.first_page) Js.Null Js.Null true Example.dummies)
            (Example.world [] Example.one_row)))
  = default []
      (snd (PersistenceFacts.answered
              (Runtime.All 1%nat
                 (SqlitePersistence.pageQuery Example.dummies (Js.Str "key='Key 1'")
                    (Some Example.first_page) Js.Null Js.Null) [])
              (Example.world [] Example.one_row))).
Proof.
  exact (proj1 (proj2 (page_statements_and_items (H := Example.library) (O := Example.files)
                         Js.Null true Example.dummies 1%nat (Js.Str "key='Key 1'")
                         (Some Example.first_page) Js.Null Js.Null
                         (Example.world [] Example.one_row) eq_refl))).
Defined.

(** ** A random item *)

Module RandomFacts.
Import Js Commons Runtime RunFacts SqlitePersistence PersistenceFacts.
Import IdentifiableSqlitePersistence IdentifiableFacts RandomItem.
Local Open Scope prog_scope.

Lemma randomQuery_parts random st filter count :
  randomQuery random st filter count
  = "SELECT * FROM " +:+ from_table st +:+ where_clause filter
    +:+ " LIMIT 1 OFFSET " +:+ random count.
Proof.
  unfold randomQuery, where_clause, from_table.
  destruct filter as [| |[|b f]]; simpl;
    rewrite ?JsFacts.app_assoc, ?JsFacts.app_empty_r; reflexivity.
Qed.

(** The count that [getOneRandom] reads from the answer to its first
    statement. *)
Definition count_read (result : option JsObject) : JsVal :=
  match result with
  | Some result => prop result "count"
  | None => VNum 0
  end.

Section Facts.
Context `{Library} {O : Outside}.
Variable random : JsVal -> string.

Lemma run_getOneRandom correlationId st h filter callback (w : World O) :
  _client st = Some h ->
  let count := Get h (countQuery st filter) [] in
  let pick := Get h (randomQuery random st filter (count_read (snd (answered count w)))) [] in
  run (getOneRandom random correlationId filter callback st) w
  = match fst (answered count w) with
    | Some err => (call callback (Some err, None), after count w)
    | None =>
        (call callback (fst (answered pick (after count w)),
                        item_of (snd (answered pick (after count w))) w),
         with_object (snd (answered pick (after count w))) (after pick (after count w)))
    end.
Proof.
  intros Hh count pick. unfold getOneRandom, using_client. cbv zeta. rewrite Hh.
  change (if truthy filter && negb (is_empty_string filter)
          then ("SELECT COUNT(*) AS count FROM "
                +:+ toString (quoteIdentifier (_tableName st)))
               +:+ " WHERE " +:+ toString filter
          else "SELECT COUNT(*) AS count FROM "
               +:+ toString (quoteIdentifier (_tableName st)))
    with (countQuery st filter).
  rewrite run_do by discriminate. fold count.
  destruct (fst (answered count w)); [reflexivity|].
  rewrite run_do by discriminate. fold (count_read (snd (answered count w))). fold pick.
  rewrite run_bind.
  destruct (snd (answered pick (after count w))); reflexivity.
Qed.

End Facts.
End RandomFacts.

(** X15. With a handle, [getOneRandom] counts the rows of the filter and,
    when the count has succeeded, selects one row of the same filter at the
    offset drawn for that count, which is 0 when the count has no row. A
    failed count ends the operation: its error goes to the callback with a
    null item and no second statement is sent. Otherwise the callback
    receives the error of the second statement with its row as a new
    object, or with null when there is no row. *)
Theorem random_item_counts_then_picks {O : Runtime.Outside}
    (random : Js.JsVal -> string) (correlationId : Js.JsStr) (callback : bool)
    (st : SqlitePersistence.State) (h : Runtime.Handle) (filter : Js.JsStr)
    (w : Runtime.World O) :
  SqlitePersistence._client st = Some h ->
  let count :=
    Runtime.Get h ("SELECT COUNT(*) AS count FROM " +:+ PersistenceFacts.from_table st
                   +:+ PersistenceFacts.where_clause filter) [] in
  let n := RandomFacts.count_read (snd (PersistenceFacts.answered count w)) in
  let pick :=
    Runtime.Get h ("SELECT * FROM " +:+ PersistenceFacts.from_table st
                   +:+ PersistenceFacts.where_clause filter
                   +:+ " LIMIT 1 OFFSET " +:+ random n) [] in
  let w1 := PersistenceFacts.after count w in
  let r := Runtime.run (RandomItem.getOneRandom random correlationId filter callback st) w in
  match fst (PersistenceFacts.answered count w) with
  | Some err =>
      r = (Js.call callback (Some err, None), w1)
      /\ Runtime.trace w1
         = Runtime.trace w
           ++ [Runtime.EvGet h ("SELECT COUNT(*) AS count FROM "
                                +:+ PersistenceFacts.from_table st
                                +:+ PersistenceFacts.where_clause filter) []]
  | None =>
      fst r = Js.call callback
                (fst (PersistenceFacts.answered pick w1),
                 IdentifiableFacts.item_of (snd (PersistenceFacts.answered pick w1)) w)
      /\ Runtime.trace (snd r)
         = Runtime.trace w
           ++ [Runtime.EvGet h ("SELECT COUNT(*) AS count FROM "
                                +:+ PersistenceFacts.from_table st
                                +:+ PersistenceFacts.where_clause filter) [];
               Runtime.EvGet h ("SELECT * FROM " +:+ PersistenceFacts.from_table st
                                +:+ PersistenceFacts.where_clause filter
                                +:+ " LIMIT 1 OFFSET " +:+ random n) []]
      /\ (forall o,
            snd (PersistenceFacts.answered pick w1) = Some o ->
            ReadFacts.holds (Runtime.heap w) (Runtime.heap (snd r))
              (IdentifiableFacts.item_of (snd (PersistenceFacts.answered pick w1)) w) o)
  end.
Proof.
  intros Hh count n pick w1 r. subst r.
  rewrite (RandomFacts.run_getOneRandom random correlationId st h filter callback w Hh).
  rewrite (PersistenceFacts.countQuery_parts st filter). fold count. fold n.
  rewrite RandomFacts.randomQuery_parts. fold pick. fold w1.
  destruct (fst (PersistenceFacts.answered count w)).
  - split; reflexivity.
  - cbn [fst snd]. split; [reflexivity|]. split.
    + assert (forall row (w' : Runtime.World O),
                Runtime.trace (IdentifiableFacts.with_object row w') = Runtime.trace w')
        as -> by now intros [row|] w'.
      subst w1 pick count.
      cbn [Runtime.trace PersistenceFacts.after Runtime.log Runtime.event_of].
      now rewrite <- app_assoc.
    + intros o ->. exists (length (Runtime.heap w)).
      split; [reflexivity|]. split; [lia|].
      apply IdentifiableFacts.lookup_snoc.
Qed.

Lemma random_item_counts_then_picks_witness :
  fst (Runtime.run
         (RandomItem.getOneRandom (fun _ => "0") Js.Null Js.Null true Example.dummies)
         (Example.world [] Example.one_row))
  = Js.Called (None, Some 0%nat).
Proof.
  pose proof (random_item_counts_then_picks (O := Example.files) (fun _ => "0") Js.Null
                true Example.dummies 1%nat Js.Null (Example.world [] Example.one_row)
                eq_refl) as P.
  cbv zeta in P. exact (proj1 P).
Defined.

(** ** Operations called without a callback *)

Module CallbackFacts.
Import Js Commons Runtime RunFacts SqlitePersistence.
Local Open Scope prog_scope.

Section Facts.
Context {O : Outside}.

(** Whatever the outside answers, [p] ends by handing some arguments to
    [f], which calls the callback or fails to. *)
Definition reports {A : Type} (f : A -> Completion A) (p : Prog (Completion A)) : Prop :=
  forall w : World O, exists a, fst (run p w) = f a.

Lemma reports_ret {A : Type} (f : A -> Completion A) (a : A) : reports f (Ret (f a)).
Proof. intros w. now exists a. Qed.

Lemma reports_bind {A X : Type} (f : A -> Completion A) (m : Prog X)
    (k : X -> Prog (Completion A)) :
  (forall x, reports f (k x)) -> reports f (bind m k).
Proof. intros Hk w. rewrite run_bind. apply Hk. Qed.

End Facts.

Ltac reports_step :=
  first
    [ apply reports_ret
    | apply reports_bind; intros ?
    | match goal with
      | |- reports _ (match ?x with _ => _ end) => destruct x
      | |- reports _ (if ?b then _ else _) => destruct b
      end ].

Ltac reports_all := repeat reports_step.

End CallbackFacts.

(** X16. Which operations can be called without a callback, on a
    component with a handle. The operations that read, and [create], call
    the callback without a test: without one they throw where they would
    call it, whatever the database has answered, and [create] has by then
    sent its INSERT. [deleteByFilter], [clear], [set], [update],
    [updatePartially], [deleteById] and [deleteByIds] test the callback and
    end without calling anything. *)
Theorem callback_is_optional_only_for_writes `{Commons.Library} {O : Runtime.Outside}
    (random : Js.JsVal -> string) (correlationId : Js.JsStr)
    (st : SqlitePersistence.State) (h : Runtime.Handle) (w : Runtime.World O) :
  SqlitePersistence._client st = Some h ->
  let required {A : Type} (p : Runtime.Prog (Js.Completion A)) :=
    fst (Runtime.run p w) = Js.Threw Js.not_a_function in
  let optional {A : Type} (p : Runtime.Prog (Js.Completion A)) :=
    fst (Runtime.run p w) = Js.NotCalled in
  ((forall filter paging sort sel,
      required (SqlitePersistence.getPageByFilter correlationId filter paging sort sel
                  false st))
   /\ (forall filter, required (SqlitePersistence.getCountByFilter correlationId filter false st))
   /\ (forall filter sort sel,
      required (SqlitePersistence.getListByFilter correlationId filter sort sel false st))
   /\ (forall filter, required (RandomItem.getOneRandom random correlationId filter false st))
   /\ (forall ids, required (IdentifiableBatch.getListByIds correlationId ids false st))
   /\ (forall id, required (IdentifiableSqlitePersistence.getOneById correlationId id false st))
   /\ (forall item, required (SqlitePersistence.create correlationId item false st))
   /\ (forall item, required (IdentifiableSqlitePersistence.create correlationId item false st)))
  /\ (forall l o,
        Runtime.heap w !! l = Some o ->
        let row := IdentifiableFacts.set_row o w in
        Runtime.trace
          (snd (Runtime.run
                  (IdentifiableSqlitePersistence.create correlationId (Some l) false st) w))
        = Runtime.trace (IdentifiableFacts.set_world o w)
          ++ [Runtime.EvRun h (IdentifiableFacts.insert_query st row)
                (SqlitePersistence.generateValues row)])
  /\ ((forall filter, optional (SqlitePersistence.deleteByFilter correlationId filter false st))
      /\ optional (SqlitePersistence.clear correlationId false st)
      /\ (forall item, optional (IdentifiableSqlitePersistence.set correlationId item false st))
      /\ (forall item,
            optional (IdentifiableSqlitePersistence.update correlationId item false st))
      /\ (forall id data,
            optional (IdentifiableSqlitePersistence.updatePartially correlationId id data
                        false st))
      /\ (forall id,
            optional (IdentifiableSqlitePersistence.deleteById correlationId id false st))
      /\ (forall ids, optional (IdentifiableBatch.deleteByIds correlationId ids false st))).
Proof.
  intros Hh required optional. subst required optional. cbv beta.
  split; [|split].
  - repeat match goal with |- _ /\ _ => split end; intros;
      match goal with
      | |- fst (Runtime.run ?p w) = _ =>
          assert (CallbackFacts.reports (O := O) (Js.call false) p) as R
      end;
      try (destruct (R w) as [a ->]; reflexivity);
      unfold SqlitePersistence.getPageByFilter, SqlitePersistence.getCountByFilter,
        SqlitePersistence.getListByFilter, RandomItem.getOneRandom,
        IdentifiableBatch.getListByIds, IdentifiableSqlitePersistence.getOneById,
        IdentifiableSqlitePersistence.create, SqlitePersistence.create,
        SqlitePersistence.using_client;
      cbv zeta; rewrite ?Hh; CallbackFacts.reports_all.
  - intros l o Hl row.
    rewrite (IdentifiableFacts.run_create correlationId st l o false w Hl), Hh.
    reflexivity.
  - repeat match goal with |- _ /\ _ => split end; intros;
      match goal with
      | |- fst (Runtime.run ?p w) = _ =>
          assert (CallbackFacts.reports (O := O) (Js.call_if_given false) p) as R
      end;
      try (destruct (R w) as [a ->]; reflexivity);
      unfold SqlitePersistence.deleteByFilter, SqlitePersistence.clear,
        IdentifiableSqlitePersistence.set, IdentifiableSqlitePersistence.update,
        IdentifiableSqlitePersistence.updatePartially,
        IdentifiableSqlitePersistence.deleteById, IdentifiableBatch.deleteByIds,
        IdentifiableSqlitePersistence.readBack, SqlitePersistence.using_client;
      cbv zeta; rewrite ?Hh; CallbackFacts.reports_all.
Qed.

Lemma callback_is_optional_only_for_writes_witness :
  fst (Runtime.run
         (IdentifiableSqlitePersistence.create Js.Null (Some 0%nat) false Example.dummies)
         (Example.world [[("key", Js.VStr "Key 1")]] Example.one_row))
  = Js.Threw Js.not_a_function
  /\ fst (Runtime.run
            (IdentifiableSqlitePersistence.set Js.Null (Some 0%nat) false Example.dummies)
            (Example.world [[("key", Js.VStr "Key 1")]] Example.one_row))
     = Js.NotCalled.
Proof.
  pose proof (callback_is_optional_only_for_writes (H := Example.library)
                (O := Example.files) (fun _ => "0") Js.Null Example.dummies 1%nat
                (Example.world [[("key", Js.VStr "Key 1")]] Example.one_row) eq_refl) as P.
  cbv zeta in P. destruct P as (R & _ & W).
  split.
  - exact (proj2 (proj2 (proj2 (proj2 (proj2 (proj2 (proj2 R)))))) (Some 0%nat)).
  - exact (proj1 (proj2 (proj2 W)) (Some 0%nat)).
Defined.

(** ** The statement of an index *)

Module IndexFacts.
Import Js JsFacts SqlitePersistence.

(** The term of a field of an index: its quoted name, followed by DESC
    when its direction is not ascending. *)
Definition field (key : string * bool) : string :=
  toString (quoteIdentifier (Str (fst key)))
  +:+ (if snd key then EmptyString else " DESC").

(** The loop of [ensureIndex] over the fields. *)
Definition add_field (fields : string) (key : string * bool) : string :=
  let fields := if negb (String.eqb fields EmptyString)
                then fields +:+ ", " else fields in
  let fields := fields +:+ toString (quoteIdentifier (Str (fst key))) in
  if negb (snd key) then fields +:+ " DESC" else fields.

Fixpoint rest_fields (l : list string) : string :=
  match l with
  | [] => EmptyString
  | x :: l' => ", " +:+ x +:+ rest_fields l'
  end.

Lemma join_fields (x : string) (l : list string) :
  join ", " (x :: l) = x +:+ rest_fields l.
Proof.
  revert x. induction l as [|y l IH]; intros x.
  - simpl. now rewrite app_empty_r.
  - change (join ", " (x :: y :: l)) with (x +:+ ", " +:+ join ", " (y :: l)).
    now rewrite IH.
Qed.

Lemma add_field_first (key : string * bool) : add_field EmptyString key = field key.
Proof.
  unfold add_field, field. destruct key as [k [|]]; simpl snd; cbv zeta; simpl negb; cbv iota.
  - now rewrite app_empty_r.
  - reflexivity.
Qed.

Lemma add_field_next (acc : string) (key : string * bool) :
  acc <> EmptyString -> add_field acc key = acc +:+ ", " +:+ field key.
Proof.
  intros Hacc. unfold add_field, field. cbv zeta. rewrite eqb_empty.
  destruct acc as [|c acc]; [congruence|]. simpl negb. cbv iota.
  destruct key as [k [|]]; simpl snd; simpl negb; cbv iota;
    now rewrite ?app_assoc, ?app_empty_r.
Qed.

Lemma fold_add_field (keys : list (string * bool)) (acc : string) :
  acc <> EmptyString ->
  fold_left add_field keys acc = acc +:+ rest_fields (field <$> keys).
Proof.
  revert acc. induction keys as [|key keys IH]; intros acc Hacc; simpl.
  - now rewrite app_empty_r.
  - rewrite add_field_next by exact Hacc. rewrite IH.
    + now rewrite !app_assoc.
    + intros Hn. apply app_eq_empty in Hn as [Hn _]. congruence.
Qed.

(** The loop joins the terms of the fields when the first term is not
    empty. *)
Lemma fold_fields_join (keys : list (string * bool)) :
  match keys with key :: _ => field key <> EmptyString | [] => True end ->
  fold_left add_field keys EmptyString = join ", " (field <$> keys).
Proof.
  destruct keys as [|key keys]; [reflexivity|]. intros Hkey.
  simpl fold_left. rewrite add_field_first.
  change (field <$> key :: keys) with (field key :: (field <$> keys)).
  rewrite join_fields. now apply fold_add_field.
Qed.

Lemma field_nonempty (k : string) (asc : bool) :
  k <> EmptyString \/ asc = false -> field (k, asc) <> EmptyString.
Proof.
  intros [Hk | ->]; unfold field; simpl fst; simpl snd.
  - intros Hn. apply app_eq_empty in Hn as [Hn _].
    now apply (GenerateFacts.quoted_nonempty k Hk).
  - intros Hn. apply app_eq_empty in Hn as [_ Hn]. discriminate.
Qed.

(** The statement that [ensureIndex] builds. *)
Definition index_statement (name : JsStr) (keys : list (string * bool))
    (options : option IndexOptions) (st : State) : string :=
  let options := default {| unique := false; type := Undefined |} options in
  "CREATE" +:+ (if unique options then " UNIQUE" else EmptyString)
  +:+ " INDEX IF NOT EXISTS " +:+ toString (quoteIdentifier name)
  +:+ " ON " +:+ toString (quoteIdentifier (_tableName st))
  +:+ (if truthy (type options) then " " +:+ toString (type options) else EmptyString)
  +:+ "(" +:+ join ", " (field <$> keys) +:+ ")".

(** The fields of the index of the examples. *)
Definition by_key_and_time : list (string * bool) := [("key", true); ("time", false)].

End IndexFacts.

(** X17. When there is no field, or the first field has a name or is
    descending, [ensureIndex] adds one statement after the schema statements
    registered so far and changes nothing else of the component. The
    statement is CREATE, UNIQUE if the options ask for it, INDEX IF NOT
    EXISTS with the quoted name, ON with the quoted table, the type of the
    options if any, and in parentheses the quoted fields in the order given,
    separated by a comma and a space, each followed by DESC when its
    direction is not ascending. *)
Theorem ensureIndex_appends_its_statement (name : Js.JsStr) (keys : list (string * bool))
    (options : option SqlitePersistence.IndexOptions) (st : SqlitePersistence.State) :
  match keys with
  | (k, asc) :: _ => k <> EmptyString \/ asc = false
  | [] => True
  end ->
  SqlitePersistence.ensureIndex name keys options st
  = SqlitePersistence.with_schemaStatements
      (SqlitePersistence._schemaStatements st
       ++ [IndexFacts.index_statement name keys options st]) st.
Proof.
  intros Hkeys.
  unfold SqlitePersistence.ensureIndex, SqlitePersistence.autoCreateObject,
    SqlitePersistence.ensureSchema, IndexFacts.index_statement.
  cbv zeta. do 3 f_equal.
  change (fold_left _ keys EmptyString) with (fold_left IndexFacts.add_field keys EmptyString).
  rewrite IndexFacts.fold_fields_join.
  - destruct (SqlitePersistence.unique _), (Js.truthy _);
      now rewrite ?JsFacts.app_assoc, ?JsFacts.app_empty_r.
  - destruct keys as [|[k asc] keys]; [exact I|]. now apply IndexFacts.field_nonempty.
Qed.

Lemma ensureIndex_appends_its_statement_witness :
  SqlitePersistence._schemaStatements
    (SqlitePersistence.ensureIndex (Js.Str "dummies_key") IndexFacts.by_key_and_time
       (Some {| SqlitePersistence.unique := true; SqlitePersistence.type := Js.Undefined |})
       SchemaFacts.on_its_own)
  = SqlitePersistence._schemaStatements SchemaFacts.on_its_own
    ++ [IndexFacts.index_statement (Js.Str "dummies_key") IndexFacts.by_key_and_time
          (Some {| SqlitePersistence.unique := true;
                   SqlitePersistence.type := Js.Undefined |})
          SchemaFacts.on_its_own].
Proof.
  pose proof (ensureIndex_appends_its_statement (Js.Str "dummies_key")
             IndexFacts.by_key_and_time
             (Some {| SqlitePersistence.unique := true;
                      SqlitePersistence.type := Js.Undefined |})
             SchemaFacts.on_its_own) as P.
  assert (match IndexFacts.by_key_and_time with
          | (k, asc) :: _ => k <> EmptyString \/ asc = false
          | [] => True
          end) as Hk.
  { left. discriminate. }
  specialize (P Hk).
  rewrite P.
  reflexivity.
Defined.

(** ** The row that is written *)

Module RowFacts.
Import Js Commons Runtime RunFacts SqlitePersistence PersistenceFacts.
Import IdentifiableSqlitePersistence IdentifiableFacts.

Lemma prop_set_prop (o : JsObject) (k : string) (v : JsVal) :
  prop (set_prop o k v) k = v.
Proof.
  induction o as [|[k' v'] o IH]; simpl.
  - now rewrite String.eqb_refl.
  - destruct (String.eqb k' k) eqn:E; simpl; now rewrite E.
Qed.

Lemma prop_set_prop_other (o : JsObject) (k k0 : string) (v : JsVal) :
  k0 <> k -> prop (set_prop o k v) k0 = prop o k0.
Proof.
  intros Hk. induction o as [|[k' v'] o IH]; simpl.
  - destruct (String.eqb k k0) eqn:E; [|reflexivity].
    apply String.eqb_eq in E. congruence.
  - destruct (String.eqb k' k) eqn:E; simpl.
    + apply String.eqb_eq in E. subst k'.
      destruct (String.eqb k k0) eqn:E0; [|reflexivity].
      apply String.eqb_eq in E0. congruence.
    + now rewrite IH.
Qed.

Lemma placeholders (l : list string) :
  GenerateFacts.placeholder <$> l = replicate (length l) "?".
Proof. induction l as [|x l IH]; [reflexivity|]. simpl. f_equal. exact IH. Qed.

Section Facts.
Context {O : Outside}.

Lemma set_row_id (o : JsObject) (w : World O) :
  val_is_null (prop (set_row o w) "id") = false.
Proof.
  unfold set_row. destruct (val_is_null (prop o "id")) eqn:E; [|exact E].
  now rewrite prop_set_prop.
Qed.

Lemma set_row_other (o : JsObject) (w : World O) (k : string) :
  k <> "id" -> prop (set_row o w) k = prop o k.
Proof.
  intros Hk. unfold set_row. destruct (val_is_null (prop o "id")); [|reflexivity].
  now apply prop_set_prop_other.
Qed.

Lemma read_back_trace st h id callback (w : World O) :
  trace (snd (read_back st h id callback w))
  = trace w ++ [EvGet h (IdentifiableSqlitePersistence.selectById st) [id]].
Proof.
  unfold read_back. simpl snd. now destruct (snd (answered _ w)).
Qed.

End Facts.
End RowFacts.

(** X18. The row that [create] and [set] write for an item: it always has
    an id, the item's own or the generated one, and every other property of
    the item with its value. With a handle, the INSERT of [create] has one
    placeholder for each property of the row and takes the values of the
    row in the order of its properties; the statement of [set] is that
    INSERT followed by ON CONFLICT(id) DO UPDATE SET with one term for each
    property, takes the values twice, and is followed by the SELECT by the
    id of the row. *)
Theorem written_row_has_an_id {O : Runtime.Outside}
    (correlationId : Js.JsStr) (callback : bool) (st : SqlitePersistence.State)
    (h : Runtime.Handle) (l : Js.loc) (o : Js.JsObject) (w : Runtime.World O) :
  SqlitePersistence._client st = Some h ->
  Runtime.heap w !! l = Some o ->
  let row := IdentifiableFacts.set_row o w in
  let n := length (Js.keys row) in
  let insert :=
    "INSERT INTO " +:+ PersistenceFacts.from_table st
    +:+ " (" +:+ SqlitePersistence.generateColumns (SqlitePersistence.FromObject row)
    +:+ ") VALUES (" +:+ Js.join "," (replicate n "?") +:+ ")" in
  let upsert :=
    insert +:+ " ON CONFLICT(id) DO UPDATE SET "
    +:+ Js.join "," (GenerateFacts.set_term <$> Js.keys row) in
  (Js.val_is_null (Js.prop row "id") = false
   /\ (forall k, k <> "id" -> Js.prop row k = Js.prop o k)
   /\ (Js.val_is_null (Js.prop o "id") = false -> row = o))
  /\ Runtime.trace
       (snd (Runtime.run
               (IdentifiableSqlitePersistence.create correlationId (Some l) callback st) w))
     = Runtime.trace (IdentifiableFacts.set_world o w)
       ++ [Runtime.EvRun h insert (snd <$> row)]
  /\ Runtime.trace
       (snd (Runtime.run
               (IdentifiableSqlitePersistence.set correlationId (Some l) callback st) w))
     = Runtime.trace (IdentifiableFacts.set_world o w)
       ++ [Runtime.EvRun h upsert ((snd <$> row) ++ (snd <$> row));
           Runtime.EvGet h (IdentifiableSqlitePersistence.selectById st)
             [Js.prop row "id"]]
  /\ length (snd <$> row) = n.
Proof.
  intros Hh Hl row n insert upsert.
  destruct (GenerateFacts.generators_join row) as (Eparams & Eset & Evalues & _ & _).
  assert (IdentifiableFacts.insert_query st row = insert) as Einsert.
  { unfold IdentifiableFacts.insert_query, insert, PersistenceFacts.from_table, n.
    now rewrite Eparams, RowFacts.placeholders. }
  assert (IdentifiableFacts.set_query st row = upsert) as Eupsert.
  { unfold IdentifiableFacts.set_query, upsert.
    fold (IdentifiableFacts.insert_query st row). now rewrite Einsert, Eset. }
  split; [|split; [|split]].
  - split; [apply RowFacts.set_row_id|].
    split; [intros k; apply RowFacts.set_row_other|].
    intros Hid. unfold row, IdentifiableFacts.set_row. now rewrite Hid.
  - rewrite (IdentifiableFacts.run_create correlationId st l o callback w Hl), Hh.
    fold row. rewrite Einsert, Evalues. reflexivity.
  - rewrite (IdentifiableFacts.run_set correlationId st h l o callback w Hh Hl).
    fold row. rewrite RowFacts.read_back_trace, Eupsert, Evalues.
    cbn [Runtime.trace PersistenceFacts.after Runtime.log Runtime.event_of].
    now rewrite <- app_assoc.
  - unfold n, Js.keys. now rewrite !length_fmap.
Qed.

Lemma written_row_has_an_id_witness :
  Js.val_is_null
    (Js.prop
       (IdentifiableFacts.set_row [("key", Js.VStr "Key 1")]
          (Example.world [[("key", Js.VStr "Key 1")]] Example.one_row)) "id") = false.
Proof.
  pose proof (written_row_has_an_id (O := Example.files) Js.Null true Example.dummies
                1%nat 0%nat [("key", Js.VStr "Key 1")]
                (Example.world [[("key", Js.VStr "Key 1")]] Example.one_row)
                eq_refl eq_refl) as P.
  cbv zeta in P. exact (proj1 (proj1 P)).
Defined.

(** ** What counting and deleting report *)

Module OutcomeFacts.
Import Js Commons Runtime RunFacts SqlitePersistence PersistenceFacts IdentifiableFacts.
Local Open Scope prog_scope.

Section Facts.
Context `{Library} {O : Outside}.

Lemma run_getCountByFilter correlationId st h filter callback (w : World O) :
  _client st = Some h ->
  run (getCountByFilter correlationId filter callback st) w
  = (call callback
       match fst (answered (Get h (countQuery st filter) []) w) with
       | Some err => (Some err, None)
       | None =>
           (None, Some (PageFacts.count_of
                          (snd (answered (Get h (countQuery st filter) []) w))))
       end,
     after (Get h (countQuery st filter) []) w).
Proof.
  intros Hh. unfold getCountByFilter, using_client. rewrite Hh.
  rewrite run_do by discriminate.
  now destruct (fst (answered _ w)).
Qed.

Lemma run_deleteByFilter correlationId st h filter callback (w : World O) :
  _client st = Some h ->
  run (deleteByFilter correlationId filter callback st) w
  = (call_if_given callback (answered (Run h (deleteQuery st filter) []) w),
     after (Run h (deleteQuery st filter) []) w).
Proof.
  intros Hh. unfold deleteByFilter, using_client. rewrite Hh.
  now rewrite run_do by discriminate.
Qed.

Lemma run_clear correlationId st h callback (w : World O) :
  _client st = Some h -> is_null (_tableName st) = false ->
  run (clear correlationId callback st) w
  = (call_if_given callback
       (withCause (SqliteConnection.connect_failed correlationId)
          <$> answered (Exec h (deleteQuery st Null)) w),
     after (Exec h (deleteQuery st Null)) w).
Proof.
  intros Hh Ht. unfold clear, using_client. rewrite Ht, Hh. cbv zeta.
  now rewrite run_do by discriminate.
Qed.

End Facts.
End OutcomeFacts.

(** X19. With a handle, [getCountByFilter] delivers the error of its
    statement with a null count, or a null error with the count of the
    answer read as a long, which is 0 when the answer has no row.
    [deleteByFilter] reports the error of its DELETE as the binding gives
    it. [clear] on a component with a table name sends, through [exec], the
    statement that [deleteByFilter] sends for a null filter, and reports a
    failure as a CONNECT_FAILED connection error that has the error of the
    binding as its cause. *)
Theorem count_and_delete_outcomes `{Commons.Library} {O : Runtime.Outside}
    (correlationId : Js.JsStr) (callback : bool) (st : SqlitePersistence.State)
    (h : Runtime.Handle) (w : Runtime.World O) :
  SqlitePersistence._client st = Some h ->
  (forall filter,
     let count := Runtime.Get h (SqlitePersistence.countQuery st filter) [] in
     fst (Runtime.run (SqlitePersistence.getCountByFilter correlationId filter callback st) w)
     = Js.call callback
         match PersistenceFacts.answered count w with
         | (Some err, _) => (Some err, None)
         | (None, Some row) => (None, Some (Commons.toLong (Js.prop row "count")))
         | (None, None) => (None, Some 0)
         end)
  /\ (forall filter,
     let delete := Runtime.Run h (SqlitePersistence.deleteQuery st filter) [] in
     Runtime.run (SqlitePersistence.deleteByFilter correlationId filter callback st) w
     = (Js.call_if_given callback (PersistenceFacts.answered delete w),
        PersistenceFacts.after delete w))
  /\ (Js.is_null (SqlitePersistence._tableName st) = false ->
      let delete := Runtime.Exec h ("DELETE FROM " +:+ PersistenceFacts.from_table st) in
      let r := Runtime.run (SqlitePersistence.clear correlationId callback st) w in
      SqlitePersistence.deleteQuery st Js.Null = "DELETE FROM " +:+ PersistenceFacts.from_table st
      /\ fst r = Js.call_if_given callback
                   match PersistenceFacts.answered delete w with
                   | Some err =>
                       Some (Js.WithCause (SqliteConnection.connect_failed correlationId) err)
                   | None => None
                   end
      /\ Runtime.trace (snd r)
         = Runtime.trace w
           ++ [Runtime.EvExec h ("DELETE FROM " +:+ PersistenceFacts.from_table st)]).
Proof.
  intros Hh. split; [|split].
  - intros filter count.
    rewrite (OutcomeFacts.run_getCountByFilter correlationId st h filter callback w Hh).
    fold count. cbn [fst].
    destruct (PersistenceFacts.answered count w) as [[err|] [row|]]; reflexivity.
  - intros filter delete. now apply OutcomeFacts.run_deleteByFilter.
  - intros Ht delete r. subst r.
    rewrite (OutcomeFacts.run_clear correlationId st h callback w Hh Ht).
    assert (SqlitePersistence.deleteQuery st Js.Null
            = "DELETE FROM " +:+ PersistenceFacts.from_table st) as E by reflexivity.
    rewrite E. fold delete. split; [reflexivity|]. split.
    + cbn [fst]. now destruct (PersistenceFacts.answered delete w).
    + reflexivity.
Qed.

Lemma count_and_delete_outcomes_witness :
  fst (Runtime.run
         (SqlitePersistence.getCountByFilter (H := Example.library) Js.Null Js.Null true
            Example.dummies)
         (Example.world [] Example.one_row))
  = Js.Called (None, Some 1).
Proof.
  pose proof (count_and_delete_outcomes (H := Example.library) (O := Example.files)
                Js.Null true Example.dummies 1%nat (Example.world [] Example.one_row)
                eq_refl) as P.
  exact (proj1 P Js.Null).
Defined.
